(** * botogram: hook dispatch, command matching, inline pagination, invoices

    A shallow embedding of the routing core of botogram
    ([botogram/bot.py], [botogram/hooks.py], [botogram/payments.py]) and the
    properties of its dispatch engine.

    Python strings are modelled as [string] (sequences of code points below
    256), Python integers as [Z], dictionaries used as registries as [gmap],
    dictionaries whose insertion order is observable (JSON objects, keyword
    arguments of a platform call) as association lists.  Code that has
    effects (calling a user function, [chat.send], the IPC store, the
    platform API) runs in a state-and-exception monad over a [World] that
    carries an append-only event trace. *)

From stdpp Require Import gmap strings list fin_maps pretty.
From Stdlib Require Import ZArith Ascii String Permutation Sorted.

Set Warnings "-register-all".

Open Scope Z_scope.

(* ===================================================================== *)
(** * Part I: the embedding                                               *)
(* ===================================================================== *)

(** ** Python text operations used by the router *)

Module PyStr.

Definition space : ascii := " "%char.
Definition tab : ascii := "009"%char.
Definition newline : ascii := "010"%char.

(** The character class [[a-zA-Z0-9_]]. *)
Definition is_word_char (c : ascii) : bool :=
  let n := nat_of_ascii c in
  ((97 <=? n) && (n <=? 122))%nat
  || ((65 <=? n) && (n <=? 90))%nat
  || ((48 <=? n) && (n <=? 57))%nat
  || (n =? 95)%nat.

(** [str.replace(a, b)] for one-character [a] and [b]. *)
Fixpoint replace_char (a b : ascii) (s : string) : string :=
  match s with
  | EmptyString => EmptyString
  | String c s' =>
      String (if Ascii.eqb c a then b else c) (replace_char a b s')
  end.

(** [str.lower()] on the code points below 256: the letters A to Z and
    the capital letters 192 to 222 of Latin-1, the multiplication sign
    215 apart, move up by 32; every other code point stays. *)
Definition lower_char (c : ascii) : ascii :=
  let n := nat_of_ascii c in
  if ((65 <=? n) && (n <=? 90))%nat
     || ((192 <=? n) && (n <=? 214))%nat
     || ((216 <=? n) && (n <=? 222))%nat
  then ascii_of_nat (n + 32) else c.

Fixpoint lower (s : string) : string :=
  match s with
  | EmptyString => EmptyString
  | String c s' => String (lower_char c) (lower s')
  end.

(** [str.split(sep)] for a one-character separator: every occurrence of
    the separator cuts, so consecutive separators give empty pieces. *)
Fixpoint split (sep : ascii) (s : string) : list string :=
  match s with
  | EmptyString => [EmptyString]
  | String c s' =>
      if Ascii.eqb c sep then EmptyString :: split sep s'
      else match split sep s' with
           | w :: ws => String c w :: ws
           | [] => [String c EmptyString]
           end
  end.

(** [re.split(r' +', s)]: the separators are the maximal runs of spaces.
    [in_sep] tells that the previous character belonged to a run. *)
Fixpoint re_split_aux (in_sep : bool) (s : string) : list string :=
  match s with
  | EmptyString => [EmptyString]
  | String c s' =>
      if Ascii.eqb c space then
        (if in_sep then re_split_aux true s'
         else EmptyString :: re_split_aux true s')
      else match re_split_aux false s' with
           | w :: ws => String c w :: ws
           | [] => [String c EmptyString]
           end
  end.

Definition re_split_spaces (s : string) : list string :=
  re_split_aux false s.

(** [sep.join(l)]. *)
Fixpoint join (sep : string) (l : list string) : string :=
  match l with
  | [] => EmptyString
  | [x] => x
  | x :: rest => x +:+ sep +:+ join sep rest
  end.

(** [s[len(p):]] when [s.startswith(p)]. *)
Fixpoint strip_prefix (p s : string) : option string :=
  match p with
  | EmptyString => Some s
  | String a p' =>
      match s with
      | EmptyString => None
      | String b s' => if Ascii.eqb a b then strip_prefix p' s' else None
      end
  end.

(** The longest prefix made of word characters, and what follows it. *)
Fixpoint span_word (s : string) : string * string :=
  match s with
  | EmptyString => (EmptyString, EmptyString)
  | String c s' =>
      if is_word_char c then
        let '(w, r) := span_word s' in (String c w, r)
      else (EmptyString, s)
  end.

Definition is_empty (s : string) : bool :=
  match s with EmptyString => true | _ => false end.

(** Whitespace as [str.strip()] and [str.split()] understand it, on the
    code points below 256: space, tab, newline, vertical tab, form feed,
    carriage return, the four separators 28..31, the next-line control
    133 and the no-break space 160. *)
Definition is_whitespace (c : ascii) : bool :=
  let n := nat_of_ascii c in
  (n =? 32)%nat || ((9 <=? n) && (n <=? 13))%nat
  || ((28 <=? n) && (n <=? 31))%nat
  || (n =? 133)%nat || (n =? 160)%nat.

Fixpoint lstrip (s : string) : string :=
  match s with
  | EmptyString => EmptyString
  | String c s' => if is_whitespace c then lstrip s' else s
  end.

Fixpoint rstrip (s : string) : string :=
  match s with
  | EmptyString => EmptyString
  | String c s' =>
      match rstrip s' with
      | EmptyString => if is_whitespace c then EmptyString
                       else String c EmptyString
      | r => String c r
      end
  end.

Definition strip (s : string) : string := rstrip (lstrip s).

(** [s.split("\n", 1)[0]]: the text before the first newline. *)
Fixpoint first_line (s : string) : string :=
  match s with
  | EmptyString => EmptyString
  | String c s' =>
      if Ascii.eqb c newline then EmptyString else String c (first_line s')
  end.

(** [sorted(...)] on strings: insertion sort by code point order. *)
Fixpoint insert_sorted (x : string) (l : list string) : list string :=
  match l with
  | [] => [x]
  | y :: l' => if String.leb x y then x :: l else y :: insert_sorted x l'
  end.

Definition sorted (l : list string) : list string :=
  foldr insert_sorted [] l.

End PyStr.

(** ** The three regular expressions of the router

    Python's [re.match] anchors at the start; [$] matches at the end of the
    text and also just before a newline that ends the text; [.] matches
    every character but the newline.  Each pattern below is matched by a
    function that follows the pattern from left to right; where a group is
    optional, the greedy choice is tried first and the other choice only
    when the rest of the pattern fails, as the backtracking matcher does. *)

Module Re.
Import PyStr.

(** Dot-star up to [$]: no newline, except possibly one that ends the
    text. *)
Fixpoint dotstar_end (s : string) : bool :=
  match s with
  | EmptyString => true
  | String c s' =>
      if Ascii.eqb c newline then is_empty s' else dotstar_end s'
  end.

(** The optional argument group, a space followed by dot-star, up to
    [$]. *)
Definition args_tail (s : string) : bool :=
  match s with
  | EmptyString => true
  | String c s' =>
      if Ascii.eqb c space then dotstar_end s'
      else Ascii.eqb c newline && is_empty s'
  end.

(** [$] alone. *)
Definition at_end (s : string) : bool :=
  match s with
  | EmptyString => true
  | String c s' => Ascii.eqb c newline && is_empty s'
  end.

(** [re.match(r'^[a-zA-Z0-9_]+$', name)] as a truth value. *)
Definition match_name (name : string) : bool :=
  let '(w, r) := span_word name in
  negb (is_empty w) && at_end r.

(** The pattern of a command hook matched against [text]: [/], the
    name, an optional group 1 made of [@] and one or more word
    characters, the optional argument group, [$].  The result is
    [None] when there is no match, otherwise the content of group 1
    ([None] when the group did not take part in the match).  [name] is
    taken literally: the names that pass [match_name] hold no
    metacharacter.  After the name, a [@] can only start group 1; the
    group is greedy and what follows it must be a space or the end, so
    a shorter word cannot succeed where the longest fails. *)
Definition match_command (name text : string) : option (option string) :=
  match strip_prefix ("/" +:+ name) text with
  | None => None
  | Some r =>
      match strip_prefix "@" r with
      | Some r1 =>
          let '(w, r2) := span_word r1 in
          if negb (is_empty w) && args_tail r2
          then Some (Some ("@" +:+ w))
          else None
      | None => if args_tail r then Some None else None
      end
  end.

(** The pattern of the command router matched against [text]: [/],
    group 1 made of one or more word characters, an optional group made
    of [@] and the username, the optional argument group, [$].  The
    result is the content of group 1 when the text matches.  [username] is taken
    literally.  Group 1 is greedy; what follows it must be [@], a space
    or the end, none of which is a word character, so only the longest
    word can succeed. *)
Definition match_commands (username text : string) : option string :=
  match strip_prefix "/" text with
  | Some r0 =>
      let '(w, r) := span_word r0 in
      if is_empty w then None
      else
        let mentioned :=
          match strip_prefix ("@" +:+ username) r with
          | Some r' => args_tail r'
          | None => false
          end in
        if mentioned || args_tail r then Some w else None
  | None => None
  end.

End Re.

(** ** Python values, objects and effects *)

Module Py.

(** The identity of a heap object. *)
Definition loc := positive.

(** What [json.dumps] accepts. *)
Inductive jval :=
| JNull
| JBool (b : bool)
| JInt (z : Z)
| JStr (s : string)
| JList (l : list jval)
| JDict (kv : list (string * jval)).

(** A [dict] with string keys; the list keeps the insertion order, which
    [json.dumps] follows. *)
Definition dict := list (string * jval).

(** [d[k] = v]: an existing key keeps its place, a new key goes last. *)
Fixpoint dict_set (k : string) (v : jval) (d : dict) : dict :=
  match d with
  | [] => [(k, v)]
  | (k', v') :: d' =>
      if String.eqb k k' then (k, v) :: d' else (k', v') :: dict_set k v d'
  end.

Fixpoint dict_get (k : string) (d : dict) : option jval :=
  match d with
  | [] => None
  | (k', v') :: d' => if String.eqb k k' then Some v' else dict_get k d'
  end.

Inductive exn :=
| NameError (msg : string)
| ValueError (msg : string)
| AttributeError (msg : string)
| TypeError (msg : string)
| KeyError (msg : string)
| UserError (msg : string).

(** What a handler of inline queries returns when its result can be
    iterated over objects: a list, or a generator, finite or unbounded,
    whose body reads the state of the handler and leaves it alone.  The
    sequence holds references: the same object may be yielded at several
    positions.  The body of a generator runs inside [next], where it
    may raise: [GenRaise l e] yields the objects of [l] and raises [e]
    when it is asked for one more. *)
Inductive Generator :=
| GenList (l : list loc)
| GenFun (f : nat -> loc)
| GenRaise (l : list loc) (e : exn).

(** The object produced by the [n+1]-th [next], [None] once the iterator
    is exhausted or has raised. *)
Definition gen_nth (g : Generator) (n : nat) : option loc :=
  match g with
  | GenList l => l !! n
  | GenFun f => Some (f n)
  | GenRaise l _ => l !! n
  end.

(** The exception met on the way to the [n+1]-th object.  [islice]
    reaches its start by calling [next] on the iterator, so an exception
    that lies before the start is raised by the first [next] of the
    slice as well. *)
Definition gen_fails (g : Generator) (n : nat) : option exn :=
  match g with
  | GenRaise l e => if (List.length l <=? n)%nat then Some e else None
  | _ => None
  end.

(** [sys.maxsize] of a 64-bit build, the largest start [islice]
    accepts. *)
Definition maxsize : Z := 9223372036854775807.

Inductive pyval :=
| PyNone
| PyBool (b : bool)
| PyInt (z : Z)
| PyStr (s : string)
| PyGen (g : Generator).

(** The value of a keyword argument. *)
Fixpoint kw_get (k : string) (args : list (string * pyval))
  : option pyval :=
  match args with
  | [] => None
  | (k', v) :: args' => if String.eqb k k' then Some v else kw_get k args'
  end.

(** [v is True] *)
Definition is_True (v : pyval) : bool :=
  match v with PyBool true => true | _ => false end.

Inductive outcome (A : Type) :=
| Ret (a : A)
| Raise (e : exn).
Arguments Ret {A} a.
Arguments Raise {A} e.

(** State and exceptions: a computation returns or raises, and leaves a
    state either way. *)
Definition M (S A : Type) : Type := S -> outcome A * S.

Definition ret {S A} (a : A) : M S A := fun s => (Ret a, s).
Definition raise {S A} (e : exn) : M S A := fun s => (Raise e, s).
Definition bind {S A B} (m : M S A) (k : A -> M S B) : M S B :=
  fun s => match m s with
           | (Ret a, s') => k a s'
           | (Raise e, s') => (Raise e, s')
           end.

(** ** The data model of an update *)

Inductive ChatKind := KUser | KGroup | KChannel.

Record Chat := { chat_id : Z; chat_kind : ChatKind }.

(** [msg_text] is [None] for a message without text. *)
Record Message := { msg_chat : Chat; msg_text : option string }.

Record User := { user_id : Z }.

Record InlineQuery := {
  iq_id : string;
  iq_sender : User;
  iq_query : string;
  iq_offset : string
}.

Record Update := {
  update_id : Z;
  upd_message : option Message;
  upd_inline_query : option InlineQuery
}.

(** The arguments a user function is called with. *)
Inductive CallArgs :=
| ArgsMessage (chat : Chat) (message : Message)
| ArgsCommand (chat : Chat) (message : Message) (args : list string)
| ArgsInline (inline : InlineQuery) (sender : User) (query : string).

(** The commands of the IPC protocol used by the inline hook. *)
Inductive IpcCommand :=
| InlineGet (sender : Z)
| InlineUpdate (sender : Z) (value : Z)
| InlinePurge (sender : Z).

(** What the outside sees of a run, in order. *)
Inductive Event :=
| EvCall (fname : string) (args : CallArgs)
| EvSend (chat : Chat) (text : string)
| EvIpc (command : IpcCommand)
| EvApi (method : string) (args : list (string * pyval))
| EvLog (msg : string).

Section WithUserState.
(** The state user functions keep between calls. *)
Context {U : Type}.

(** A callable: its [__name__], its [__doc__] and what a call does. *)
Record Func := {
  fn_name : string;
  fn_doc : option string;
  fn_run : CallArgs -> U -> outcome pyval * U
}.

Record World := {
  w_user : U;
  w_trace : list Event;
  w_store : gmap Z Z;
  w_heap : gmap loc dict
}.

(** The world after one more event. *)
Definition push (e : Event) (w : World) : World :=
  {| w_user := w_user w; w_trace := w_trace w ++ [e];
     w_store := w_store w; w_heap := w_heap w |}.

Definition set_user (u : U) (w : World) : World :=
  {| w_user := u; w_trace := w_trace w;
     w_store := w_store w; w_heap := w_heap w |}.

Definition set_store (st : gmap Z Z) (w : World) : World :=
  {| w_user := w_user w; w_trace := w_trace w;
     w_store := st; w_heap := w_heap w |}.

Definition set_heap (h : gmap loc dict) (w : World) : World :=
  {| w_user := w_user w; w_trace := w_trace w;
     w_store := w_store w; w_heap := h |}.

Definition emit (e : Event) : M World unit :=
  fun w => (Ret tt, push e w).

(** Calling a user function: the call is recorded, then the function
    runs on the user state. *)
Definition call_func (f : Func) (args : CallArgs) : M World pyval :=
  fun w =>
    let '(r, u') := fn_run f args (w_user w) in
    (r, set_user u' (push (EvCall (fn_name f) args) w)).

(** A call of [f] with [args] returns, whatever the user state. *)
Definition returns_normally (f : Func) (args : CallArgs) : Prop :=
  forall u, exists v u', fn_run f args u = (Ret v, u').

(** Modelled from the spec: [Chat.send], which lives outside the files at
    hand: a capability of the chat used as a side effect sink; the message
    sent is recorded. *)
Definition chat_send (chat : Chat) (text : string) : M World unit :=
  emit (EvSend chat text).

(** [bot.logger.debug(msg)]: the line is recorded. *)
Definition logger_debug (msg : string) : M World unit :=
  emit (EvLog msg).

End WithUserState.

Arguments Func : clear implicits.
Arguments World : clear implicits.

End Py.

Declare Scope py_scope.
Delimit Scope py_scope with py.
Notation "x <- m ;; k" := (Py.bind m (fun x => k))
  (at level 100, m at next level, right associativity) : py_scope.
Notation "m ;;; k" := (Py.bind m (fun _ => k))
  (at level 100, right associativity) : py_scope.

(** ** [botogram/bot.py]: the bot, its registries and the command router *)

Module bot.
Import Py PyStr.
Local Open Scope py_scope.

Definition nl : string := String newline EmptyString.

(** The reply of [/help] to a name it does not know. *)
Definition unknown_reply (name : string) : string :=
  "Error: Unknow command: /" +:+ name +:+ nl
  +:+ "Use /help for a list of commands.".

Section WithUserState.
Context {U : Type}.

(** [utils.format_docstr], which lives outside the files at hand. *)
Variable format_docstr : string -> string.

(** What the registration functions may be handed. *)
Inductive PyObj :=
| Callable (f : Func U)
| NotCallable (v : pyval).

(** The entries of the hook lists: the bound method
    [self._process_commands] or a user function. *)
Inductive HookFn :=
| BoundProcessCommands
| UserFn (f : Func U).

(** The values of the command dictionaries: the two bound methods of
    the built-in commands or a user function. *)
Inductive CommandFn :=
| DefaultHelp
| DefaultStart
| UserCommand (f : Func U).

Record Bot := {
  about : string;
  owner : string;
  _commands : gmap string (Func U);
  _processors : list HookFn;
  _before_hooks : list HookFn;
  itself_username : string
}.

(** [Bot.__init__]; [username] is what [getMe] answers. *)
Definition Bot_init (username : string) : Bot :=
  {| about := ""; owner := ""; _commands := ∅;
     _processors := [BoundProcessCommands]; _before_hooks := [];
     itself_username := username |}.

Definition _default_commands : gmap string CommandFn :=
  <["help" := DefaultHelp]> (<["start" := DefaultStart]> ∅).

(** *** Registration *)

Definition before_processing (func : PyObj) : M Bot unit :=
  match func with
  | NotCallable _ =>
      raise (ValueError "A before processing hook must be callable")
  | Callable f =>
      fun b =>
        (Ret tt,
         {| about := about b; owner := owner b; _commands := _commands b;
            _processors := _processors b;
            _before_hooks := _before_hooks b ++ [UserFn f];
            itself_username := itself_username b |})
  end.

Definition process_messages (func : PyObj) : M Bot PyObj :=
  match func with
  | NotCallable _ =>
      raise (ValueError "A message processor must be callable")
  | Callable f =>
      fun b =>
        (Ret func,
         {| about := about b; owner := owner b; _commands := _commands b;
            _processors := _processors b ++ [UserFn f];
            _before_hooks := _before_hooks b;
            itself_username := itself_username b |})
  end.

(** The inner function [apply] of [Bot.command], closed over [name]. *)
Definition apply (name : string) (func : PyObj) : M Bot PyObj :=
  match func with
  | NotCallable _ =>
      raise (ValueError "A command processor must be callable")
  | Callable f =>
      fun b =>
        (Ret func,
         {| about := about b; owner := owner b;
            _commands := <[name := f]> (_commands b);
            _processors := _processors b;
            _before_hooks := _before_hooks b;
            itself_username := itself_username b |})
  end.

(** What [Bot.command] returns: the decorator when [func] is [None],
    nothing otherwise. *)
Inductive CommandResult :=
| Applier (name : string)
| Applied.

Definition command (name : string) (func : option PyObj)
  : M Bot CommandResult :=
  fun b =>
    if decide (is_Some (_commands b !! name)) then
      (Raise (NameError ("The command /" +:+ name +:+ " already exists")),
       b)
    else
      match func with
      | None => (Ret (Applier name), b)
      | Some f => (_ <- apply name f ;; ret Applied) b
      end.

(** *** Built-in commands *)

Definition _get_commands (b : Bot) : gmap string CommandFn :=
  (UserCommand <$> _commands b) ∪ _default_commands.

Definition help_doc : string :=
  "Show this help message" +:+ nl +:+
  "        You can also use '/help <command>' to get help about a command."
  +:+ nl +:+ "        ".

Definition start_doc : string :=
  "Start using the bot." +:+ nl +:+
  "        It shows a greeting message." +:+ nl +:+ "        ".

Definition command_doc (fn : CommandFn) : option string :=
  match fn with
  | DefaultHelp => Some help_doc
  | DefaultStart => Some start_doc
  | UserCommand f => fn_doc f
  end.

(** The truth value of a string or of [None]. *)
Definition truthy (d : option string) : bool :=
  match d with
  | Some s => negb (is_empty s)
  | None => false
  end.

Definition owner_footer (b : Bot) (last : string) : list string :=
  if truthy (Some (owner b)) then
    [" "; "Please contact " +:+ owner b +:+ last]
  else [].

Definition _generic_help_message (b : Bot)
    (commands : gmap string CommandFn) : list string :=
  (if truthy (Some (about b)) then [about b; ""] else [])
  ++ (if (0 <? size (_commands b))%nat then
        ["Available commands:"]
        ++ omap (fun name =>
                   fn ← commands !! name;
                   let docstring :=
                     if truthy (command_doc fn)
                     then first_line (strip (default "" (command_doc fn)))
                     else "No description available." in
                   Some ("/" +:+ name +:+ " - " +:+ docstring))
             (sorted (fst <$> map_to_list commands))
        ++ ["Use /help <command> if you need help about a " +:+
            "specific command."]
      else ["No commands available."])
  ++ owner_footer b " if you have problems with this bot.".

Definition _command_help_message (b : Bot)
    (commands : gmap string CommandFn) (command : string) : list string :=
  (match commands !! command with
   | Some fn =>
       if truthy (command_doc fn)
       then ["/" +:+ command +:+ " - " +:+
             format_docstr (default "" (command_doc fn))]
       else ["No help messages for the /" +:+ command +:+ " command."]
   | None => []
   end)
  ++ owner_footer b " if you have problems with this bot".

Definition _default_start_command (b : Bot) (chat : Chat)
    (message : Message) (args : list string) : M (World U) unit :=
  chat_send chat
    (join nl ((if truthy (Some (about b)) then [about b] else [])
              ++ ["Use /help to get a list of all the commands"])).

Definition _default_help_command (b : Bot) (chat : Chat)
    (message : Message) (args : list string) : M (World U) unit :=
  let commands := _get_commands b in
  let message :=
    if (1 <? List.length args)%nat then
      ["Error: the /help command allows up to one argument."]
    else
      match args with
      | [a] =>
          if decide (is_Some (commands !! a)) then
            _command_help_message b commands a
          else
            ["Error: Unknow command: /" +:+ a;
             "Use /help for a list of commands."]
      | _ => _generic_help_message b commands
      end in
  chat_send chat (join nl message).

(** [commands[command](chat, message, args)] *)
Definition call_command (b : Bot) (fn : CommandFn) (chat : Chat)
    (message : Message) (args : list string) : M (World U) unit :=
  match fn with
  | DefaultHelp => _default_help_command b chat message args
  | DefaultStart => _default_start_command b chat message args
  | UserCommand f =>
      _ <- call_func f (ArgsCommand chat message args) ;; ret tt
  end.

(** *** Dispatch *)

Definition _process_commands (b : Bot) (chat : Chat) (message : Message)
  : M (World U) pyval :=
  match msg_text message with
  | None => ret PyNone
  | Some text =>
      match Re.match_commands (itself_username b) text with
      | None => ret PyNone
      | Some command =>
          let splitted := split space text in
          let args := tail splitted in
          let mentioned :=
            String.eqb (default "" (head splitted))
              ("/" +:+ command +:+ "@" +:+ itself_username b) in
          let commands := _get_commands b in
          match commands !! command with
          | Some fn =>
              call_command b fn chat message args ;;; ret (PyBool true)
          | None =>
              if match chat_kind chat with KUser => true | _ => false end
                 || mentioned
              then
                chat_send chat
                  (join nl ["Unknow command /" +:+ command +:+ ".";
                            "Use /help for a list of commands."]) ;;;
                ret PyNone
              else ret PyNone
          end
      end
  end.

(** [hook(update.message.chat, update.message)] *)
Definition call_hook (b : Bot) (hook : HookFn) (chat : Chat)
    (message : Message) : M (World U) pyval :=
  match hook with
  | BoundProcessCommands => _process_commands b chat message
  | UserFn f => call_func f (ArgsMessage chat message)
  end.

(** The loop of [Bot.process] over the rest of the hook list. *)
Fixpoint process_hooks (b : Bot) (hooks : list HookFn) (chat : Chat)
    (message : Message) : M (World U) unit :=
  match hooks with
  | [] => ret tt
  | hook :: rest =>
      result <- call_hook b hook chat message ;;
      if is_True result then ret tt
      else process_hooks b rest chat message
  end.

(** The hooks of [hooks], called in the order of the list, each from
    the world the one before it left, all returned something other than
    [True]; [w'] is the world after the last of them. *)
Inductive passes (b : Bot) (chat : Chat) (message : Message)
  : list HookFn -> World U -> World U -> Prop :=
| passes_nil w : passes b chat message [] w w
| passes_cons hook rest v w w1 w2 :
    call_hook b hook chat message w = (Ret v, w1) ->
    is_True v = false ->
    passes b chat message rest w1 w2 ->
    passes b chat message (hook :: rest) w w2.

(** The record of the call of a user hook. *)
Definition hook_event (chat : Chat) (message : Message) (f : Func U)
  : Event :=
  EvCall (fn_name f) (ArgsMessage chat message).

Definition process (b : Bot) (update : Update) : M (World U) unit :=
  match upd_message update with
  | Some message =>
      process_hooks b (_before_hooks b ++ _processors b)
        (msg_chat message) message
  | None =>
      match _before_hooks b ++ _processors b with
      | [] => ret tt
      | _ :: _ =>
          raise (AttributeError "'NoneType' object has no attribute 'chat'")
      end
  end.

End WithUserState.

Arguments PyObj : clear implicits.
Arguments HookFn : clear implicits.
Arguments CommandFn : clear implicits.
Arguments Bot : clear implicits.

End bot.

(** ** [json.dumps] with its default settings *)

Module Json.
Import Py PyStr.

Definition backslash : ascii := "092"%char.
Definition dquote : ascii := "034"%char.

Definition hex_digit (n : nat) : ascii :=
  if (n <? 10)%nat then ascii_of_nat (48 + n) else ascii_of_nat (87 + n).

(** The escapes of [ensure_ascii]: the quote, the backslash, the five
    short escapes, and four hexadecimal digits for whatever else lies
    outside the range from the space to the tilde. *)
Definition escape_char (c : ascii) : string :=
  let n := nat_of_ascii c in
  let esc (x : ascii) := String backslash (String x EmptyString) in
  if (n =? 34)%nat then esc dquote
  else if (n =? 92)%nat then esc backslash
  else if (n =? 10)%nat then esc "n"%char
  else if (n =? 13)%nat then esc "r"%char
  else if (n =? 9)%nat then esc "t"%char
  else if (n =? 8)%nat then esc "b"%char
  else if (n =? 12)%nat then esc "f"%char
  else if ((n <? 32) || (126 <? n))%nat then
    String backslash
      (String "u"%char
         (String "0"%char
            (String "0"%char
               (String (hex_digit (n / 16))
                  (String (hex_digit (n mod 16)) EmptyString)))))
  else String c EmptyString.

Fixpoint escape (s : string) : string :=
  match s with
  | EmptyString => EmptyString
  | String c s' => escape_char c +:+ escape s'
  end.

Definition quote (s : string) : string :=
  String dquote (escape s +:+ String dquote EmptyString).

Fixpoint dumps (v : jval) : string :=
  match v with
  | JNull => "null"
  | JBool true => "true"
  | JBool false => "false"
  | JInt z => pretty z
  | JStr s => quote s
  | JList l => "[" +:+ join ", " (map dumps l) +:+ "]"
  | JDict kv =>
      "{" +:+
      join ", "
        (map (fun p => match p with
                       | (k, x) => quote k +:+ ": " +:+ dumps x
                       end) kv)
      +:+ "}"
  end.

End Json.

(** ** [botogram/hooks.py] *)

Module hooks.
Import Py PyStr.
Local Open Scope py_scope.

Record Component := { component_name : string; _component_id : Z }.

(** The running bot as the hooks use it: the username of [bot.itself]
    and what the platform answers to a call of [bot.api]. *)
Record BotApi := {
  bot_username : string;
  api_response : string -> list (string * pyval) -> pyval
}.

Section WithUserState.
Context {U : Type}.

(** Modelled from the spec: [Bot._call], which lives outside the files
    at hand: the handler function is invoked with the kind-specific
    arguments and its result is handed back; what it raises
    propagates. *)
Definition bot__call (func : Func U) (component_id : Z)
    (kwargs : CallArgs) : M (World U) pyval :=
  call_func func kwargs.

(** Modelled from the spec: the Inline Pagination Store behind
    [self._ipc.command], which lives outside the files at hand: a
    mapping from sender identifier to offset; [inline.get] answers 0
    for a sender without state, [inline.update] stores the offset,
    [inline.purge] resets the sender. *)
Definition ipc_command (c : IpcCommand) : M (World U) Z :=
  fun w =>
    let store' :=
      match c with
      | InlineGet _ => w_store w
      | InlineUpdate s v => <[s := v]> (w_store w)
      | InlinePurge s => delete s (w_store w)
      end in
    (Ret match c with
         | InlineGet s => default 0 (w_store w !! s)
         | _ => 0
         end,
     set_store store' (push (EvIpc c) w)).

(** Modelled from the spec: [bot.api.call], the platform call, which
    lives outside the files at hand: the call is issued, which the trace
    records, and the answer of the platform is handed back. *)
Definition api_call (bot : BotApi) (method : string)
    (args : list (string * pyval)) : M (World U) pyval :=
  emit (EvApi method args) ;;; ret (api_response bot method args).

(** *** The base class *)

Record Hook := {
  func : Func U;
  name : string;
  component : Component;
  component_id : Z
}.

(** [Hook.__init__], before [_after_init]. *)
Definition Hook_init (f : Func U) (c : Component) : Hook :=
  let prefix :=
    if is_empty (component_name c) then ""
    else component_name c +:+ "::" in
  {| func := f; name := prefix +:+ fn_name f; component := c;
     component_id := _component_id c |}.

Definition get_message (update : Update) : M (World U) Message :=
  match upd_message update with
  | Some m => ret m
  | None =>
      raise (AttributeError "'NoneType' object has no attribute 'text'")
  end.

(** [Hook.call]; the [Context] block only attributes what happens inside
    to the hook and leaves the state alone. *)
Definition Hook_call (_only_texts : bool)
    (_call : BotApi -> Update -> M (World U) pyval)
    (bot : BotApi) (update : Update) : M (World U) pyval :=
  if _only_texts then
    message <- get_message update ;;
    match msg_text message with
    | None => ret PyNone
    | Some _ => _call bot update
    end
  else _call bot update.

(** [Hook._call] *)
Definition Hook__call (self : Hook) (bot : BotApi) (update : Update)
  : M (World U) pyval :=
  message <- get_message update ;;
  bot__call (func self) (component_id self)
    (ArgsMessage (msg_chat message) message).

(** *** [MessageEqualsHook] and [MessageContainsHook] *)

Record MessageArgs := {
  arg_string : string;
  arg_ignore_case : bool;
  arg_multiple : bool
}.

Record MessageHook := {
  msg_hook : Hook;
  msg_args : MessageArgs;
  _string : string
}.

(** [MessageEqualsHook._after_init], inherited by the contains hook. *)
Definition MessageHook_init (f : Func U) (c : Component)
    (args : MessageArgs) : MessageHook :=
  {| msg_hook := Hook_init f c; msg_args := args;
     _string := if arg_ignore_case args then lower (arg_string args)
                else arg_string args |}.

Definition _prepare (self : MessageHook) (update : Update)
  : M (World U) (Message * string) :=
  message <- get_message update ;;
  match msg_text message with
  | None =>
      raise (AttributeError "'NoneType' object has no attribute 'split'")
  | Some text =>
      ret (message,
           if arg_ignore_case (msg_args self) then lower text else text)
  end.

Definition MessageEqualsHook__call (self : MessageHook) (bot : BotApi)
    (update : Update) : M (World U) pyval :=
  p <- _prepare self update ;;
  let '(message, text) := p in
  if negb (String.eqb text (_string self)) then ret PyNone
  else bot__call (func (msg_hook self)) (component_id (msg_hook self))
         (ArgsMessage (msg_chat message) message).

(** The [for one in splitted] loop of [MessageContainsHook._call];
    [res] is the list of results so far. *)
Fixpoint contains_loop (self : MessageHook) (message : Message)
    (splitted : list string) (res : list pyval)
  : M (World U) (list pyval) :=
  match splitted with
  | [] => ret res
  | one :: rest =>
      if negb (String.eqb one (_string self)) then
        contains_loop self message rest res
      else
        result <- bot__call (func (msg_hook self))
                    (component_id (msg_hook self))
                    (ArgsMessage (msg_chat message) message) ;;
        let res := (res ++ [result])%list in
        if negb (arg_multiple (msg_args self)) then ret res
        else contains_loop self message rest res
  end.

Definition MessageContainsHook__call (self : MessageHook) (bot : BotApi)
    (update : Update) : M (World U) pyval :=
  p <- _prepare self update ;;
  let '(message, text) := p in
  let splitted := split space text in
  res <- contains_loop self message splitted [] ;;
  ret (PyBool (0 <? List.length res)%nat).

(** *** [CommandHook] *)

Record CommandArgs := {
  arg_name : string;
  arg_hidden : option bool;
  arg_order : option Z
}.

(** [_regex] holds the source of the compiled pattern; it is matched by
    [Re.match_command] on the name it was built from. *)
Record CommandHook := {
  cmd_hook : Hook;
  _regex : string;
  _name : string;
  _hidden : bool;
  _order : Z
}.

Definition command_pattern (name : string) : string :=
  "^\/" +:+ name +:+ "(@[a-zA-Z0-9_]+)?" +:+ "( ." +:+ "*" +:+ ")?$".

(** [Hook.__init__] followed by [CommandHook._after_init]. *)
Definition CommandHook_init (f : Func U) (c : Component)
    (args : CommandArgs) : outcome CommandHook :=
  if negb (Re.match_name (arg_name args)) then
    Raise (ValueError ("Invalid command name: " +:+ arg_name args))
  else
    Ret {| cmd_hook := Hook_init f c;
           _regex := command_pattern (arg_name args);
           _name := arg_name args;
           _hidden := default false (arg_hidden args);
           _order := default 0 (arg_order args) |}.

Definition _command_args_split_re (text : string) : list string :=
  re_split_spaces text.

(** [text.replace("\n", " ").replace("\t", " ")] *)
Definition normalize (raw : string) : string :=
  replace_char tab space (replace_char newline space raw).

Definition CommandHook__call (self : CommandHook) (bot : BotApi)
    (update : Update) : M (World U) pyval :=
  message <- get_message update ;;
  match msg_text message with
  | None =>
      raise (AttributeError "'NoneType' object has no attribute 'replace'")
  | Some raw =>
      let text := normalize raw in
      match Re.match_command (_name self) text with
      | None => ret PyNone
      | Some group1 =>
          if match group1 with
             | Some g =>
                 negb (is_empty g)
                 && negb (String.eqb g ("@" +:+ bot_username bot))
             | None => false
             end
          then ret PyNone
          else
            let args := tail (_command_args_split_re text) in
            bot__call (func (cmd_hook self)) (component_id (cmd_hook self))
              (ArgsCommand (msg_chat message) message args) ;;;
            ret (PyBool true)
      end
  end.

(** *** [InlineHook] *)

Record InlineArgs := {
  arg_cache : pyval;
  arg_private : pyval;
  arg_paginate : Z;
  arg_timer : pyval
}.

Record InlineHook := {
  inline_hook : Hook;
  cache : pyval;
  private : pyval;
  paginate : Z;
  timer : pyval
}.

Definition InlineHook_init (f : Func U) (c : Component)
    (args : InlineArgs) : InlineHook :=
  {| inline_hook := Hook_init f c; cache := arg_cache args;
     private := arg_private args; paginate := arg_paginate args;
     timer := arg_timer args |}.

Definition _ipc_get (sender : User) : M (World U) Z :=
  ipc_command (InlineGet (user_id sender)).

Definition _ipc_update (sender : User) (value : Z) : M (World U) unit :=
  ipc_command (InlineUpdate (user_id sender) value) ;;; ret tt.

Definition _ipc_purge (sender : User) : M (World U) unit :=
  ipc_command (InlinePurge (user_id sender)) ;;; ret tt.

(** [element['id'] = i] on the object [element] refers to. *)
Definition set_id (element : loc) (i : Z) : M (World U) unit :=
  fun w =>
    match w_heap w !! element with
    | None =>
        (Raise (TypeError "object does not support item assignment"), w)
    | Some d =>
        (Ret tt,
         set_heap (<[element := dict_set "id" (JInt i) d]> (w_heap w)) w)
    end.

(** The loop [for i in range(offset, offset + paginate)], with [n]
    rounds left and [i] the current index; [sliced] skipped the first
    [offset] objects, so its next object is the one at index [i].
    [StopIteration] ends the loop; any other exception of [next] goes
    through. *)
Fixpoint fill_results (generator : Generator) (i : Z) (n : nat)
    (results : list loc) : M (World U) (list loc) :=
  match n with
  | O => ret results
  | S n' =>
      match gen_nth generator (Z.to_nat i) with
      | None =>
          match gen_fails generator (Z.to_nat i) with
          | Some e => raise e
          | None => ret results
          end
      | Some element =>
          set_id element i ;;;
          fill_results generator (i + 1) n' (results ++ [element])%list
      end
  end.

(** The same loop on a [str]: [islice] iterates over its characters,
    which are strings and refuse [element['id'] = i]; the loop ends at
    once when the text has no character at [offset], or when the range
    is empty. *)
Definition fill_results_str (s : string) (i : Z) (n : nat)
  : M (World U) (list loc) :=
  match n with
  | O => ret []
  | S _ =>
      if (Z.to_nat i <? String.length s)%nat then
        raise (TypeError "'str' object does not support item assignment")
      else ret []
  end.

(** [json.dumps(results)]: the objects as they are when the call is
    made. *)
Definition dumps_results (results : list loc) : M (World U) string :=
  fun w =>
    (Ret (Json.dumps
            (JList (map (fun l => JDict (default [] (w_heap w !! l)))
                      results))), w).

(** The keyword arguments of the [answerInlineQuery] call. *)
Definition answer_args (self : InlineHook) (inline : InlineQuery)
    (dumped : string) (offset : Z) : list (string * pyval) :=
  [("inline_query_id", PyStr (iq_id inline));
   ("cache_time", cache self);
   ("is_personal", private self);
   ("results", PyStr dumped);
   ("next_offset", PyInt (offset + paginate self))].

(** The end of [InlineHook._call]: the results are dumped and the
    answer is sent. *)
Definition answer (self : InlineHook) (bot : BotApi) (inline : InlineQuery)
    (results : list loc) (offset : Z) : M (World U) pyval :=
  dumped <- dumps_results results ;;
  let args := answer_args self inline dumped offset in
  api_call bot "answerInlineQuery" args.

(** [islice] checks its start, which must lie between 0 and
    [sys.maxsize], before it asks its first argument for an iterator. *)
Definition InlineHook__call (self : InlineHook) (bot : BotApi)
    (update : Update) : M (World U) pyval :=
  match upd_inline_query update with
  | None =>
      raise (AttributeError "'NoneType' object has no attribute 'sender'")
  | Some inline =>
      let sender := iq_sender inline in
      (if is_empty (iq_offset inline) then _ipc_purge sender
       else ret tt) ;;;
      generator <- bot__call (func (inline_hook self))
                     (component_id (inline_hook self))
                     (ArgsInline inline (iq_sender inline)
                        (iq_query inline)) ;;
      offset <- _ipc_get sender ;;
      _ipc_update sender (offset + paginate self) ;;;
      if (offset <? 0) || (maxsize <? offset) then
        raise (ValueError ("Indices for islice() must be None or an "
                           +:+ "integer: 0 <= x <= sys.maxsize."))
      else
        match generator with
        | PyGen sliced =>
            results <- fill_results sliced offset
                         (Z.to_nat (paginate self)) [] ;;
            answer self bot inline results offset
        | PyStr s =>
            results <- fill_results_str s offset
                         (Z.to_nat (paginate self)) ;;
            answer self bot inline results offset
        | PyNone => raise (TypeError "'NoneType' object is not iterable")
        | PyBool _ => raise (TypeError "'bool' object is not iterable")
        | PyInt _ => raise (TypeError "'int' object is not iterable")
        end
  end.

(** *** Hooks as the dispatcher sees them: a name and [call] *)

Record ChainHook := {
  hook_name : string;
  hook_call : BotApi -> Update -> M (World U) pyval
}.

Definition of_hook (h : Hook) : ChainHook :=
  {| hook_name := name h; hook_call := Hook_call false (Hook__call h) |}.

Definition of_message_equals (h : MessageHook) : ChainHook :=
  {| hook_name := name (msg_hook h);
     hook_call := Hook_call true (MessageEqualsHook__call h) |}.

Definition of_message_contains (h : MessageHook) : ChainHook :=
  {| hook_name := name (msg_hook h);
     hook_call := Hook_call true (MessageContainsHook__call h) |}.

Definition of_command (h : CommandHook) : ChainHook :=
  {| hook_name := name (cmd_hook h);
     hook_call := Hook_call true (CommandHook__call h) |}.

Definition of_inline (h : InlineHook) : ChainHook :=
  {| hook_name := name (inline_hook h);
     hook_call := Hook_call false (InlineHook__call h) |}.

End WithUserState.

Arguments Hook : clear implicits.
Arguments MessageHook : clear implicits.
Arguments CommandHook : clear implicits.
Arguments InlineHook : clear implicits.
Arguments ChainHook : clear implicits.

End hooks.

(** ** [botogram/payments.py] *)

Module payments.
Import Py PyStr hooks.
Local Open Scope py_scope.

Section WithUserState.
Context {U : Type}.

(** The [for hook in chains[...]] loop shared by the two processors of
    payment updates; the result tells whether a hook ended the loop by
    returning [True]. *)
Definition processing_msg (update : Update) (hook : ChainHook U)
  : string :=
  "Processing update #" +:+ pretty (update_id update)
  +:+ " with the hook " +:+ hook_name hook +:+ "...".

Definition processed_msg (update : Update) (hook : ChainHook U)
  : string :=
  "Update #" +:+ pretty (update_id update)
  +:+ " was just processed by the " +:+ hook_name hook +:+ " hook.".

Fixpoint chain_loop (bot : BotApi) (chain : list (ChainHook U))
    (update : Update) : M (World U) bool :=
  match chain with
  | [] => ret false
  | hook :: rest =>
      logger_debug (processing_msg update hook) ;;;
      result <- hook_call hook bot update ;;
      if is_True result then
        logger_debug (processed_msg update hook) ;;;
        ret true
      else chain_loop bot rest update
  end.

(** The hooks of a chain, called in the order of the list, each after
    its debug line and from the world the one before it left, all
    returned something other than [True]. *)
Inductive chain_passes (bot : BotApi) (update : Update)
  : list (ChainHook U) -> World U -> World U -> Prop :=
| chain_passes_nil w : chain_passes bot update [] w w
| chain_passes_cons hook rest v w w1 w2 :
    hook_call hook bot update
      (push (EvLog (processing_msg update hook)) w) = (Ret v, w1) ->
    is_True v = false ->
    chain_passes bot update rest w1 w2 ->
    chain_passes bot update (hook :: rest) w w2.

Definition process_chain (key : string) (bot : BotApi)
    (chains : gmap string (list (ChainHook U))) (update : Update)
  : M (World U) unit :=
  match chains !! key with
  | None => raise (KeyError key)
  | Some chain =>
      claimed <- chain_loop bot chain update ;;
      if (claimed : bool) then ret tt
      else logger_debug ("No hook actually processed the #"
                         +:+ pretty (update_id update) +:+ " update.")
  end.

Definition process_shipping_query :=
  process_chain "shipping_query".

Definition process_pre_checkout_query :=
  process_chain "pre_checkout_query".

End WithUserState.

(** *** [Invoice] *)

(** One entry of [_items]: the dictionary with the keys [label] and
    [amount]. *)
Record Item := { label : string; amount : Z }.

Record Invoice := {
  _items : list Item;
  provider_token : option string;
  title : option string;
  description : option string;
  payload : option string;
  start_parameter : option string;
  currency : option string;
  photo_url : option string;
  photo_size : option Z;
  photo_width : option Z;
  photo_height : option Z;
  need_name : bool;
  need_phone_number : bool;
  need_email : bool;
  need_shipping_address : bool;
  is_flexible : bool
}.

Definition Invoice_init : Invoice :=
  {| _items := []; provider_token := None; title := None;
     description := None; payload := None; start_parameter := None;
     currency := None; photo_url := None; photo_size := None;
     photo_width := None; photo_height := None; need_name := false;
     need_phone_number := false; need_email := false;
     need_shipping_address := false; is_flexible := false |}.

Definition provider (token : string) (self : Invoice) : Invoice :=
  {| _items := _items self; provider_token := Some token;
     title := title self; description := description self;
     payload := payload self; start_parameter := start_parameter self;
     currency := currency self; photo_url := photo_url self;
     photo_size := photo_size self; photo_width := photo_width self;
     photo_height := photo_height self; need_name := need_name self;
     need_phone_number := need_phone_number self;
     need_email := need_email self;
     need_shipping_address := need_shipping_address self;
     is_flexible := is_flexible self |}.

Definition header (t d p sp c : string) (self : Invoice) : Invoice :=
  {| _items := _items self; provider_token := provider_token self;
     title := Some t; description := Some d; payload := Some p;
     start_parameter := Some sp; currency := Some c;
     photo_url := photo_url self; photo_size := photo_size self;
     photo_width := photo_width self; photo_height := photo_height self;
     need_name := need_name self;
     need_phone_number := need_phone_number self;
     need_email := need_email self;
     need_shipping_address := need_shipping_address self;
     is_flexible := is_flexible self |}.

Definition photo (url : string) (size width height : option Z)
    (self : Invoice) : Invoice :=
  {| _items := _items self; provider_token := provider_token self;
     title := title self; description := description self;
     payload := payload self; start_parameter := start_parameter self;
     currency := currency self; photo_url := Some url;
     photo_size := size; photo_width := width; photo_height := height;
     need_name := need_name self;
     need_phone_number := need_phone_number self;
     need_email := need_email self;
     need_shipping_address := need_shipping_address self;
     is_flexible := is_flexible self |}.

Definition request_for (name phone_number email : bool) (self : Invoice)
  : Invoice :=
  {| _items := _items self; provider_token := provider_token self;
     title := title self; description := description self;
     payload := payload self; start_parameter := start_parameter self;
     currency := currency self; photo_url := photo_url self;
     photo_size := photo_size self; photo_width := photo_width self;
     photo_height := photo_height self; need_name := name;
     need_phone_number := phone_number; need_email := email;
     need_shipping_address := need_shipping_address self;
     is_flexible := is_flexible self |}.

Definition shipping (request_address flexible : bool) (self : Invoice)
  : Invoice :=
  {| _items := _items self; provider_token := provider_token self;
     title := title self; description := description self;
     payload := payload self; start_parameter := start_parameter self;
     currency := currency self; photo_url := photo_url self;
     photo_size := photo_size self; photo_width := photo_width self;
     photo_height := photo_height self; need_name := need_name self;
     need_phone_number := need_phone_number self;
     need_email := need_email self;
     need_shipping_address := request_address; is_flexible := flexible |}.

Definition add_product (l : string) (price : Z) (self : Invoice) : Invoice :=
  {| _items := _items self ++ [{| label := l; amount := price |}];
     provider_token := provider_token self;
     title := title self; description := description self;
     payload := payload self; start_parameter := start_parameter self;
     currency := currency self; photo_url := photo_url self;
     photo_size := photo_size self; photo_width := photo_width self;
     photo_height := photo_height self; need_name := need_name self;
     need_phone_number := need_phone_number self;
     need_email := need_email self;
     need_shipping_address := need_shipping_address self;
     is_flexible := is_flexible self |}.

(** [sum(item['amount'] for item in self._items)]: the running total
    starts at 0 and takes the items from the left. *)
Definition total_amount (self : Invoice) : Z :=
  fold_left (fun acc item => acc + amount item) (_items self) 0.

(** A method call on an invoice, to speak of sequences of calls. *)
Inductive Call :=
| CallProvider (token : string)
| CallHeader (t d p sp c : string)
| CallPhoto (url : string) (size width height : option Z)
| CallRequestFor (name phone_number email : bool)
| CallShipping (request_address flexible : bool)
| CallAddProduct (l : string) (price : Z).

Definition do_call (c : Call) (self : Invoice) : Invoice :=
  match c with
  | CallProvider token => provider token self
  | CallHeader t d p sp c => header t d p sp c self
  | CallPhoto url size width height => photo url size width height self
  | CallRequestFor n p e => request_for n p e self
  | CallShipping a f => shipping a f self
  | CallAddProduct l price => add_product l price self
  end.

(** The calls of [cs] made in order, the first of the list first. *)
Definition do_calls (cs : list Call) (self : Invoice) : Invoice :=
  fold_left (fun inv c => do_call c inv) cs self.

(** The price a call adds to the total. *)
Definition price_of (c : Call) : Z :=
  match c with
  | CallAddProduct _ price => price
  | _ => 0
  end.

(** The prices handed to [add_product] in a sequence of calls. *)
Definition added_prices (cs : list Call) : list Z :=
  omap (fun c => match c with
                 | CallAddProduct _ price => Some price
                 | _ => None
                 end) cs.

End payments.

(** ** The page of an inline query

    What the loop of [InlineHook._call] goes through, told apart from the
    loop itself: the objects of the page and the identifiers they end up
    with. *)

Module Page.
Import Py.

(** The objects the generator yields at the positions [i], [i+1], ...,
    at most [n] of them, fewer when the generator runs out. *)
Fixpoint page (g : Generator) (i n : nat) : list loc :=
  match n with
  | O => []
  | S n' =>
      match gen_nth g i with
      | None => []
      | Some l => l :: page g (S i) n'
      end
  end.

(** The exception that ends the production of the page, if the
    generator raises before the page is full. *)
Definition page_error (g : Generator) (i n : nat) : option exn :=
  if (List.length (page g i n) <? n)%nat
  then gen_fails g (i + List.length (page g i n))
  else None.

(** The heap after [element['id'] = i] on each object of [ls] in turn,
    counting from [i]. *)
Fixpoint assign_ids (ls : list loc) (i : Z) (h : gmap loc dict)
  : gmap loc dict :=
  match ls with
  | [] => h
  | l :: ls' =>
      assign_ids ls' (i + 1)
        (match h !! l with
         | Some d => <[l := dict_set "id" (JInt i) d]> h
         | None => h
         end)
  end.

(** The value under [id] of each object of [ls], as the heap has it. *)
Definition result_ids (h : gmap loc dict) (ls : list loc)
  : list (option jval) :=
  map (fun l => d ← h !! l; dict_get "id" d) ls.

(** The identifiers [i], [i+1], ..., [i+n-1]. *)
Fixpoint ids_from (i : Z) (n : nat) : list (option jval) :=
  match n with
  | O => []
  | S n' => Some (JInt i) :: ids_from (i + 1) n'
  end.

(** What [json.dumps(results)] gives for the objects [ls] of a heap. *)
Definition dumped (h : gmap loc dict) (ls : list loc) : string :=
  Json.dumps (JList (map (fun l => JDict (default [] (h !! l))) ls)).

(** The stored offset the hook reads for a query: 0 after the purge that
    an empty offset triggers, otherwise what the store holds, 0 when it
    holds nothing. *)
Definition read_offset (inline : InlineQuery) (store : gmap Z Z) : Z :=
  if PyStr.is_empty (iq_offset inline) then 0
  else default 0 (store !! user_id (iq_sender inline)).

(** The store after the purge that an empty offset triggers. *)
Definition purged (inline : InlineQuery) (store : gmap Z Z) : gmap Z Z :=
  if PyStr.is_empty (iq_offset inline) then
    delete (user_id (iq_sender inline)) store
  else store.

Definition purge_events (inline : InlineQuery) : list Event :=
  if PyStr.is_empty (iq_offset inline) then
    [EvIpc (InlinePurge (user_id (iq_sender inline)))]
  else [].

(** The calls a contains hook makes for [k] occurrences of its token. *)
Definition invocations (multiple : bool) (k : nat) : nat :=
  if multiple then k else Nat.min 1 k.

End Page.

(** ** What the specification says, in its own words

    Definitions that follow the wording of the specification, to be
    compared with what the code computes. *)

Module Spec.
Import PyStr.

(** Every character of [s] satisfies [p]. *)
Fixpoint str_forall (p : ascii -> bool) (s : string) : bool :=
  match s with
  | EmptyString => true
  | String c s' => p c && str_forall p s'
  end.

(** A name matches [^[a-zA-Z0-9_]+$]: it is not empty and holds word
    characters only. *)
Definition valid_name (s : string) : bool :=
  negb (is_empty s) && str_forall is_word_char s.

(** The pieces of [s] between the characters that satisfy [is_sep]. *)
Fixpoint pieces (is_sep : ascii -> bool) (s : string) : list string :=
  match s with
  | EmptyString => [EmptyString]
  | String c s' =>
      if is_sep c then EmptyString :: pieces is_sep s'
      else match pieces is_sep s' with
           | w :: ws => String c w :: ws
           | [] => [String c EmptyString]
           end
  end.

(** The tokens of [s]: the maximal runs of characters that do not satisfy
    [is_sep]. *)
Definition tokens (is_sep : ascii -> bool) (s : string) : list string :=
  filter (fun w => w ≠ EmptyString) (pieces is_sep s).

(** "Tokenizes text on whitespace". *)
Definition whitespace_tokens (s : string) : list string :=
  tokens is_whitespace s.

Definition is_space (c : ascii) : bool := Ascii.eqb c space.

(** "Splitting the remaining text on runs of spaces, discarding the
    leading token": the arguments are the tokens that follow the first
    one, and a text that ends with a space has one last, empty
    argument. *)
Definition ends_with_space (s : string) : bool :=
  match last (pieces is_space s) with
  | Some EmptyString => true
  | _ => false
  end.

Definition space_run_args (s : string) : list string :=
  tail (tokens is_space s)
  ++ (if ends_with_space s then [EmptyString] else []).

(** A list of pieces without its empty pieces, the last piece apart. *)
Fixpoint collapse (l : list string) : list string :=
  match l with
  | [] => []
  | [x] => [x]
  | x :: rest => if is_empty x then collapse rest else x :: collapse rest
  end.

(** What may follow a word: nothing, or a character outside the class. *)
Definition word_stops (b : string) : bool :=
  match b with
  | EmptyString => true
  | String c _ => negb (is_word_char c)
  end.

(** The number of occurrences of a token. *)
Definition occurrences (token : string) (l : list string) : nat :=
  List.length (filter (fun w => w = token) l).

(** The sum of a list of amounts. *)
Definition sum_amounts (l : list Z) : Z := foldr Z.add 0 l.

(** A character that [CommandHook._call] reads as a space. *)
Definition is_blank (c : ascii) : bool :=
  Ascii.eqb c space || Ascii.eqb c tab || Ascii.eqb c newline.

(** [s] is empty or starts with a blank: a token ends where [s] starts. *)
Definition blank_start (s : string) : bool :=
  match s with
  | EmptyString => true
  | String c _ => is_blank c
  end.

End Spec.

(** ** Concrete bots, handlers and updates, for the examples *)

Module Sample.
Import Py.

(** A handler that returns [v] and keeps no state. *)
Definition returning (fname : string) (v : pyval) : Func unit :=
  {| fn_name := fname; fn_doc := None;
     fn_run := fun _ u => (Ret v, u) |}.

Definition world0 : World unit :=
  {| w_user := tt; w_trace := []; w_store := ∅; w_heap := ∅ |}.

Definition private_chat : Chat := {| chat_id := 7; chat_kind := KUser |}.

Definition text_message (chat : Chat) (text : string) : Message :=
  {| msg_chat := chat; msg_text := Some text |}.

Definition text_update (chat : Chat) (text : string) : Update :=
  {| update_id := 1; upd_message := Some (text_message chat text);
     upd_inline_query := None |}.

Definition root : hooks.Component :=
  {| hooks.component_name := ""; hooks._component_id := 0 |}.

Definition mybot : hooks.BotApi :=
  {| hooks.bot_username := "mybot";
     hooks.api_response := fun _ _ => PyBool true |}.

Definition no_format (s : string) : string := s.

(** *** A bot and a hook for the command [foo] *)

Definition foo_bot : bot.Bot unit :=
  snd (bot.command "foo" (Some (bot.Callable (returning "foo" PyNone)))
         (bot.Bot_init "mybot")).

Definition foo_hook : hooks.CommandHook unit :=
  {| hooks.cmd_hook := hooks.Hook_init (returning "foo" PyNone) root;
     hooks._regex := hooks.command_pattern "foo";
     hooks._name := "foo"; hooks._hidden := false; hooks._order := 0 |}.

(** *** Three processors registered in the order A, B, C; B claims *)

Definition abc_bot : bot.Bot unit :=
  let register f b := snd (bot.process_messages (bot.Callable f) b) in
  register (returning "C" PyNone)
    (register (returning "B" (PyBool true))
       (register (returning "A" PyNone) (bot.Bot_init "mybot"))).

(** *** The processors A and B registered first, B claiming, then the
    before-processing hook C *)

Definition late_bot : bot.Bot unit :=
  let register f b := snd (bot.process_messages (bot.Callable f) b) in
  snd (bot.before_processing (bot.Callable (returning "C" PyNone))
         (register (returning "B" (PyBool true))
            (register (returning "A" PyNone) (bot.Bot_init "mybot")))).

Definition abc_chain : list (hooks.ChainHook unit) :=
  [hooks.of_hook (hooks.Hook_init (returning "A" PyNone) root);
   hooks.of_hook (hooks.Hook_init (returning "B" (PyBool true)) root);
   hooks.of_hook (hooks.Hook_init (returning "C" PyNone) root)].

(** *** A contains hook for the token [spam] *)

Definition spam_hook (multiple : bool) : hooks.MessageHook unit :=
  hooks.MessageHook_init (returning "on_spam" PyNone) root
    {| hooks.arg_string := "spam"; hooks.arg_ignore_case := false;
       hooks.arg_multiple := multiple |}.

(** *** An inline handler over a shelf of ten articles *)

Definition article (title : string) : dict :=
  [("type", JStr "article"); ("title", JStr title)].

Definition shelf : World unit :=
  {| w_user := tt; w_trace := []; w_store := ∅;
     w_heap :=
       list_to_map
         (map (fun n => (Pos.of_nat n, article (pretty (Z.of_nat n))))
            (seq 1 10)) |}.

(** The handler yields a new article at each step: the objects 1, 2,
    3, ... of the shelf. *)
Definition fresh_articles : Generator :=
  GenFun (fun n => Pos.of_succ_nat n).

(** The handler builds one article and yields it twice. *)
Definition same_article : Generator := GenList [1%positive; 1%positive].

Definition pager (g : Generator) : hooks.InlineHook unit :=
  hooks.InlineHook_init (returning "search" (PyGen g)) root
    {| hooks.arg_cache := PyInt 300; hooks.arg_private := PyBool true;
       hooks.arg_paginate := 5; hooks.arg_timer := PyNone |}.

Definition inline_query (offset : string) : InlineQuery :=
  {| iq_id := "q1"; iq_sender := {| user_id := 42 |}; iq_query := "cats";
     iq_offset := offset |}.

(** The shelf once the store holds the offset 5 for the sender. *)
Definition shelf_at_5 : World unit :=
  set_store {[42 := 5]} shelf.

Definition inline_update (offset : string) : Update :=
  {| update_id := 2; upd_message := None;
     upd_inline_query := Some (inline_query offset) |}.

End Sample.

(** ** Sequences of registration calls *)

Module registrations.
Import Py bot.

Section WithUserState.
Context {U : Type}.

(** One call of a registration function of the bot, in its direct
    form. *)
Inductive Registration :=
| RegBefore (func : PyObj U)
| RegProcessor (func : PyObj U)
| RegCommand (name : string) (func : PyObj U).

(** The call and what it raises, its result left out. *)
Definition registration (r : Registration) (b : Bot U)
  : outcome unit * Bot U :=
  match r with
  | RegBefore func => before_processing func b
  | RegProcessor func =>
      match process_messages func b with
      | (Ret _, b') => (Ret tt, b')
      | (Raise e, b') => (Raise e, b')
      end
  | RegCommand name func =>
      match command name (Some func) b with
      | (Ret _, b') => (Ret tt, b')
      | (Raise e, b') => (Raise e, b')
      end
  end.

(** The bot after the call, whether it returned or raised. *)
Definition register (r : Registration) (b : Bot U) : Bot U :=
  snd (registration r b).

(** The calls of [rs] made in order, the first of the list first. *)
Definition register_all (rs : list Registration) (b : Bot U) : Bot U :=
  fold_left (fun b r => register r b) rs b.

(** The callables handed to [before_processing], in order. *)
Definition registered_before (rs : list Registration) : list (HookFn U) :=
  omap (fun r => match r with
                 | RegBefore (Callable f) => Some (UserFn f)
                 | _ => None
                 end) rs.

(** The callables handed to [process_messages], in order. *)
Definition registered_processors (rs : list Registration)
  : list (HookFn U) :=
  omap (fun r => match r with
                 | RegProcessor (Callable f) => Some (UserFn f)
                 | _ => None
                 end) rs.

(** The first callable handed to [command] under [name]. *)
Fixpoint first_command (name : string) (rs : list Registration)
  : option (Func U) :=
  match rs with
  | [] => None
  | RegCommand n (Callable f) :: rs' =>
      if String.eqb n name then Some f else first_command name rs'
  | _ :: rs' => first_command name rs'
  end.

End WithUserState.

Arguments Registration : clear implicits.

End registrations.

(** ** The texts the router reads and the messages it sends *)

Module bot_texts.
Import Py PyStr bot.

(** The optional mention of the bot after the name of a command. *)
Definition mention (username : string) (mentioned : bool) : string :=
  if mentioned then "@" +:+ username else "".

(** What follows the command and the mention: nothing, or a space and
    the rest of the text. *)
Definition after_command (rest : option string) : string :=
  match rest with
  | None => ""
  | Some s => String space s
  end.

(** The text of a command message. *)
Definition command_text (command username : string) (mentioned : bool)
    (rest : option string) : string :=
  "/" +:+ command +:+ mention username mentioned +:+ after_command rest.

(** The pieces of the rest of the text between single spaces. *)
Definition rest_args (rest : option string) : list string :=
  match rest with
  | None => []
  | Some s => split space s
  end.

Definition no_newline (s : string) : bool :=
  Spec.str_forall (fun c => negb (Ascii.eqb c newline)) s.

Definition single_line (rest : option string) : bool :=
  match rest with
  | None => true
  | Some s => no_newline s
  end.

(** The notice for a command the router does not know. *)
Definition unknown_notice (command : string) : string :=
  join nl ["Unknow command /" +:+ command +:+ ".";
           "Use /help for a list of commands."].

Section WithUserState.
Context {U : Type}.

(** The line of the generic help for one command. *)
Definition command_line (commands : gmap string (CommandFn U))
    (name : string) : option string :=
  fn ← commands !! name;
  Some ("/" +:+ name +:+ " - " +:+
        (if truthy (command_doc fn)
         then first_line (strip (default "" (command_doc fn)))
         else "No description available.")).

Definition about_lines (b : Bot U) : list string :=
  if truthy (Some (about b)) then [about b; ""] else [].

(** The world after a call of [f] with [args] made from [w]. *)
Definition after_call (f : Func U) (args : CallArgs) (w : World U)
  : World U :=
  set_user (snd (fn_run f args (w_user w)))
    (push (EvCall (fn_name f) args) w).

End WithUserState.

End bot_texts.


(** ** [botogram/payments.py]: prices, shipping options and the sending
    of an invoice *)

Module payment_objects.
Import Py PyStr hooks payments.
Local Open Scope py_scope.

(** The dictionary with the keys [label] and [amount]. *)
Definition item_json (i : Item) : jval :=
  JDict [("label", JStr (label i)); ("amount", JInt (amount i))].

(** *** [Prices] and [ShippingOptions]

    The lists of prices live in a store: a [Prices] object refers to
    its list, and a shipping option built from it refers to the same
    list. *)

Record Prices := { _prices : loc }.

(** The list [self._prices] as it is in the store. *)
Definition prices_of (st : gmap loc (list Item)) (l : loc) : list Item :=
  default [] (st !! l).

(** [Prices()]: the new object refers to a new, empty list. *)
Definition Prices_init : M (gmap loc (list Item)) Prices :=
  fun st =>
    let l := fresh (dom st) in
    (Ret {| _prices := l |}, <[l := []]> st).

Definition Prices_add (self : Prices) (l : string) (a : Z)
  : M (gmap loc (list Item)) unit :=
  fun st =>
    (Ret tt,
     <[_prices self :=
         prices_of st (_prices self) ++ [{| label := l; amount := a |}]]>
       st).

Definition Prices__to_json (self : Prices) : M (gmap loc (list Item)) string :=
  fun st =>
    (Ret (Json.dumps (JList (item_json <$> prices_of st (_prices self)))),
     st).

(** The items added one after the other, the first of the list first. *)
Definition Prices_add_all (self : Prices) (items : list Item)
    (st : gmap loc (list Item)) : gmap loc (list Item) :=
  fold_left (fun st i => snd (Prices_add self (label i) (amount i) st))
    items st.

(** One entry of [_options]; [option_prices] is the reference held under
    the key [prices]. *)
Record ShippingOption := {
  option_id : string;
  option_title : string;
  option_prices : loc
}.

Record ShippingOptions := { _options : list ShippingOption }.

Definition ShippingOptions_init : ShippingOptions := {| _options := [] |}.

Definition ShippingOptions_add (name title : string) (prices : Prices)
    (self : ShippingOptions) : ShippingOptions :=
  {| _options :=
       _options self
       ++ [{| option_id := name; option_title := title;
              option_prices := _prices prices |}] |}.

(** An entry as [json.dumps] sees it when it is called. *)
Definition option_json (st : gmap loc (list Item)) (o : ShippingOption)
  : jval :=
  JDict [("id", JStr (option_id o)); ("title", JStr (option_title o));
         ("prices", JList (item_json <$> prices_of st (option_prices o)))].

Definition ShippingOptions__to_json (self : ShippingOptions)
  : M (gmap loc (list Item)) string :=
  fun st => (Ret (Json.dumps (JList (option_json st <$> _options self))), st).

(** *** [SendInvoice] *)

(** [args[k] = v] on the dictionary of keyword arguments: an existing
    key keeps its place, a new key goes last. *)
Fixpoint kw_set (k : string) (v : pyval) (args : list (string * pyval))
  : list (string * pyval) :=
  match args with
  | [] => [(k, v)]
  | (k', v') :: args' =>
      if String.eqb k k' then (k, v) :: args'
      else (k', v') :: kw_set k v args'
  end.

Definition opt_str (o : option string) : pyval :=
  match o with Some s => PyStr s | None => PyNone end.

Definition opt_int (o : option Z) : pyval :=
  match o with Some z => PyInt z | None => PyNone end.

(** The API object of the chat: the platform and the payment provider
    it was configured with. *)
Record PayApi := {
  pay_api : BotApi;
  _payment_provider : option string
}.

(** [_get_call_args] is the bound method of the chat, which lives
    outside the files at hand; it is called when the invoice is sent and
    hands back the dictionary of the common arguments. *)
Record SendInvoice := {
  invoice : Invoice;
  _get_call_args : pyval -> pyval -> pyval -> bool -> list (string * pyval);
  _api : PayApi;
  reply_to : pyval;
  extra : pyval;
  attach : pyval;
  notify : bool;
  _used : bool
}.

(** The keys [send] writes. *)
Definition send_keys : list string :=
  ["provider_token"; "title"; "description"; "payload"; "currency";
   "total_price"; "start_parameter"; "prices"; "photo_url"; "photo_size";
   "photo_width"; "photo_height"; "need_name"; "need_phone_number";
   "need_email"; "need_shipping_address"; "is_flexible"].

(** The dictionary handed to the platform call. *)
Definition send_args (self : SendInvoice) (payment_provider : string)
  : list (string * pyval) :=
  let inv := invoice self in
  let args :=
    _get_call_args self (reply_to self) (extra self) (attach self)
      (notify self) in
  let args := kw_set "provider_token" (PyStr payment_provider) args in
  let args := kw_set "title" (opt_str (title inv)) args in
  let args := kw_set "description" (opt_str (description inv)) args in
  let args := kw_set "payload" (opt_str (payload inv)) args in
  let args := kw_set "currency" (opt_str (currency inv)) args in
  let args := kw_set "total_price" (PyInt (total_amount inv)) args in
  let args := kw_set "start_parameter" (opt_str (start_parameter inv)) args in
  let args :=
    kw_set "prices"
      (PyStr (Json.dumps (JList (item_json <$> _items inv)))) args in
  let args := kw_set "photo_url" (opt_str (photo_url inv)) args in
  let args := kw_set "photo_size" (opt_int (photo_size inv)) args in
  let args := kw_set "photo_width" (opt_int (photo_width inv)) args in
  let args := kw_set "photo_height" (opt_int (photo_height inv)) args in
  let args := kw_set "need_name" (PyBool (need_name inv)) args in
  let args :=
    kw_set "need_phone_number" (PyBool (need_phone_number inv)) args in
  let args := kw_set "need_email" (PyBool (need_email inv)) args in
  let args :=
    kw_set "need_shipping_address" (PyBool (need_shipping_address inv))
      args in
  kw_set "is_flexible" (PyBool (is_flexible inv)) args.

Definition no_provider : exn :=
  ValueError
    "You must specify a payment provider. Please read the documentation.".

(** The methods of [Invoice] that [SendInvoice] inherits act on its
    invoice. *)
Definition on_invoice (g : Invoice -> Invoice) (self : SendInvoice)
  : SendInvoice :=
  {| invoice := g (invoice self); _get_call_args := _get_call_args self;
     _api := _api self; reply_to := reply_to self; extra := extra self;
     attach := attach self; notify := notify self; _used := _used self |}.

Definition __enter__ (self : SendInvoice) : SendInvoice :=
  {| invoice := invoice self; _get_call_args := _get_call_args self;
     _api := _api self; reply_to := reply_to self; extra := extra self;
     attach := attach self; notify := notify self; _used := true |}.

Section WithUserState.
Context {U : Type}.

Definition send (self : SendInvoice) : M (World U) pyval :=
  match _payment_provider (_api self) with
  | Some payment_provider =>
      if is_empty payment_provider then raise no_provider
      else
        api_call (pay_api (_api self)) "sendInvoice"
          (send_args self payment_provider)
  | None => raise no_provider
  end.

(** [exc_type] is [None] when the block ended without an exception. *)
Definition __exit__ (self : SendInvoice) (exc_type : option exn)
  : M (World U) unit :=
  match exc_type with
  | None => send self ;;; ret tt
  | Some _ => ret tt
  end.

(** The [with] statement on a [SendInvoice]: [__enter__], the block,
    which calls the methods inherited from [Invoice] and may raise half
    way, then [__exit__]; [__exit__] returns [None], so an exception of
    the block goes on after it. *)
Definition with_invoice (self : SendInvoice)
    (block : Invoice -> outcome unit * Invoice) : M (World U) unit :=
  let entered := __enter__ self in
  match block (invoice entered) with
  | (Ret _, inv) => __exit__ (on_invoice (fun _ => inv) entered) None
  | (Raise e, inv) =>
      __exit__ (on_invoice (fun _ => inv) entered) (Some e) ;;; raise e
  end.

End WithUserState.

End payment_objects.

(** ** More bots, hooks and invoices, for the examples *)

Module Cases.
Import Py.

(** A handler that raises [e] and keeps no state. *)
Definition failing (fname : string) (e : exn) : Func unit :=
  {| fn_name := fname; fn_doc := None;
     fn_run := fun _ u => (Raise e, u) |}.

Definition group_chat : Chat := {| chat_id := 9; chat_kind := KGroup |}.

(** A processor, the command [foo] and a before hook, registered in
    this order. *)
Definition setup : list (registrations.Registration unit) :=
  [registrations.RegProcessor (bot.Callable (Sample.returning "P" PyNone));
   registrations.RegCommand "foo"
     (bot.Callable (Sample.returning "foo" PyNone));
   registrations.RegBefore (bot.Callable (Sample.returning "B" PyNone))].

(** Three processors, the second of which raises. *)
Definition boom_bot : bot.Bot unit :=
  registrations.register_all
    [registrations.RegProcessor (bot.Callable (Sample.returning "A" PyNone));
     registrations.RegProcessor
       (bot.Callable (failing "boom" (UserError "boom")));
     registrations.RegProcessor (bot.Callable (Sample.returning "C" PyNone))]
    (bot.Bot_init "mybot").

Definition plain (f : Func unit) : hooks.ChainHook unit :=
  hooks.of_hook (hooks.Hook_init f Sample.root).

(** A chain in which no hook claims, and one in which the second hook
    raises. *)
Definition ac_chain : list (hooks.ChainHook unit) :=
  [plain (Sample.returning "A" PyNone); plain (Sample.returning "C" PyNone)].

Definition boom_chain : list (hooks.ChainHook unit) :=
  [plain (Sample.returning "A" PyNone);
   plain (failing "boom" (UserError "boom"));
   plain (Sample.returning "C" PyNone)].

(** An invoice for a chat whose common arguments are its identifier, on
    an API object with or without a payment provider. *)
Definition tea_calls : list payments.Call :=
  [payments.CallProvider "other"; payments.CallAddProduct "tea" 250;
   payments.CallHeader "t" "d" "p" "s" "EUR";
   payments.CallAddProduct "cup" 700].

Definition to_chat (provider : option string) (inv : payments.Invoice)
  : payment_objects.SendInvoice :=
  {| payment_objects.invoice := inv;
     payment_objects._get_call_args :=
       fun _ _ _ _ => [("chat_id", PyInt 7)];
     payment_objects._api :=
       {| payment_objects.pay_api := Sample.mybot;
          payment_objects._payment_provider := provider |};
     payment_objects.reply_to := PyNone;
     payment_objects.extra := PyNone;
     payment_objects.attach := PyNone;
     payment_objects.notify := true;
     payment_objects._used := false |}.

(** The block of a [with] statement that adds one product, and one that
    raises after adding it. *)
Definition add_tea (inv : payments.Invoice)
  : outcome unit * payments.Invoice :=
  (Ret tt, payments.add_product "tea" 250 inv).

Definition add_tea_and_fail (inv : payments.Invoice)
  : outcome unit * payments.Invoice :=
  (Raise (UserError "boom"), payments.add_product "tea" 250 inv).

(** A store with one list of prices, and the options built from it. *)
Definition tea_prices : payment_objects.Prices :=
  {| payment_objects._prices := 1%positive |}.

Definition price_store : gmap loc (list payments.Item) :=
  {[1%positive := [{| payments.label := "tea"; payments.amount := 250 |}]]}.

Definition one_option : payment_objects.ShippingOptions :=
  payment_objects.ShippingOptions_add "std" "Standard" tea_prices
    payment_objects.ShippingOptions_init.

(** Hooks on texts. *)
Definition hello_args (ignore_case : bool) : hooks.MessageArgs :=
  {| hooks.arg_string := "Hello World"; hooks.arg_ignore_case := ignore_case;
     hooks.arg_multiple := false |}.

Definition foo_args : hooks.CommandArgs :=
  {| hooks.arg_name := "foo"; hooks.arg_hidden := None;
     hooks.arg_order := None |}.

Definition newline_args : hooks.CommandArgs :=
  {| hooks.arg_name := "foo" +:+ bot.nl; hooks.arg_hidden := None;
     hooks.arg_order := None |}.

Definition dash_args : hooks.CommandArgs :=
  {| hooks.arg_name := "my-cmd"; hooks.arg_hidden := None;
     hooks.arg_order := None |}.

Definition message_without_text : Message :=
  {| msg_chat := Sample.private_chat; msg_text := None |}.

Definition update_without_text : Update :=
  {| update_id := 3; upd_message := Some message_without_text;
     upd_inline_query := None |}.

(** Inline handlers: one whose sequence has two objects, one that
    raises, one that returns [None]. *)
Definition two_articles : Generator := GenList [1%positive; 2%positive].

Definition inline_args : hooks.InlineArgs :=
  {| hooks.arg_cache := PyInt 300; hooks.arg_private := PyBool true;
     hooks.arg_paginate := 5; hooks.arg_timer := PyNone |}.

Definition failing_pager : hooks.InlineHook unit :=
  hooks.InlineHook_init (failing "search" (UserError "boom")) Sample.root
    inline_args.

Definition none_pager : hooks.InlineHook unit :=
  hooks.InlineHook_init (Sample.returning "search" PyNone) Sample.root
    inline_args.

(** A handler that returns a text, a generator that raises after two
    objects, and a store that holds an offset beyond [sys.maxsize]. *)
Definition text_pager : hooks.InlineHook unit :=
  hooks.InlineHook_init (Sample.returning "search" (PyStr "abc"))
    Sample.root inline_args.

Definition broken_articles : Generator :=
  GenRaise [1%positive; 2%positive] (UserError "boom").

Definition shelf_far : World unit :=
  set_store {[42 := maxsize + 1]} Sample.shelf.

End Cases.

(* ===================================================================== *)
(** * Part II: properties                                                 *)
(* ===================================================================== *)

(** ** Invoices *)

Module payments_facts.
Import payments Spec.

Lemma fold_add_shift (items : list Item) (a : Z) :
  fold_left (fun acc item => acc + amount item) items a
  = a + fold_left (fun acc item => acc + amount item) items 0.
Proof.
  revert a. induction items as [|it items IH]; intros a; simpl.
  - lia.
  - rewrite (IH (a + amount it)), (IH (0 + amount it)). lia.
Qed.

Lemma total_amount_do_call (c : Call) (inv : Invoice) :
  total_amount (do_call c inv) = total_amount inv + price_of c.
Proof.
  destruct c; unfold total_amount; simpl; try lia.
  rewrite fold_left_app. simpl. reflexivity.
Qed.

Lemma total_amount_do_calls (cs : list Call) (inv : Invoice) :
  total_amount (do_calls cs inv)
  = total_amount inv + sum_amounts (added_prices cs).
Proof.
  revert inv. unfold do_calls.
  induction cs as [|c cs IH]; intros inv; simpl.
  - unfold sum_amounts. simpl. lia.
  - rewrite IH, total_amount_do_call.
    destruct c; unfold sum_amounts; simpl; lia.
Qed.

Lemma sum_amounts_perm (l l' : list Z) :
  l ≡ₚ l' -> sum_amounts l = sum_amounts l'.
Proof.
  unfold sum_amounts.
  induction 1 as [|x l l' _ IH|x y l|l l' l'' _ IH1 _ IH2]; simpl; lia.
Qed.

(** C10.  The total of an invoice is the sum of the prices handed to
    [add_product]: 0 for a fresh invoice, the same whatever the order in
    which the products were added, and left alone by [provider],
    [header], [photo], [request_for] and [shipping]. *)
Theorem invoice_total_amount (inv : Invoice) (cs : list Call) :
  total_amount Invoice_init = 0
  /\ total_amount (do_calls cs Invoice_init) = sum_amounts (added_prices cs)
  /\ (forall cs' : list Call,
        added_prices cs' ≡ₚ added_prices cs ->
        total_amount (do_calls cs' Invoice_init)
        = total_amount (do_calls cs Invoice_init))
  /\ (forall c : Call,
        (forall l price, c <> CallAddProduct l price) ->
        total_amount (do_call c inv) = total_amount inv).
Proof.
  split; [reflexivity|]. split; [|split].
  - rewrite total_amount_do_calls. reflexivity.
  - intros cs' Hperm. rewrite !total_amount_do_calls.
    f_equal. apply sum_amounts_perm, Hperm.
  - intros c Hc. rewrite total_amount_do_call.
    destruct c; simpl; try lia. exfalso. eapply Hc. reflexivity.
Qed.

Lemma invoice_total_amount_witness :
  total_amount
    (do_calls [CallAddProduct "tea" 250; CallHeader "t" "d" "p" "s" "EUR";
               CallAddProduct "cup" 700] Invoice_init)
  = total_amount
      (do_calls [CallAddProduct "cup" 700; CallShipping true false;
                 CallAddProduct "tea" 250] Invoice_init)
  /\ total_amount (do_call (CallProvider "tok")
                     (add_product "tea" 250 Invoice_init))
     = total_amount (add_product "tea" 250 Invoice_init).
Proof.
  split.
  - apply (proj1 (proj2 (proj2
             (invoice_total_amount Invoice_init
                [CallAddProduct "cup" 700; CallShipping true false;
                 CallAddProduct "tea" 250])))).
    simpl. apply perm_swap.
  - apply (proj2 (proj2 (proj2
             (invoice_total_amount (add_product "tea" 250 Invoice_init)
                [])))).
    intros l price H. discriminate H.
Defined.

End payments_facts.

(** ** Text operations *)

Module text_facts.
Import PyStr Re Spec.
#[local] Arguments String.append !_ _ / : simpl nomatch.

Lemma str_app_assoc (a b c : string) : (a +:+ b) +:+ c = a +:+ (b +:+ c).
Proof. induction a as [|x a IH]; simpl; [reflexivity|]. now rewrite IH. Qed.

Lemma str_app_empty_r (a : string) : a +:+ "" = a.
Proof. induction a as [|x a IH]; simpl; [reflexivity|]. now rewrite IH. Qed.

Lemma str_forall_impl (p q : ascii -> bool) (s : string) :
  (forall c, p c = true -> q c = true) ->
  str_forall p s = true -> str_forall q s = true.
Proof.
  intros Hpq. induction s as [|c s IH]; simpl; [reflexivity|].
  intros [Hc Hs]%andb_prop. rewrite (Hpq c Hc), (IH Hs). reflexivity.
Qed.

Lemma str_forall_app (p : ascii -> bool) (a b : string) :
  str_forall p (a +:+ b) = str_forall p a && str_forall p b.
Proof.
  induction a as [|c a IH]; simpl; [reflexivity|].
  rewrite IH. now rewrite andb_assoc.
Qed.

Lemma strip_prefix_app (p r : string) : strip_prefix p (p +:+ r) = Some r.
Proof.
  induction p as [|c p IH]; simpl; [reflexivity|].
  now rewrite Ascii.eqb_refl.
Qed.

Lemma strip_prefix_Some (p s r : string) :
  strip_prefix p s = Some r -> s = p +:+ r.
Proof.
  revert s. induction p as [|c p IH]; intros s; simpl.
  - now intros [= ->].
  - destruct s as [|d s]; [discriminate|].
    destruct (Ascii.eqb c d) eqn:E; [|discriminate].
    apply Ascii.eqb_eq in E as ->. intros H. now rewrite (IH _ H).
Qed.

Lemma split_no_sep (sep : ascii) (s : string) :
  str_forall (fun c => negb (Ascii.eqb c sep)) s = true ->
  split sep s = [s].
Proof.
  induction s as [|c s IH]; simpl; [reflexivity|].
  intros [Hc Hs]%andb_prop. apply negb_true_iff in Hc.
  rewrite Hc, (IH Hs). reflexivity.
Qed.

Lemma split_app_sep (sep : ascii) (a b : string) :
  str_forall (fun c => negb (Ascii.eqb c sep)) a = true ->
  split sep (a +:+ String sep b) = a :: split sep b.
Proof.
  induction a as [|c a IH]; simpl.
  - now rewrite Ascii.eqb_refl.
  - intros [Hc Ha]%andb_prop. apply negb_true_iff in Hc.
    rewrite Hc, (IH Ha). reflexivity.
Qed.

Lemma dotstar_end_no_newline (s : string) :
  str_forall (fun c => negb (Ascii.eqb c newline)) s = true ->
  dotstar_end s = true.
Proof.
  induction s as [|c s IH]; simpl; [reflexivity|].
  intros [Hc Hs]%andb_prop. apply negb_true_iff in Hc.
  rewrite Hc. exact (IH Hs).
Qed.

Lemma span_word_app (a b : string) :
  str_forall is_word_char a = true -> word_stops b = true ->
  span_word (a +:+ b) = (a, b).
Proof.
  intros Ha Hb. induction a as [|c a IH]; simpl.
  - destruct b as [|d b]; simpl in *; [reflexivity|].
    apply negb_true_iff in Hb. now rewrite Hb.
  - simpl in Ha. apply andb_prop in Ha as [Hc Ha].
    rewrite Hc, (IH Ha). reflexivity.
Qed.

Lemma span_word_spec (s : string) :
  let '(w, r) := span_word s in
  s = w +:+ r /\ str_forall is_word_char w = true /\ word_stops r = true.
Proof.
  induction s as [|c s IH]; simpl; [auto|].
  destruct (is_word_char c) eqn:Hc.
  - destruct (span_word s) as [w r]. destruct IH as (-> & Hw & Hr).
    simpl. rewrite Hc, Hw. auto.
  - simpl. rewrite Hc. auto.
Qed.

(** A word laid over a text that starts with a word followed by a
    character outside the class: either the two words are the same, or
    the first is a proper prefix of the second. *)
Lemma strip_prefix_word (n cmd : string) (c : ascii) (r r' : string) :
  str_forall is_word_char n = true ->
  is_word_char c = false ->
  strip_prefix n (cmd +:+ String c r) = Some r' ->
  (n = cmd /\ r' = String c r)
  \/ (exists d e, cmd = n +:+ String d e /\ r' = String d e +:+ String c r).
Proof.
  revert cmd. induction n as [|x n IH]; intros cmd Hn Hc; simpl.
  - intros [= <-]. destruct cmd as [|d e]; simpl; [now left|].
    right. exists d, e. split; reflexivity.
  - simpl in Hn. apply andb_prop in Hn as [Hx Hn].
    destruct cmd as [|d e]; simpl.
    + destruct (Ascii.eqb x c) eqn:E; [|discriminate].
      apply Ascii.eqb_eq in E as ->. congruence.
    + destruct (Ascii.eqb x d) eqn:E; [|discriminate].
      apply Ascii.eqb_eq in E as ->. intros H.
      destruct (IH e Hn Hc H) as [[-> ->]|(d' & e' & -> & ->)].
      * now left.
      * right. exists d', e'. split; reflexivity.
Qed.

Lemma is_blank_not_word (c : ascii) :
  is_blank c = true -> is_word_char c = false.
Proof.
  unfold is_blank. intros H.
  apply orb_prop in H as [H|H]; [apply orb_prop in H as [H|H]|];
    apply Ascii.eqb_eq in H as ->; reflexivity.
Qed.

Lemma args_tail_first (c : ascii) (r : string) :
  args_tail (String c r) = true -> c = space \/ c = newline.
Proof.
  simpl. destruct (Ascii.eqb c space) eqn:E.
  - apply Ascii.eqb_eq in E. auto.
  - intros [H _]%andb_prop. apply Ascii.eqb_eq in H. auto.
Qed.

Lemma args_tail_not_blank (c : ascii) (r : string) :
  is_blank c = false -> args_tail (String c r) = false.
Proof.
  intros Hc. destruct (args_tail (String c r)) eqn:E; [|reflexivity].
  apply args_tail_first in E as [->| ->]; discriminate Hc.
Qed.

(** *** Cutting at spaces and at runs of spaces *)

Lemma split_pieces (sep : ascii) (s : string) :
  split sep s = pieces (fun c => Ascii.eqb c sep) s.
Proof.
  induction s as [|c s IH]; simpl; [reflexivity|]. now rewrite IH.
Qed.

Lemma pieces_cons (is_sep : ascii -> bool) (s : string) :
  exists p ps, pieces is_sep s = p :: ps.
Proof.
  induction s as [|c s (p & ps & IH)]; simpl; [eauto|].
  destruct (is_sep c); [eauto|]. rewrite IH. eauto.
Qed.

Lemma collapse_cons_nonempty (x : string) (l : list string) :
  is_empty x = false -> collapse (x :: l) = x :: collapse l.
Proof. intros Hx. destruct l; simpl; [reflexivity|]. now rewrite Hx. Qed.

Lemma collapse_cons_empty (l : list string) :
  l <> [] -> collapse ("" :: l) = collapse l.
Proof. destruct l; [congruence|reflexivity]. Qed.

(** [re.split] on runs of spaces gives the pieces between single spaces
    without the empty pieces that lie strictly inside a run. *)
Lemma re_split_pieces (s : string) :
  re_split_aux false s
  = match pieces is_space s with
    | [] => []
    | p :: ps => p :: collapse ps
    end
  /\ re_split_aux true s = collapse (pieces is_space s).
Proof.
  induction s as [|c s [IH1 IH2]]; simpl; [split; reflexivity|].
  change (Ascii.eqb c space) with (is_space c).
  destruct (is_space c) eqn:E.
  - rewrite IH2. split; [reflexivity|].
    destruct (pieces_cons is_space s) as (p & ps & Hp). rewrite Hp.
    reflexivity.
  - rewrite IH1. destruct (pieces_cons is_space s) as (p & ps & Hp).
    rewrite Hp. split; [reflexivity|].
    now rewrite collapse_cons_nonempty.
Qed.

Lemma collapse_tokens (l : list string) :
  l <> [] ->
  collapse l
  = filter (fun w => w <> EmptyString) l
    ++ match last l with
       | Some EmptyString => [EmptyString]
       | _ => []
       end.
Proof.
  induction l as [|x l IH]; [congruence|]. intros _.
  destruct l as [|y l].
  - simpl. destruct x; [reflexivity|].
    rewrite filter_cons_True by discriminate. reflexivity.
  - change (last (x :: y :: l)) with (last (y :: l)).
    destruct x as [|c x].
    + rewrite collapse_cons_empty by discriminate.
      rewrite filter_cons_False by (intros H; now apply H).
      apply IH. discriminate.
    + rewrite collapse_cons_nonempty by reflexivity.
      rewrite filter_cons_True by discriminate.
      rewrite IH by discriminate. reflexivity.
Qed.

(** For a text that does not start with a space, what the command hook
    hands over is what the specification describes. *)
Lemma command_args_runs (c : ascii) (s : string) :
  is_space c = false ->
  tail (re_split_spaces (String c s)) = space_run_args (String c s).
Proof.
  intros Hc. unfold re_split_spaces, space_run_args, tokens, ends_with_space.
  rewrite (proj1 (re_split_pieces (String c s))). simpl pieces.
  rewrite Hc. destruct (pieces_cons is_space s) as (p & ps & Hp).
  rewrite Hp. rewrite filter_cons_True by discriminate. simpl tail.
  destruct ps as [|q ps]; [reflexivity|].
  rewrite collapse_tokens by discriminate.
  change (last (String c p :: q :: ps)) with (last (q :: ps)).
  now destruct (last (q :: ps)) as [[|d r]|].
Qed.

(** *** The matchers against the patterns they stand for

    Each matcher accepts exactly the texts that the pattern describes,
    read with the [$] and the dot of Python, and group 1 is the part of
    the text that the pattern assigns to it. *)

Lemma dotstar_end_spec (r : string) :
  dotstar_end r = true
  <-> exists s e,
        (e = "" \/ e = String newline "")
        /\ str_forall (fun c => negb (Ascii.eqb c newline)) s = true
        /\ r = s +:+ e.
Proof.
  split.
  - induction r as [|c r IH]; simpl.
    + intros _. exists "", "". auto.
    + destruct (Ascii.eqb c newline) eqn:E.
      * apply Ascii.eqb_eq in E as ->. destruct r; [|discriminate].
        intros _. exists "", (String newline ""). auto.
      * intros H. destruct (IH H) as (s & e & He & Hs & ->).
        exists (String c s), e. simpl. rewrite E, Hs. auto.
  - intros (s & e & He & Hs & ->). induction s as [|c s IH]; simpl.
    + destruct He as [->| ->]; reflexivity.
    + simpl in Hs. apply andb_prop in Hs as [Hc Hs].
      apply negb_true_iff in Hc. rewrite Hc. auto.
Qed.

Lemma args_tail_spec (r : string) :
  args_tail r = true
  <-> r = "" \/ r = String newline ""
      \/ exists s, r = String space s /\ dotstar_end s = true.
Proof.
  split.
  - destruct r as [|c r]; simpl; [auto|].
    destruct (Ascii.eqb c space) eqn:E.
    + apply Ascii.eqb_eq in E as ->. eauto.
    + intros [Hc Hr]%andb_prop. apply Ascii.eqb_eq in Hc as ->.
      destruct r; [auto|discriminate].
  - intros [->|[->|(s & -> & Hs)]]; [reflexivity|reflexivity|exact Hs].
Qed.

Lemma args_tail_word_stops (r : string) :
  args_tail r = true -> word_stops r = true.
Proof.
  destruct r as [|c r]; [reflexivity|].
  intros [->| ->]%args_tail_first; reflexivity.
Qed.

Lemma args_tail_no_at (r : string) :
  args_tail r = true -> strip_prefix "@" r = None.
Proof.
  destruct r as [|c r]; [reflexivity|].
  intros [->| ->]%args_tail_first; reflexivity.
Qed.

Lemma strip_at (r : string) : strip_prefix "@" (String "@" r) = Some r.
Proof. reflexivity. Qed.

(** The pattern of the command router. *)
Lemma match_commands_spec (username text w : string) :
  match_commands username text = Some w
  <-> valid_name w = true
      /\ exists r,
           text = "/" +:+ w +:+ r
           /\ (args_tail r = true
               \/ exists r', r = "@" +:+ username +:+ r'
                             /\ args_tail r' = true).
Proof.
  unfold match_commands, valid_name. split.
  - destruct (strip_prefix "/" text) as [r0|] eqn:E0; [|discriminate].
    apply strip_prefix_Some in E0 as ->.
    pose proof (span_word_spec r0) as H.
    destruct (span_word r0) as [w0 r]. destruct H as (-> & Hw & _).
    destruct (is_empty w0) eqn:Hne; [discriminate|].
    destruct (strip_prefix ("@" +:+ username) r) as [r'|] eqn:E1.
    + apply strip_prefix_Some in E1 as ->.
      destruct (args_tail r') eqn:Ht; simpl.
      * intros [= <-]. rewrite Hne, Hw. split; [reflexivity|].
        eexists. split; [reflexivity|]. right. eauto.
      * intros H. discriminate H.
    + simpl. destruct (args_tail r) eqn:Ht; [|discriminate].
      intros [= <-]. rewrite Hne, Hw. split; [reflexivity|]. eauto.
  - intros ([Hne Hw]%andb_prop & r & -> & Hr).
    apply negb_true_iff in Hne.
    change (strip_prefix "/" ("/" +:+ w +:+ r)) with (Some (w +:+ r)).
    assert (word_stops r = true) as Hstop.
    { destruct Hr as [Hr|(r' & -> & _)]; [|reflexivity].
      now apply args_tail_word_stops. }
    cbv beta iota. rewrite (span_word_app w r Hw Hstop), Hne.
    destruct Hr as [Hr|(r' & -> & Hr')].
    + now rewrite Hr, orb_true_r.
    + change ("@" +:+ username +:+ r') with (("@" +:+ username) +:+ r').
      now rewrite strip_prefix_app, Hr'.
Qed.

(** The pattern of a command hook. *)
Lemma match_command_spec (n text : string) (g : option string) :
  match_command n text = Some g
  <-> exists r,
        text = "/" +:+ n +:+ r
        /\ ((g = None /\ args_tail r = true)
            \/ exists w r2,
                 g = Some ("@" +:+ w) /\ valid_name w = true
                 /\ r = "@" +:+ w +:+ r2 /\ args_tail r2 = true).
Proof.
  unfold match_command, valid_name. split.
  - destruct (strip_prefix ("/" +:+ n) text) as [r|] eqn:E; [|discriminate].
    apply strip_prefix_Some in E as ->. rewrite str_app_assoc.
    destruct (strip_prefix "@" r) as [r1|] eqn:E1.
    + apply strip_prefix_Some in E1 as ->.
      pose proof (span_word_spec r1) as H.
      destruct (span_word r1) as [w r2]. destruct H as (-> & Hw & _).
      destruct (negb (is_empty w) && args_tail r2) eqn:Hc; [|discriminate].
      apply andb_prop in Hc as [Hne Ht]. intros [= <-].
      eexists. split; [reflexivity|]. right. exists w, r2.
      rewrite Hne, Hw. auto.
    + destruct (args_tail r) eqn:Ht; [|discriminate]. intros [= <-]. eauto.
  - intros (r & -> & [[-> Hr]|(w & r2 & -> & [Hne Hw]%andb_prop & -> & Hr)]).
    + rewrite <- str_app_assoc, strip_prefix_app.
      now rewrite (args_tail_no_at r Hr), Hr.
    + rewrite <- str_app_assoc, strip_prefix_app.
      change ("@" +:+ w +:+ r2) with (String "@" (w +:+ r2)).
      rewrite strip_at.
      rewrite (span_word_app w r2 Hw (args_tail_word_stops _ Hr)).
      now rewrite Hne, Hr.
Qed.

End text_facts.

(** ** The bot of [bot.py] *)

Module bot_facts.
Import Py PyStr Re Spec bot text_facts.
#[local] Arguments String.append !_ _ / : simpl nomatch.

Section WithUserState.
Context {U : Type}.
Variable format_docstr : string -> string.

(** *** Registration *)

Lemma command_fresh (b : Bot U) (name : string) (f : Func U) :
  _commands b !! name = None ->
  exists b', command name (Some (Callable f)) b = (Ret Applied, b')
             /\ _commands b' = <[name := f]> (_commands b).
Proof.
  intros Hn. unfold command. rewrite Hn.
  destruct (decide (is_Some None)) as [[? [=]]|_].
  eexists. split; reflexivity.
Qed.

(** A call of [command] for a name that is registered raises the
    naming conflict whatever [func] is (absent, callable or not), and
    the bot it leaves is the bot it found. *)
Lemma command_taken (b : Bot U) (name : string)
    (f1 : Func U) (func : option (PyObj U)) :
  _commands b !! name = Some f1 ->
  command name func b
  = (Raise (NameError ("The command /" +:+ name +:+ " already exists")), b).
Proof.
  intros Hn. unfold command. rewrite Hn.
  destruct (decide (is_Some (Some f1))) as [_|n]; [reflexivity|].
  exfalso. apply n. eauto.
Qed.

(** The decorator that [command name None] hands back does not look at the
    registry again: applied once the name is taken, it rebinds the name. *)
Lemma applier_rebinds (b : Bot U) (name : string) (f : Func U) :
  exists b', apply name (Callable f) b = (Ret (Callable f), b')
             /\ _commands b' !! name = Some f.
Proof. eexists. split; [reflexivity|]. simpl. apply lookup_insert_eq. Qed.

(** C4: the code lets a duplicate through.  [Bot.command] tests the name
    when it is called, not when the decorator it returns is applied.
    On a bot where [name] is free, [command name] hands back its
    decorator and leaves the bot alone, as often as it is asked; once
    the decorator has been applied to [f1], the name is bound to [f1]
    and a call of [command] with the name is rejected with the naming
    conflict, the bot left as it was; but a decorator taken while the
    name was free, applied to [f2] now, returns normally and binds the
    name to [f2]: the second registration is not rejected and the first
    handler is gone. *)
Theorem decorator_registers_duplicate (b : Bot U) (name : string)
    (f1 f2 : Func U) (func : option (PyObj U)) :
  let b1 := snd (apply name (Callable f1) b) in
  let b2 := snd (apply name (Callable f2) b1) in
  _commands b !! name = None ->
  f1 <> f2 ->
  command name None b = (Ret (Applier name), b)
  /\ apply name (Callable f1) b = (Ret (Callable f1), b1)
  /\ _commands b1 !! name = Some f1
  /\ command name func b1
     = (Raise (NameError ("The command /" +:+ name +:+ " already exists")),
        b1)
  /\ apply name (Callable f2) b1 = (Ret (Callable f2), b2)
  /\ _commands b2 !! name = Some f2
  /\ _commands b2 !! name <> _commands b1 !! name.
Proof.
  intros b1 b2 Hn Hne.
  assert (_commands b1 !! name = Some f1) as H1
    by (unfold b1; simpl; apply lookup_insert_eq).
  assert (_commands b2 !! name = Some f2) as H2
    by (unfold b2; simpl; apply lookup_insert_eq).
  split.
  { unfold command. rewrite Hn.
    destruct (decide (is_Some None)) as [[? [=]]|_]. reflexivity. }
  split; [reflexivity|]. split; [exact H1|].
  split; [exact (command_taken b1 name f1 func H1)|].
  split; [reflexivity|]. split; [exact H2|].
  rewrite H1, H2. congruence.
Qed.

Lemma process_messages_appends (b : Bot U) (f : Func U) :
  exists b', process_messages (Callable f) b = (Ret (Callable f), b')
             /\ _processors b' = _processors b ++ [UserFn f]
             /\ _before_hooks b' = _before_hooks b
             /\ _commands b' = _commands b.
Proof. eexists. repeat split. Qed.

Lemma before_processing_appends (b : Bot U) (f : Func U) :
  exists b', before_processing (Callable f) b = (Ret tt, b')
             /\ _before_hooks b' = _before_hooks b ++ [UserFn f]
             /\ _processors b' = _processors b
             /\ _commands b' = _commands b.
Proof. eexists. repeat split. Qed.

(** *** The loop of [Bot.process] *)

Lemma process_hooks_claimed (b : Bot U) (chat : Chat) (message : Message)
    (pre post : list (HookFn U)) (h : HookFn U) (v : pyval)
    (w w1 w2 : World U) :
  passes format_docstr b chat message pre w w1 ->
  call_hook format_docstr b h chat message w1 = (Ret v, w2) ->
  is_True v = true ->
  process_hooks format_docstr b (pre ++ h :: post) chat message w = (Ret tt, w2).
Proof.
  intros Hpre Hh Hv.
  induction Hpre as [w|hook rest v' w wa wb Hcall Hnot _ IH]; simpl.
  - unfold Py.bind. rewrite Hh, Hv. reflexivity.
  - unfold Py.bind. rewrite Hcall, Hnot. exact (IH Hh).
Qed.

Lemma process_hooks_unclaimed (b : Bot U) (chat : Chat)
    (message : Message) (hs : list (HookFn U)) (w w1 : World U) :
  passes format_docstr b chat message hs w w1 ->
  process_hooks format_docstr b hs chat message w = (Ret tt, w1).
Proof.
  induction 1 as [w|hook rest v' w wa wb Hcall Hnot _ IH]; simpl.
  - reflexivity.
  - unfold Py.bind. rewrite Hcall, Hnot. exact IH.
Qed.

Lemma passes_user_trace (b : Bot U) (chat : Chat) (message : Message)
    (fs : list (Func U)) (w w1 : World U) :
  passes format_docstr b chat message (UserFn <$> fs) w w1 ->
  w_trace w1 = w_trace w ++ (hook_event chat message <$> fs).
Proof.
  revert w. induction fs as [|f fs IH]; intros w Hp; inversion Hp; subst.
  - simpl. now rewrite app_nil_r.
  - match goal with
    | Hc : call_hook _ _ _ _ _ _ = _, Hr : passes _ _ _ _ _ _ _ |- _ =>
        simpl in Hc; unfold call_func in Hc;
        destruct (fn_run f (ArgsMessage chat message) (w_user w))
          as [r u'];
        injection Hc as _ <-; rewrite (IH _ Hr)
    end.
    simpl. rewrite <- app_assoc. reflexivity.
Qed.

(** *** The command router and the built-in help *)

Lemma get_commands_lookup (b : Bot U) (name : string) :
  _get_commands b !! name
  = match _commands b !! name with
    | Some f => Some (UserCommand f)
    | None => _default_commands !! name
    end.
Proof.
  unfold _get_commands. rewrite lookup_union, lookup_fmap.
  destruct (_commands b !! name); simpl;
    destruct (_default_commands !! name); reflexivity.
Qed.

Lemma match_commands_plain (username cmd rest : string) :
  str_forall is_word_char cmd = true ->
  is_empty cmd = false ->
  dotstar_end rest = true ->
  match_commands username ("/" +:+ cmd +:+ String space rest) = Some cmd.
Proof.
  intros Hw Hne Hrest. unfold match_commands. simpl.
  rewrite (span_word_app cmd (String space rest) Hw eq_refl).
  rewrite Hne. unfold space. simpl. rewrite Hrest. reflexivity.
Qed.

Lemma not_blank_no_space (s : string) :
  str_forall (fun c => negb (is_blank c)) s = true ->
  str_forall (fun c => negb (Ascii.eqb c space)) s = true.
Proof.
  apply str_forall_impl. intros c. unfold is_blank.
  destruct (Ascii.eqb c space); [discriminate|reflexivity].
Qed.

Lemma not_blank_no_newline (s : string) :
  str_forall (fun c => negb (is_blank c)) s = true ->
  str_forall (fun c => negb (Ascii.eqb c newline)) s = true.
Proof.
  apply str_forall_impl. intros c. unfold is_blank.
  destruct (Ascii.eqb c newline); [|reflexivity].
  rewrite orb_true_r. discriminate.
Qed.

Lemma default_help_unknown (b : Bot U) (chat : Chat) (message : Message)
    (name : string) (w : World U) :
  _get_commands b !! name = None ->
  _default_help_command format_docstr b chat message [name] w
  = (Ret tt, push (EvSend chat (unknown_reply name)) w).
Proof.
  intros Hn. unfold _default_help_command. simpl.
  rewrite Hn.
  destruct (decide (is_Some None)) as [[? [=]]|_].
  reflexivity.
Qed.

(** C9.  For a name that is in neither command dictionary, the built-in
    help called with that one argument sends one message: the line
    that quotes the name, one newline character, and the line that
    points to [/help]; and so does the router on the text [/help name]
    when the name holds no blank and [help] is still the built-in
    command. *)
Theorem help_unknown_command (b : Bot U) (chat : Chat)
    (message : Message) (name : string) (w : World U) :
  _get_commands b !! name = None ->
  _default_help_command format_docstr b chat message [name] w
  = (Ret tt,
     push (EvSend chat
             ("Error: Unknow command: /" +:+ name
              +:+ String "010" "Use /help for a list of commands.")) w)
  /\ (_commands b !! "help" = None ->
      str_forall (fun c => negb (is_blank c)) name = true ->
      msg_text message = Some ("/help " +:+ name) ->
      _process_commands format_docstr b chat message w
      = (Ret (PyBool true),
         push (EvSend chat
                 ("Error: Unknow command: /" +:+ name
                  +:+ String "010" "Use /help for a list of commands."))
           w)).
Proof.
  intros Hn.
  split; [exact (default_help_unknown b chat message name w Hn)|].
  intros Hhelp Hname Htext. unfold _process_commands. rewrite Htext.
  change ("/help " +:+ name) with ("/" +:+ "help" +:+ String space name).
  rewrite (match_commands_plain _ "help" name eq_refl eq_refl
             (dotstar_end_no_newline _ (not_blank_no_newline _ Hname))).
  change ("/" +:+ "help" +:+ String space name)
    with ("/help" +:+ String space name).
  rewrite (split_app_sep space "/help" name eq_refl).
  rewrite (split_no_sep space name (not_blank_no_space _ Hname)).
  rewrite get_commands_lookup, Hhelp.
  change (_default_commands !! "help") with (Some (@DefaultHelp U)).
  simpl. unfold Py.bind.
  rewrite (default_help_unknown b chat message name w Hn). reflexivity.
Qed.

(** *** A command addressed to another bot *)

Lemma strip_prefix_other_name (username suffix rest r' : string) :
  str_forall is_word_char username = true ->
  str_forall (fun c => negb (is_blank c)) suffix = true ->
  blank_start rest = true ->
  suffix <> username ->
  strip_prefix username (suffix +:+ rest) = Some r' ->
  args_tail r' = false.
Proof.
  revert suffix.
  induction username as [|x n IH]; intros suffix Hu Hs Hr Hne; simpl.
  - intros [= <-]. destruct suffix as [|d e]; [congruence|].
    simpl in Hs. apply andb_prop in Hs as [Hd _].
    apply negb_true_iff in Hd. simpl. now apply args_tail_not_blank.
  - simpl in Hu. apply andb_prop in Hu as [Hx Hn].
    destruct suffix as [|d e]; simpl.
    + destruct rest as [|c r]; [discriminate|]. simpl in Hr.
      destruct (Ascii.eqb x c) eqn:E; [|discriminate].
      apply Ascii.eqb_eq in E as ->.
      rewrite (is_blank_not_word _ Hr) in Hx. discriminate.
    + destruct (Ascii.eqb x d) eqn:E; [|discriminate].
      apply Ascii.eqb_eq in E as ->.
      simpl in Hs. apply andb_prop in Hs as [_ He].
      apply IH; auto. congruence.
Qed.

Lemma match_commands_other_bot (username cmd suffix rest : string) :
  str_forall is_word_char cmd = true ->
  str_forall (fun c => negb (is_blank c)) suffix = true ->
  blank_start rest = true ->
  str_forall is_word_char username = true ->
  suffix <> username ->
  match_commands username ("/" +:+ cmd +:+ "@" +:+ suffix +:+ rest) = None.
Proof.
  intros Hc Hs Hr Hu Hne. unfold match_commands. simpl.
  rewrite (span_word_app cmd (String "@" (suffix +:+ rest)) Hc eq_refl).
  destruct (is_empty cmd); [reflexivity|]. simpl.
  destruct (strip_prefix username (suffix +:+ rest)) as [r'|] eqn:E;
    [|reflexivity].
  now rewrite (strip_prefix_other_name _ _ _ _ Hu Hs Hr Hne E).
Qed.

Lemma process_commands_other_bot (b : Bot U) (chat : Chat)
    (message : Message) (cmd suffix rest : string) (w : World U) :
  str_forall is_word_char cmd = true ->
  str_forall (fun c => negb (is_blank c)) suffix = true ->
  blank_start rest = true ->
  str_forall is_word_char (itself_username b) = true ->
  suffix <> itself_username b ->
  msg_text message = Some ("/" +:+ cmd +:+ "@" +:+ suffix +:+ rest) ->
  _process_commands format_docstr b chat message w = (Ret PyNone, w).
Proof.
  intros Hc Hs Hr Hu Hne Htext. unfold _process_commands.
  rewrite Htext, (match_commands_other_bot _ _ _ _ Hc Hs Hr Hu Hne).
  reflexivity.
Qed.

End WithUserState.

End bot_facts.

(** ** The objects of a page *)

Module page_facts.
Import Py Page.

Lemma dict_get_set (k : string) (v : jval) (d : dict) :
  dict_get k (dict_set k v d) = Some v.
Proof.
  induction d as [|[k' v'] d IH]; simpl.
  - now rewrite String.eqb_refl.
  - destruct (String.eqb k k') eqn:E; simpl; rewrite ?String.eqb_refl, ?E;
      [reflexivity|exact IH].
Qed.

Lemma assign_ids_fresh (ls : list loc) (i : Z) (h : gmap loc dict)
    (l : loc) :
  l ∉ ls -> assign_ids ls i h !! l = h !! l.
Proof.
  revert i h. induction ls as [|x ls IH]; intros i h Hl; simpl.
  - reflexivity.
  - apply not_elem_of_cons in Hl as [Hx Hl]. rewrite (IH _ _ Hl).
    destruct (h !! x); [|reflexivity]. now rewrite lookup_insert_ne.
Qed.

Lemma assign_ids_is_Some (ls : list loc) (i : Z) (h : gmap loc dict)
    (l : loc) :
  is_Some (h !! l) -> is_Some (assign_ids ls i h !! l).
Proof.
  revert i h. induction ls as [|x ls IH]; intros i h Hl; simpl.
  - exact Hl.
  - apply IH. destruct (h !! x) eqn:E; [|exact Hl].
    apply lookup_insert_is_Some. destruct (decide (x = l)); auto.
Qed.

Lemma ids_from_length (i : Z) (n : nat) : List.length (ids_from i n) = n.
Proof. revert i. induction n as [|n IH]; intros i; simpl; auto. Qed.

Lemma ids_from_lookup (i : Z) (n k : nat) :
  (k < n)%nat -> ids_from i n !! k = Some (Some (JInt (i + Z.of_nat k))).
Proof.
  revert i k. induction n as [|n IH]; intros i k Hk; [lia|].
  destruct k as [|k]; simpl.
  - do 3 f_equal. lia.
  - rewrite IH by lia. do 3 f_equal. lia.
Qed.

(** Objects that are pairwise distinct end up with the index of their
    position. *)
Lemma assign_ids_distinct (ls : list loc) (i : Z) (h : gmap loc dict) :
  NoDup ls ->
  (forall l, l ∈ ls -> is_Some (h !! l)) ->
  result_ids (assign_ids ls i h) ls = ids_from i (List.length ls).
Proof.
  revert i h. induction ls as [|x ls IH]; intros i h Hnd Hin; simpl.
  - reflexivity.
  - apply NoDup_cons in Hnd as [Hx Hnd].
    destruct (Hin x) as [d Hd]; [left|]. rewrite Hd. f_equal.
    + rewrite (assign_ids_fresh _ _ _ _ Hx), lookup_insert_eq. simpl.
      apply dict_get_set.
    + apply (IH (i + 1)); [exact Hnd|].
      intros l Hl. apply lookup_insert_is_Some.
      destruct (decide (x = l)); [auto|]. right. split; [done|].
      apply Hin. now right.
Qed.

(** Whatever the sharing, each object of the page carries as identifier
    the index of one of the positions where it occurs. *)
Lemma assign_ids_positional (ls : list loc) (i : Z) (h : gmap loc dict)
    (l : loc) :
  (forall x, x ∈ ls -> is_Some (h !! x)) ->
  l ∈ ls ->
  exists (j : nat) (d : dict),
    ls !! j = Some l
    /\ assign_ids ls i h !! l = Some d
    /\ dict_get "id" d = Some (JInt (i + Z.of_nat j)).
Proof.
  revert i h. induction ls as [|x ls IH]; intros i h Hin Hl.
  - inversion Hl.
  - simpl. destruct (Hin x) as [dx Hdx]; [left|]. rewrite Hdx.
    assert (forall y, y ∈ ls ->
              is_Some (<[x := dict_set "id" (JInt i) dx]> h !! y)) as Hin'.
    { intros y Hy. apply lookup_insert_is_Some.
      destruct (decide (x = y)); [auto|]. right. split; [done|].
      apply Hin. now right. }
    destruct (decide (l ∈ ls)) as [Hls|Hls].
    + destruct (IH (i + 1) _ Hin' Hls) as (j & d & Hj & Hd & Hid).
      exists (S j), d. repeat split; [exact Hj|exact Hd|].
      rewrite Hid. do 2 f_equal. lia.
    + apply elem_of_cons in Hl as [->|Hl]; [|contradiction].
      exists O, (dict_set "id" (JInt i) dx). repeat split.
      * rewrite (assign_ids_fresh _ _ _ _ Hls). apply lookup_insert_eq.
      * rewrite dict_get_set. do 2 f_equal. lia.
Qed.

Lemma page_length (g : Generator) (i n : nat) :
  (List.length (page g i n) <= n)%nat.
Proof.
  revert i. induction n as [|n IH]; intros i; simpl; [lia|].
  destruct (gen_nth g i); simpl; [|lia]. specialize (IH (S i)). lia.
Qed.

(** The page is the run of the sequence that starts at [i]. *)
Lemma page_lookup (g : Generator) (i n k : nat) (l : loc) :
  page g i n !! k = Some l -> gen_nth g (i + k) = Some l.
Proof.
  revert i k. induction n as [|n IH]; intros i k; simpl; [done|].
  destruct (gen_nth g i) as [x|] eqn:E; [|done].
  destruct k as [|k]; simpl.
  - intros [= <-]. now rewrite Nat.add_0_r.
  - intros H. apply IH in H. now replace (i + S k)%nat with (S i + k)%nat by lia.
Qed.

Lemma page_unbounded (f : nat -> loc) (i n : nat) :
  page (GenFun f) i n = map f (seq i n).
Proof.
  revert i. induction n as [|n IH]; intros i; simpl; [reflexivity|].
  now rewrite IH.
Qed.

Lemma page_error_zero (g : Generator) (i : nat) : page_error g i 0 = None.
Proof. reflexivity. Qed.

Lemma page_error_yield (g : Generator) (i n : nat) (l : loc) :
  gen_nth g i = Some l -> page_error g i (S n) = page_error g (S i) n.
Proof.
  intros E. unfold page_error. simpl. rewrite E. simpl.
  change (S (List.length (page g (S i) n)) <? S n)%nat
    with (List.length (page g (S i) n) <? n)%nat.
  now rewrite Nat.add_succ_r.
Qed.

Lemma page_error_end (g : Generator) (i n : nat) :
  gen_nth g i = None -> page_error g i (S n) = gen_fails g i.
Proof.
  intros E. unfold page_error. simpl. rewrite E. simpl.
  now rewrite Nat.add_0_r.
Qed.

(** A list and an unbounded sequence never raise. *)
Lemma page_error_pure (g : Generator) (i n : nat) :
  (forall l e, g <> GenRaise l e) -> page_error g i n = None.
Proof.
  intros Hg. unfold page_error.
  destruct (List.length (page g i n) <? n)%nat; [|reflexivity].
  destruct g as [l|f|l e]; [reflexivity|reflexivity|].
  exfalso. now apply (Hg l e).
Qed.

End page_facts.

(** ** The hooks of [hooks.py] *)

Module hooks_facts.
Import Py PyStr Re Spec Page hooks text_facts page_facts.
#[local] Arguments String.append !_ _ / : simpl nomatch.
#[local] Arguments Json.dumps : simpl never.

Section WithUserState.
Context {U : Type}.

Lemma last_four {A : Type} (l : list A) (a b c d : A) :
  last (l ++ [a; b; c; d]) = Some d.
Proof.
  change (l ++ [a; b; c; d]) with (l ++ [a; b; c] ++ [d]).
  now rewrite app_assoc, last_snoc.
Qed.

Lemma set_heap_id (w : World U) : set_heap (w_heap w) w = w.
Proof. now destruct w. Qed.

(** *** The inline hook *)

Lemma fill_results_spec (g : Generator) (n i : nat) (results : list loc)
    (w : World U) :
  (forall l, l ∈ page g i n -> is_Some (w_heap w !! l)) ->
  fill_results g (Z.of_nat i) n results w
  = (match page_error g i n with
     | Some e => Raise e
     | None => Ret (results ++ page g i n)
     end,
     set_heap (assign_ids (page g i n) (Z.of_nat i) (w_heap w)) w).
Proof.
  revert i results w.
  induction n as [|n IH]; intros i results w Hin.
  - simpl. unfold ret. now rewrite app_nil_r, set_heap_id.
  - cbn [fill_results]. rewrite Nat2Z.id.
    destruct (gen_nth g i) as [l|] eqn:E.
    + rewrite (page_error_yield g i n l E).
      assert (page g i (S n) = l :: page g (S i) n) as Hpage
        by (simpl; now rewrite E).
      rewrite Hpage in *.
      destruct (Hin l) as [d Hd]; [left|].
      unfold bind, set_id. rewrite Hd.
      cbn [assign_ids]. rewrite Hd.
      replace (Z.of_nat i + 1) with (Z.of_nat (S i)) by lia.
      rewrite IH.
      * cbn [w_heap set_heap]. rewrite <- app_assoc.
        destruct (page_error g (S i) n); reflexivity.
      * intros l' Hl'. cbn [w_heap set_heap]. apply lookup_insert_is_Some.
        destruct (decide (l = l')); [auto|]. right. split; [done|].
        apply Hin. now right.
    + rewrite (page_error_end g i n E).
      assert (page g i (S n) = []) as -> by (simpl; now rewrite E).
      simpl. destruct (gen_fails g i); unfold raise, ret;
        now rewrite ?app_nil_r, set_heap_id.
Qed.

Lemma fill_results_from (g : Generator) (n : nat) (o : Z)
    (results : list loc) (w : World U) :
  0 <= o ->
  (forall l, l ∈ page g (Z.to_nat o) n -> is_Some (w_heap w !! l)) ->
  fill_results g o n results w
  = (match page_error g (Z.to_nat o) n with
     | Some e => Raise e
     | None => Ret (results ++ page g (Z.to_nat o) n)
     end,
     set_heap (assign_ids (page g (Z.to_nat o) n) o (w_heap w)) w).
Proof.
  intros Ho Hin.
  pose proof (fill_results_spec g n (Z.to_nat o) results w Hin) as E.
  rewrite (Z2Nat.id o Ho) in E. exact E.
Qed.

(** The offset the hook reads from the store, after the purge. *)
Lemma read_after_purge (inline : InlineQuery) (store : gmap Z Z) :
  default 0 (purged inline store !! user_id (iq_sender inline))
  = read_offset inline store.
Proof.
  unfold purged, read_offset.
  destruct (is_empty (iq_offset inline)); [|reflexivity].
  now rewrite lookup_delete_eq.
Qed.

(** The hook up to the test of the offset: the purge, the call of the
    handler, the read and the write of the store. *)
Lemma inline_call_prefix (self : InlineHook U) (bot : BotApi)
    (update : Update) (inline : InlineQuery) (v : pyval) (u' : U)
    (w : World U) :
  let s := user_id (iq_sender inline) in
  let o := read_offset inline (w_store w) in
  let moved :=
    {| w_user := u';
       w_trace :=
         w_trace w ++ purge_events inline
         ++ [EvCall (fn_name (func (inline_hook self)))
               (ArgsInline inline (iq_sender inline) (iq_query inline));
             EvIpc (InlineGet s);
             EvIpc (InlineUpdate s (o + paginate self))];
       w_store := <[s := o + paginate self]> (purged inline (w_store w));
       w_heap := w_heap w |} in
  upd_inline_query update = Some inline ->
  fn_run (func (inline_hook self))
    (ArgsInline inline (iq_sender inline) (iq_query inline)) (w_user w)
  = (Ret v, u') ->
  InlineHook__call self bot update w
  = (if (o <? 0) || (maxsize <? o) then
       raise (ValueError ("Indices for islice() must be None or an "
                          +:+ "integer: 0 <= x <= sys.maxsize."))
     else
       match v with
       | PyGen sliced =>
           Py.bind (fill_results sliced o (Z.to_nat (paginate self)) [])
             (fun results => answer self bot inline results o)
       | PyStr t =>
           Py.bind (fill_results_str t o (Z.to_nat (paginate self)))
             (fun results => answer self bot inline results o)
       | PyNone => raise (TypeError "'NoneType' object is not iterable")
       | PyBool _ => raise (TypeError "'bool' object is not iterable")
       | PyInt _ => raise (TypeError "'int' object is not iterable")
       end) moved.
Proof.
  intros s o moved Hq Hrun. subst s moved.
  unfold InlineHook__call. rewrite Hq.
  pose proof (read_after_purge inline (w_store w)) as Hread. fold o in Hread.
  unfold purged, purge_events in *.
  destruct (is_empty (iq_offset inline)) eqn:Hoff;
    unfold bind, _ipc_purge, _ipc_get, _ipc_update, ipc_command, bot__call,
      call_func, bind, ret; simpl; rewrite Hrun; simpl;
    rewrite Hread; unfold push, set_store, set_user; simpl;
    rewrite <- ?app_assoc; reflexivity.
Qed.

(** The hook on a sequence, for a stored offset [islice] accepts: the
    page is produced, and the answer is sent unless the production of
    the page raised. *)
Lemma inline_call_gen (self : InlineHook U) (bot : BotApi)
    (update : Update) (inline : InlineQuery) (g : Generator) (u' : U)
    (w : World U) :
  let s := user_id (iq_sender inline) in
  let o := read_offset inline (w_store w) in
  let ls := page g (Z.to_nat o) (Z.to_nat (paginate self)) in
  let heap' := assign_ids ls o (w_heap w) in
  let args := answer_args self inline (dumped heap' ls) o in
  let before :=
    w_trace w ++ purge_events inline
    ++ [EvCall (fn_name (func (inline_hook self)))
          (ArgsInline inline (iq_sender inline) (iq_query inline));
        EvIpc (InlineGet s);
        EvIpc (InlineUpdate s (o + paginate self))] in
  upd_inline_query update = Some inline ->
  fn_run (func (inline_hook self))
    (ArgsInline inline (iq_sender inline) (iq_query inline)) (w_user w)
  = (Ret (PyGen g), u') ->
  0 <= o <= maxsize ->
  (forall l, l ∈ ls -> is_Some (w_heap w !! l)) ->
  InlineHook__call self bot update w
  = match page_error g (Z.to_nat o) (Z.to_nat (paginate self)) with
    | Some e =>
        (Raise e,
         {| w_user := u'; w_trace := before;
            w_store := <[s := o + paginate self]> (purged inline (w_store w));
            w_heap := heap' |})
    | None =>
        (Ret (api_response bot "answerInlineQuery" args),
         {| w_user := u';
            w_trace := before ++ [EvApi "answerInlineQuery" args];
            w_store := <[s := o + paginate self]> (purged inline (w_store w));
            w_heap := heap' |})
    end.
Proof.
  intros s o ls heap' args before Hq Hrun [Ho Hmax] Hin.
  rewrite (inline_call_prefix self bot update inline (PyGen g) u' w Hq Hrun).
  fold o s.
  assert ((o <? 0) || (maxsize <? o) = false) as ->.
  { apply orb_false_iff. split; apply Z.ltb_ge; lia. }
  unfold Py.bind. rewrite (fill_results_from g _ o) by (simpl; assumption).
  fold ls. cbn [w_heap]. fold heap'.
  destruct (page_error g (Z.to_nat o) (Z.to_nat (paginate self)));
    [reflexivity|].
  unfold answer, dumps_results, api_call, Py.bind, emit, ret, push, set_heap;
    simpl. reflexivity.
Qed.

(** The loop writes to the heap only. *)
Lemma fill_results_frame (g : Generator) (n : nat) (i : Z)
    (results : list loc) (w : World U) :
  w_trace (snd (fill_results g i n results w)) = w_trace w
  /\ w_store (snd (fill_results g i n results w)) = w_store w.
Proof.
  revert i results w. induction n as [|n IH]; intros i results w.
  - split; reflexivity.
  - cbn [fill_results]. destruct (gen_nth g (Z.to_nat i)) as [l|].
    + unfold bind, set_id. destruct (w_heap w !! l) as [d|]; [|now split].
      destruct (IH (i + 1) (results ++ [l])
                  (set_heap (<[l := dict_set "id" (JInt i) d]> (w_heap w)) w))
        as [-> ->].
      split; reflexivity.
    + destruct (gen_fails g (Z.to_nat i)); split; reflexivity.
Qed.

Lemma fill_results_str_frame (t : string) (i : Z) (n : nat) (w : World U) :
  snd (fill_results_str t i n w) = w.
Proof.
  destruct n; [reflexivity|]. simpl.
  destruct (Z.to_nat i <? String.length t)%nat; reflexivity.
Qed.

(** The hook on a text, for a stored offset [islice] accepts: when the
    text has no character at the offset, or the range is empty, the
    answer is sent with no result. *)
Lemma inline_call_str (self : InlineHook U) (bot : BotApi)
    (update : Update) (inline : InlineQuery) (t : string) (u' : U)
    (w : World U) :
  let s := user_id (iq_sender inline) in
  let o := read_offset inline (w_store w) in
  let args := answer_args self inline "[]" o in
  upd_inline_query update = Some inline ->
  fn_run (func (inline_hook self))
    (ArgsInline inline (iq_sender inline) (iq_query inline)) (w_user w)
  = (Ret (PyStr t), u') ->
  0 <= o <= maxsize ->
  Z.to_nat (paginate self) = 0%nat
  \/ (String.length t <= Z.to_nat o)%nat ->
  InlineHook__call self bot update w
  = (Ret (api_response bot "answerInlineQuery" args),
     {| w_user := u';
        w_trace :=
          w_trace w ++ purge_events inline
          ++ [EvCall (fn_name (func (inline_hook self)))
                (ArgsInline inline (iq_sender inline) (iq_query inline));
              EvIpc (InlineGet s);
              EvIpc (InlineUpdate s (o + paginate self));
              EvApi "answerInlineQuery" args];
        w_store := <[s := o + paginate self]> (purged inline (w_store w));
        w_heap := w_heap w |}).
Proof.
  intros s o args Hq Hrun [Ho Hmax] Hend.
  rewrite (inline_call_prefix self bot update inline (PyStr t) u' w Hq Hrun).
  fold o s.
  assert ((o <? 0) || (maxsize <? o) = false) as ->.
  { apply orb_false_iff. split; apply Z.ltb_ge; lia. }
  assert (forall w0 : World U,
             fill_results_str t o (Z.to_nat (paginate self)) w0
             = (Ret [], w0)) as Hfill.
  { intros w0. unfold fill_results_str.
    destruct Hend as [-> | Hlen]; [reflexivity|].
    destruct (Z.to_nat (paginate self)); [reflexivity|].
    assert ((Z.to_nat o <? String.length t)%nat = false) as ->
      by (apply Nat.ltb_ge; lia).
    reflexivity. }
  unfold Py.bind. rewrite Hfill.
  unfold answer, dumps_results, api_call, Py.bind, emit, ret, push; simpl.
  rewrite <- !app_assoc. reflexivity.
Qed.

(** Whatever the handler does, the hook makes at most one platform
    call, the last thing it does, and the call is [answerInlineQuery]
    with the arguments of [answer_args]. *)
Lemma inline_call_sends (self : InlineHook U) (bot : BotApi)
    (update : Update) (inline : InlineQuery) (w : World U) :
  let o := read_offset inline (w_store w) in
  upd_inline_query update = Some inline ->
  exists (before sent : list Event),
    w_trace (snd (InlineHook__call self bot update w))
    = w_trace w ++ before ++ sent
    /\ Forall (fun e => forall m a, e <> EvApi m a) before
    /\ match fst (InlineHook__call self bot update w) with
       | Raise _ => sent = []
       | Ret _ =>
           exists results,
             sent = [EvApi "answerInlineQuery"
                       (answer_args self inline results o)]
       end.
Proof.
  intros o Hq.
  set (call := EvCall (fn_name (func (inline_hook self)))
                 (ArgsInline inline (iq_sender inline) (iq_query inline))).
  set (s := user_id (iq_sender inline)).
  assert (Forall (fun e : Event => forall m a, e <> EvApi m a)
            (purge_events inline ++ [call])) as Hshort.
  { unfold purge_events. destruct (is_empty (iq_offset inline)); simpl;
      repeat constructor; discriminate. }
  assert (Forall (fun e : Event => forall m a, e <> EvApi m a)
            (purge_events inline
             ++ [call; EvIpc (InlineGet s);
                 EvIpc (InlineUpdate s (o + paginate self))])) as Hlong.
  { unfold purge_events. destruct (is_empty (iq_offset inline)); simpl;
      repeat constructor; discriminate. }
  destruct (fn_run (func (inline_hook self))
              (ArgsInline inline (iq_sender inline) (iq_query inline))
              (w_user w)) as [[v|e] u'] eqn:Hrun.
  - rewrite (inline_call_prefix self bot update inline v u' w Hq Hrun).
    fold o s call.
    destruct ((o <? 0) || (maxsize <? o)).
    { eexists _, []. rewrite app_nil_r. simpl.
      split; [reflexivity|]. split; [exact Hlong|reflexivity]. }
    destruct v as [| | |t|g].
    + eexists _, []. rewrite app_nil_r. simpl.
      split; [reflexivity|]. split; [exact Hlong|reflexivity].
    + eexists _, []. rewrite app_nil_r. simpl.
      split; [reflexivity|]. split; [exact Hlong|reflexivity].
    + eexists _, []. rewrite app_nil_r. simpl.
      split; [reflexivity|]. split; [exact Hlong|reflexivity].
    + unfold Py.bind.
      match goal with
      | |- context [fill_results_str ?t ?i ?n ?w0] =>
          pose proof (fill_results_str_frame t i n w0) as Hw;
          destruct (fill_results_str t i n w0) as [[results|e] w1]
      end; simpl in Hw; subst w1.
      * eexists _, _. unfold answer, dumps_results, api_call, Py.bind,
          emit, ret, push; simpl.
        split; [|split; [exact Hlong|eexists; reflexivity]].
        rewrite <- !app_assoc. reflexivity.
      * eexists _, []. rewrite app_nil_r. simpl.
        split; [reflexivity|]. split; [exact Hlong|reflexivity].
    + unfold Py.bind.
      match goal with
      | |- context [fill_results ?g ?i ?n ?r ?w0] =>
          pose proof (fill_results_frame g n i r w0) as [Ht _];
          destruct (fill_results g i n r w0) as [[results|e] w1]
      end; simpl in Ht.
      * eexists _, _. unfold answer, dumps_results, api_call, Py.bind,
          emit, ret, push; simpl. rewrite Ht.
        split; [|split; [exact Hlong|eexists; reflexivity]].
        rewrite <- !app_assoc. reflexivity.
      * eexists _, []. rewrite app_nil_r. simpl. rewrite Ht.
        split; [reflexivity|]. split; [exact Hlong|reflexivity].
  - exists (purge_events inline ++ [call]), []. rewrite app_nil_r.
    split; [|split; [exact Hshort|]].
    + unfold InlineHook__call. rewrite Hq. unfold purge_events.
      destruct (is_empty (iq_offset inline));
        unfold bind, _ipc_purge, ipc_command, bot__call, call_func, ret;
        simpl; rewrite Hrun; simpl; rewrite <- ?app_assoc; reflexivity.
    + unfold InlineHook__call. rewrite Hq.
      destruct (is_empty (iq_offset inline));
        unfold bind, _ipc_purge, ipc_command, bot__call, call_func, ret;
        simpl; rewrite Hrun; reflexivity.
Qed.

Lemma inline_call_spec (self : InlineHook U) (bot : BotApi)
    (update : Update) (inline : InlineQuery) (g : Generator) (u' : U)
    (w : World U) :
  let s := user_id (iq_sender inline) in
  let o := read_offset inline (w_store w) in
  let ls := page g (Z.to_nat o) (Z.to_nat (paginate self)) in
  let heap' := assign_ids ls o (w_heap w) in
  let args := answer_args self inline (dumped heap' ls) o in
  upd_inline_query update = Some inline ->
  fn_run (func (inline_hook self))
    (ArgsInline inline (iq_sender inline) (iq_query inline)) (w_user w)
  = (Ret (PyGen g), u') ->
  0 <= o <= maxsize ->
  page_error g (Z.to_nat o) (Z.to_nat (paginate self)) = None ->
  (forall l, l ∈ ls -> is_Some (w_heap w !! l)) ->
  InlineHook__call self bot update w
  = (Ret (api_response bot "answerInlineQuery" args),
     {| w_user := u';
        w_trace :=
          w_trace w ++ purge_events inline
          ++ [EvCall (fn_name (func (inline_hook self)))
                (ArgsInline inline (iq_sender inline) (iq_query inline));
              EvIpc (InlineGet s);
              EvIpc (InlineUpdate s (o + paginate self));
              EvApi "answerInlineQuery" args];
        w_store := <[s := o + paginate self]> (purged inline (w_store w));
        w_heap := heap' |}).
Proof.
  intros s o ls heap' args Hq Hrun Ho Herr Hin.
  rewrite (inline_call_gen self bot update inline g u' w Hq Hrun Ho Hin).
  fold o. rewrite Herr. fold s ls heap' args.
  rewrite <- !app_assoc. reflexivity.
Qed.

(** C3, amended.  With [paginate] 5, a call of the inline hook whose
    handler returns a sequence of objects, for a stored offset [o] (0
    after the purge that an empty query offset triggers first) that
    [islice] accepts as a start, between 0 and [sys.maxsize], goes
    through the objects the sequence yields at the positions [o],
    [o+1], ..., at most five of them; when the production of these
    objects does not raise, and the objects are dictionaries and are
    pairwise distinct, each ends up with its position as identifier;
    the store holds [o + 5] for the sender, written before the
    [answerInlineQuery] call is issued. *)
Theorem inline_page_ids (self : InlineHook U) (bot : BotApi)
    (update : Update) (inline : InlineQuery) (g : Generator) (u' : U)
    (w : World U) :
  let s := user_id (iq_sender inline) in
  let o := read_offset inline (w_store w) in
  let ls := page g (Z.to_nat o) 5 in
  paginate self = 5 ->
  upd_inline_query update = Some inline ->
  fn_run (func (inline_hook self))
    (ArgsInline inline (iq_sender inline) (iq_query inline)) (w_user w)
  = (Ret (PyGen g), u') ->
  0 <= o <= maxsize ->
  page_error g (Z.to_nat o) 5 = None ->
  Forall (fun l => is_Some (w_heap w !! l)) ls ->
  NoDup ls ->
  exists (r : pyval) (w' : World U),
    InlineHook__call self bot update w = (Ret r, w')
    /\ (is_empty (iq_offset inline) = true -> o = 0)
    /\ (List.length ls <= 5)%nat
    /\ (forall k l, ls !! k = Some l ->
                   gen_nth g (Z.to_nat o + k) = Some l)
    /\ result_ids (w_heap w') ls = ids_from o (List.length ls)
    /\ w_store w' !! s = Some (o + 5)
    /\ w_trace w'
       = w_trace w ++ purge_events inline
         ++ [EvCall (fn_name (func (inline_hook self)))
               (ArgsInline inline (iq_sender inline) (iq_query inline));
             EvIpc (InlineGet s);
             EvIpc (InlineUpdate s (o + 5));
             EvApi "answerInlineQuery"
               (answer_args self inline (dumped (w_heap w') ls) o)].
Proof.
  intros s o ls Hp Hq Hrun Ho Herr Hin Hnd.
  rewrite Forall_forall in Hin.
  pose proof (inline_call_spec self bot update inline g u' w Hq Hrun Ho)
    as E.
  rewrite Hp in E. change (Z.to_nat 5) with 5%nat in E.
  specialize (E Herr Hin). simpl in E.
  eexists _, _. split; [exact E|]. simpl.
  split; [|split; [|split; [|split; [|split]]]].
  - unfold o, read_offset. now intros ->.
  - apply page_length.
  - intros k l. apply page_lookup.
  - now apply assign_ids_distinct.
  - apply lookup_insert_eq.
  - reflexivity.
Qed.

(** C7, amended.  Whatever the handler returns or raises, the inline
    hook makes at most one platform call, the last thing it does
    and only when it returns: [answerInlineQuery] with the keyword
    arguments [inline_query_id], [cache_time], [is_personal], [results]
    and [next_offset], in this order, where [results] is a text and
    [next_offset] is the integer [o + paginate], not a string.  When
    the handler returns a sequence of dictionaries whose production
    does not raise, for a stored offset [o] between 0 and
    [sys.maxsize], the call is made and [results] is the JSON text of
    the array of the objects of the page, each of which carries under
    [id] the index of a position at which the sequence yields it. *)
Theorem inline_answer_shape (self : InlineHook U) (bot : BotApi)
    (update : Update) (inline : InlineQuery) (w : World U) :
  let o := read_offset inline (w_store w) in
  let shape (results : string) :=
    EvApi "answerInlineQuery"
      [("inline_query_id", PyStr (iq_id inline));
       ("cache_time", cache self);
       ("is_personal", private self);
       ("results", PyStr results);
       ("next_offset", PyInt (o + paginate self))] in
  upd_inline_query update = Some inline ->
  (exists before sent : list Event,
      w_trace (snd (InlineHook__call self bot update w))
      = w_trace w ++ before ++ sent
      /\ Forall (fun e => forall m a, e <> EvApi m a) before
      /\ match fst (InlineHook__call self bot update w) with
         | Raise _ => sent = []
         | Ret _ => exists results, sent = [shape results]
         end)
  /\ (forall (g : Generator) (u' : U),
         let ls := page g (Z.to_nat o) (Z.to_nat (paginate self)) in
         fn_run (func (inline_hook self))
           (ArgsInline inline (iq_sender inline) (iq_query inline))
           (w_user w)
         = (Ret (PyGen g), u') ->
         0 <= o <= maxsize ->
         page_error g (Z.to_nat o) (Z.to_nat (paginate self)) = None ->
         Forall (fun l => is_Some (w_heap w !! l)) ls ->
         exists (r : pyval) (w' : World U) (results : string),
           InlineHook__call self bot update w = (Ret r, w')
           /\ last (w_trace w') = Some (shape results)
           /\ results
              = Json.dumps
                  (JList (map (fun l => JDict (default [] (w_heap w' !! l)))
                            ls))
           /\ Forall (fun l =>
                        exists (j : nat) (d : dict),
                          gen_nth g (Z.to_nat o + j) = Some l
                          /\ w_heap w' !! l = Some d
                          /\ dict_get "id" d = Some (JInt (o + Z.of_nat j)))
                ls).
Proof.
  intros o shape Hq. split.
  - exact (inline_call_sends self bot update inline w Hq).
  - intros g u' ls Hrun Ho Herr Hin.
    rewrite Forall_forall in Hin.
    pose proof (inline_call_spec self bot update inline g u' w Hq Hrun Ho
                  Herr Hin) as E.
    simpl in E. eexists _, _, _. split; [exact E|]. simpl.
    split; [|split].
    + rewrite app_assoc. apply last_four.
    + reflexivity.
    + apply Forall_forall. intros l Hl.
      destruct (assign_ids_positional ls o (w_heap w) l Hin Hl)
        as (j & d & Hj & Hd & Hid).
      exists j, d. split; [|split]; [|exact Hd|exact Hid].
      exact (page_lookup _ _ _ _ _ Hj).
Qed.

(** *** The contains hook *)

Lemma occurrences_cons (token one : string) (rest : list string) :
  occurrences token (one :: rest)
  = if String.eqb one token then S (occurrences token rest)
    else occurrences token rest.
Proof.
  unfold occurrences. rewrite filter_cons.
  destruct (String.eqb_spec one token) as [->|Hne].
  - now rewrite decide_True.
  - now rewrite decide_False.
Qed.

Lemma contains_loop_spec (self : MessageHook U) (message : Message)
    (splitted : list string) (res : list pyval) (w : World U) :
  let call := ArgsMessage (msg_chat message) message in
  let n := invocations (arg_multiple (msg_args self))
             (occurrences (_string self) splitted) in
  returns_normally (func (msg_hook self)) call ->
  exists (rs : list pyval) (u' : U),
    contains_loop self message splitted res w
    = (Ret (res ++ rs),
       {| w_user := u';
          w_trace := w_trace w
                     ++ replicate n
                          (EvCall (fn_name (func (msg_hook self))) call);
          w_store := w_store w; w_heap := w_heap w |})
    /\ List.length rs = n.
Proof.
  intros call n Hret. subst n. revert res w.
  induction splitted as [|one rest IH]; intros res w.
  - exists [], (w_user w).
    assert (invocations (arg_multiple (msg_args self))
              (occurrences (_string self) []) = 0%nat) as ->
      by now destruct (arg_multiple (msg_args self)).
    simpl. unfold ret. rewrite !app_nil_r. now destruct w.
  - simpl. rewrite occurrences_cons.
    destruct (String.eqb one (_string self)) eqn:E; simpl.
    + destruct (Hret (w_user w)) as (v & u1 & Hrun).
      unfold bind, bot__call, call_func. fold call. rewrite Hrun.
      destruct (arg_multiple (msg_args self)) eqn:Hm; simpl.
      * destruct (IH (res ++ [v])
                    (set_user u1
                       (push (EvCall (fn_name (func (msg_hook self)))
                                call) w)))
          as (rs & u' & Hloop & Hlen).
        simpl in Hloop, Hlen.
        exists (v :: rs), u'. rewrite Hloop. simpl.
        rewrite <- !app_assoc. simpl. split; [reflexivity|]. now f_equal.
      * exists [v], u1. unfold ret. split; reflexivity.
    + exact (IH res w).
Qed.

(** C5, amended.  On a message with text, the contains hook cuts the
    text (lowered when case is ignored) at every single space, so that
    tabs and newlines do not separate tokens and consecutive spaces
    leave empty tokens.  With a handler that returns, the handler is
    called once per token equal to the configured one when [multiple]
    is set, once at most otherwise, and the hook returns [True] when
    at least one call was made, [False] otherwise. *)
Theorem message_contains_calls (self : MessageHook U) (bot : BotApi)
    (update : Update) (message : Message) (text : string) (w : World U) :
  let call := ArgsMessage (msg_chat message) message in
  let prepared :=
    if arg_ignore_case (msg_args self) then lower text else text in
  let k := occurrences (_string self) (split space prepared) in
  let n := if arg_multiple (msg_args self) then k else Nat.min 1 k in
  upd_message update = Some message ->
  msg_text message = Some text ->
  returns_normally (func (msg_hook self)) call ->
  exists u' : U,
    Hook_call true (MessageContainsHook__call self) bot update w
    = (Ret (PyBool (0 <? n)%nat),
       {| w_user := u';
          w_trace := w_trace w
                     ++ replicate n
                          (EvCall (fn_name (func (msg_hook self))) call);
          w_store := w_store w; w_heap := w_heap w |}).
Proof.
  intros call prepared k n Hm Ht Hret.
  destruct (contains_loop_spec self message (split space prepared) [] w
              Hret) as (rs & u' & Hloop & Hlen).
  exists u'. unfold Hook_call, MessageContainsHook__call, _prepare,
    get_message, bind, ret. rewrite Hm, Ht. simpl.
  fold prepared. rewrite Hloop. simpl. rewrite Hlen. reflexivity.
Qed.

(** *** The command hook *)

Lemma normalize_app (a b : string) :
  normalize (a +:+ b) = normalize a +:+ normalize b.
Proof.
  unfold normalize. induction a as [|c a IH]; simpl; [reflexivity|].
  now rewrite IH.
Qed.

Lemma normalize_not_blank (s : string) :
  str_forall (fun c => negb (is_blank c)) s = true -> normalize s = s.
Proof.
  unfold normalize. induction s as [|c s IH]; simpl; [reflexivity|].
  intros [Hc Hs]%andb_prop. rewrite (IH Hs). f_equal.
  apply negb_true_iff in Hc. unfold is_blank in Hc.
  apply orb_false_elim in Hc as [Hc Hn].
  apply orb_false_elim in Hc as [_ Ht].
  rewrite Hn, Ht. reflexivity.
Qed.

Lemma normalize_no_newline (s : string) :
  str_forall (fun c => negb (Ascii.eqb c newline)) (normalize s) = true.
Proof.
  unfold normalize. induction s as [|c s IH]; simpl; [reflexivity|].
  rewrite IH, andb_true_r.
  destruct (Ascii.eqb c newline) eqn:En; simpl; [reflexivity|].
  destruct (Ascii.eqb c tab) eqn:Et; [reflexivity|].
  now rewrite En.
Qed.

Lemma normalize_blank_start (s : string) :
  blank_start s = true -> blank_start (normalize s) = true.
Proof.
  destruct s as [|c s]; simpl; [reflexivity|]. unfold is_blank.
  intros H. apply orb_prop in H as [H|H]; [apply orb_prop in H as [H|H]|];
    apply Ascii.eqb_eq in H as ->; reflexivity.
Qed.

Lemma word_not_blank (c : ascii) :
  is_word_char c = true -> is_blank c = false.
Proof.
  intros Hc. destruct (is_blank c) eqn:E; [|reflexivity].
  rewrite (is_blank_not_word _ E) in Hc. discriminate.
Qed.

Lemma word_no_blank (s : string) :
  str_forall is_word_char s = true ->
  str_forall (fun c => negb (is_blank c)) s = true.
Proof.
  apply str_forall_impl. intros c Hc. now rewrite (word_not_blank _ Hc).
Qed.

Lemma no_blank_no_newline (s : string) :
  str_forall (fun c => negb (is_blank c)) s = true ->
  str_forall (fun c => negb (Ascii.eqb c newline)) s = true.
Proof.
  apply str_forall_impl. intros c. unfold is_blank.
  destruct (Ascii.eqb c newline); [|reflexivity].
  rewrite orb_true_r. discriminate.
Qed.

(** A text is cut in one way only at its first blank. *)
Lemma first_token_unique (a a' b b' : string) :
  str_forall (fun c => negb (is_blank c)) a = true ->
  str_forall (fun c => negb (is_blank c)) a' = true ->
  blank_start b = true -> blank_start b' = true ->
  a +:+ b = a' +:+ b' -> a = a'.
Proof.
  revert a'. induction a as [|c a IH]; intros a' Ha Ha' Hb Hb' E.
  - destruct a' as [|c' a']; [reflexivity|]. simpl in E. subst b.
    simpl in Ha', Hb. apply andb_prop in Ha' as [Hc _].
    rewrite Hb in Hc. discriminate.
  - simpl in Ha. apply andb_prop in Ha as [Hc Ha].
    destruct a' as [|c' a']; simpl in E.
    + subst b'. simpl in Hb'. rewrite Hb' in Hc. discriminate.
    + injection E as -> E. simpl in Ha'.
      apply andb_prop in Ha' as [_ Ha']. f_equal. eauto.
Qed.

Lemma args_tail_blank_start (r : string) :
  args_tail r = true -> blank_start r = true.
Proof.
  destruct r as [|c r]; [reflexivity|].
  intros [->| ->]%args_tail_first; reflexivity.
Qed.

Lemma strip_prefix_cons (c : ascii) (p s : string) :
  strip_prefix (String c p) (String c s) = strip_prefix p s.
Proof. simpl. now rewrite Ascii.eqb_refl. Qed.

Lemma match_name_cases (n : string) :
  match_name n = true ->
  str_forall is_word_char n = true
  \/ exists w, n = w +:+ String newline "".
Proof.
  unfold match_name. pose proof (span_word_spec n) as H.
  destruct (span_word n) as [w r]. destruct H as (-> & Hw & _).
  intros [_ Hr]%andb_prop. destruct r as [|c r]; simpl in Hr.
  - left. now rewrite str_app_empty_r.
  - apply andb_prop in Hr as [Hc Hr]. apply Ascii.eqb_eq in Hc as ->.
    destruct r; [|discriminate]. right. now exists w.
Qed.

(** What group 1 holds when the pattern of a hook matches a command
    addressed to [suffix]: never nothing, never the name of the bot. *)
Lemma match_command_other_bot (n cmd suffix rest username : string) :
  match_name n = true ->
  str_forall is_word_char cmd = true ->
  str_forall (fun c => negb (is_blank c)) suffix = true ->
  blank_start rest = true ->
  str_forall (fun c => negb (Ascii.eqb c newline)) rest = true ->
  suffix <> username ->
  match match_command n ("/" +:+ cmd +:+ "@" +:+ suffix +:+ rest) with
  | None => True
  | Some None => False
  | Some (Some g) =>
      is_empty g = false /\ String.eqb g ("@" +:+ username) = false
  end.
Proof.
  intros Hn Hc Hs Hr Hnl Hne. unfold match_command.
  change ("/" +:+ cmd +:+ "@" +:+ suffix +:+ rest)
    with (String "/" (cmd +:+ String "@" (suffix +:+ rest))).
  change ("/" +:+ n) with (String "/" n). rewrite strip_prefix_cons.
  destruct (strip_prefix n (cmd +:+ String "@" (suffix +:+ rest)))
    as [r|] eqn:E; [|exact I].
  destruct (match_name_cases n Hn) as [Hw|[w0 ->]].
  - destruct (strip_prefix_word n cmd "@" _ r Hw eq_refl E)
      as [[-> ->]|(d & e & -> & ->)].
    + rewrite strip_prefix_cons. cbn [strip_prefix].
      pose proof (span_word_spec (suffix +:+ rest)) as Hsp.
      destruct (span_word (suffix +:+ rest)) as [w2 r2].
      destruct Hsp as (Heq & Hw2 & _).
      destruct (negb (is_empty w2) && args_tail r2) eqn:Hcond; [|exact I].
      apply andb_prop in Hcond as [_ Ht]. split; [reflexivity|].
      assert (suffix = w2) as <-.
      { apply (first_token_unique suffix w2 rest r2);
          [exact Hs|now apply word_no_blank|exact Hr
          |now apply args_tail_blank_start|exact Heq]. }
      simpl. apply String.eqb_neq. exact Hne.
    + rewrite str_forall_app in Hc. apply andb_prop in Hc as [_ Hd].
      simpl in Hd. apply andb_prop in Hd as [Hd _].
      change (String d e +:+ String "@" (suffix +:+ rest))
        with (String d (e +:+ String "@" (suffix +:+ rest))).
      assert (strip_prefix "@"
                (String d (e +:+ String "@" (suffix +:+ rest))) = None)
        as ->.
      { unfold strip_prefix.
        destruct (Ascii.eqb "@" d) eqn:Ed; [|reflexivity].
        apply Ascii.eqb_eq in Ed as <-. discriminate. }
      now rewrite (args_tail_not_blank d _ (word_not_blank _ Hd)).
  - apply strip_prefix_Some in E.
    assert (str_forall (fun c => negb (Ascii.eqb c newline))
              (cmd +:+ String "@" (suffix +:+ rest)) = true) as Hall.
    { rewrite str_forall_app. simpl. rewrite str_forall_app.
      rewrite (no_blank_no_newline _ (word_no_blank _ Hc)).
      now rewrite (no_blank_no_newline _ Hs), Hnl. }
    rewrite E, str_app_assoc, !str_forall_app in Hall. simpl in Hall.
    rewrite andb_false_r in Hall. discriminate.
Qed.

Lemma command_hook_other_bot (f : Func U) (c : Component)
    (args : CommandArgs) (self : CommandHook U) (bot : BotApi)
    (update : Update) (message : Message) (cmd suffix rest : string)
    (w : World U) :
  CommandHook_init f c args = Ret self ->
  upd_message update = Some message ->
  msg_text message = Some ("/" +:+ cmd +:+ "@" +:+ suffix +:+ rest) ->
  str_forall is_word_char cmd = true ->
  str_forall (fun c => negb (is_blank c)) suffix = true ->
  blank_start rest = true ->
  suffix <> bot_username bot ->
  Hook_call true (CommandHook__call self) bot update w = (Ret PyNone, w).
Proof.
  intros Hinit Hm Ht Hc Hs Hr Hne.
  unfold CommandHook_init in Hinit.
  destruct (match_name (arg_name args)) eqn:Hn; [|discriminate].
  injection Hinit as <-.
  unfold Hook_call, CommandHook__call, get_message, bind, ret.
  rewrite Hm, Ht. simpl.
  assert (normalize (String "/" (cmd +:+ String "@" (suffix +:+ rest)))
          = "/" +:+ cmd +:+ "@" +:+ suffix +:+ normalize rest) as ->.
  { change (String "/" (cmd +:+ String "@" (suffix +:+ rest)))
      with ("/" +:+ cmd +:+ "@" +:+ suffix +:+ rest).
    rewrite !normalize_app.
    rewrite (normalize_not_blank cmd (word_no_blank _ Hc)).
    now rewrite (normalize_not_blank suffix Hs). }
  pose proof (match_command_other_bot (arg_name args) cmd suffix
                (normalize rest) (bot_username bot) Hn Hc Hs
                (normalize_blank_start _ Hr) (normalize_no_newline _) Hne)
    as H.
  destruct (match_command (arg_name args)
              ("/" +:+ cmd +:+ "@" +:+ suffix +:+ normalize rest))
    as [[g|]|]; [|contradiction|reflexivity].
  destruct H as [-> Hg]. change (String "@" (bot_username bot))
    with ("@" +:+ bot_username bot). rewrite Hg. reflexivity.
Qed.

(** *** Construction of a command hook *)

Lemma match_name_valid (n : string) :
  valid_name n = true -> match_name n = true.
Proof.
  unfold valid_name, match_name. intros [Hne Hw]%andb_prop.
  pose proof (span_word_app n "" Hw eq_refl) as E.
  rewrite str_app_empty_r in E. rewrite E, Hne. reflexivity.
Qed.

(** What the check of the constructor lets through: the valid names, and
    the valid names followed by one newline. *)
Lemma match_name_spec (n : string) :
  match_name n = true
  <-> valid_name n = true
      \/ exists w, valid_name w = true /\ n = w +:+ bot.nl.
Proof.
  split.
  - unfold match_name. pose proof (span_word_spec n) as H.
    destruct (span_word n) as [w r]. destruct H as (-> & Hw & _).
    intros [Hne Hr]%andb_prop. destruct r as [|c r]; simpl in Hr.
    + left. rewrite str_app_empty_r. unfold valid_name. now rewrite Hne, Hw.
    + apply andb_prop in Hr as [Hc Hr]. apply Ascii.eqb_eq in Hc as ->.
      destruct r; [|discriminate]. right. exists w. split; [|reflexivity].
      unfold valid_name. now rewrite Hne, Hw.
  - intros [Hv|(w & Hv & ->)]; [now apply match_name_valid|].
    unfold valid_name in Hv. apply andb_prop in Hv as [Hne Hw].
    unfold match_name, bot.nl.
    rewrite (span_word_app w (String newline "") Hw eq_refl), Hne.
    reflexivity.
Qed.

Lemma command_init_valid (f : Func U) (c : Component) (args : CommandArgs) :
  valid_name (arg_name args) = true ->
  CommandHook_init f c args
  = Ret {| cmd_hook := Hook_init f c;
           _regex := "^\/" +:+ arg_name args +:+ "(@[a-zA-Z0-9_]+)?"
                     +:+ "( ." +:+ "*" +:+ ")?$";
           _name := arg_name args;
           _hidden := default false (arg_hidden args);
           _order := default 0 (arg_order args) |}.
Proof.
  intros Hv. unfold CommandHook_init.
  now rewrite (match_name_valid _ Hv).
Qed.

Lemma command_init_invalid (f : Func U) (c : Component)
    (args : CommandArgs) :
  valid_name (arg_name args) = false ->
  (forall w, valid_name w = true -> arg_name args <> w +:+ bot.nl) ->
  CommandHook_init f c args
  = Raise (ValueError ("Invalid command name: " +:+ arg_name args)).
Proof.
  intros Hv Hnl. unfold CommandHook_init.
  destruct (match_name (arg_name args)) eqn:E; [|reflexivity].
  apply match_name_spec in E as [E|(w & Hw & E)]; [congruence|].
  now destruct (Hnl w Hw).
Qed.

(** *** A command hook that claims *)

Lemma match_command_starts (n text : string) (g : option string) :
  match_command n text = Some g -> exists r, text = String "/" r.
Proof.
  unfold match_command.
  destruct (strip_prefix ("/" +:+ n) text) as [r|] eqn:E; [|discriminate].
  intros _. apply strip_prefix_Some in E. rewrite E. eauto.
Qed.

(** When the pattern matches and the command is for this bot, the handler
    is called once, with the text cut on runs of spaces and the first
    token left out, and the hook returns [True]. *)
Lemma command_hook_claims (self : CommandHook U) (bot : BotApi)
    (update : Update) (message : Message) (raw : string)
    (group1 : option string) (w : World U) :
  let call :=
    ArgsCommand (msg_chat message) message
      (space_run_args (normalize raw)) in
  upd_message update = Some message ->
  msg_text message = Some raw ->
  match_command (_name self) (normalize raw) = Some group1 ->
  group1 = None \/ group1 = Some ("@" +:+ bot_username bot) ->
  returns_normally (func (cmd_hook self)) call ->
  exists u' : U,
    Hook_call true (CommandHook__call self) bot update w
    = (Ret (PyBool true),
       {| w_user := u';
          w_trace := w_trace w ++ [EvCall (fn_name (func (cmd_hook self))) call];
          w_store := w_store w; w_heap := w_heap w |}).
Proof.
  intros call Hm Ht Hmatch Hg Hret.
  destruct (match_command_starts _ _ _ Hmatch) as (r & Hr).
  assert (tail (_command_args_split_re (normalize raw))
          = space_run_args (normalize raw)) as Hargs.
  { unfold _command_args_split_re. rewrite Hr.
    now apply command_args_runs. }
  destruct (Hret (w_user w)) as (v & u' & Hrun). exists u'.
  unfold Hook_call, CommandHook__call, get_message, bind, ret.
  rewrite Hm, Ht. simpl. rewrite Hmatch, Hargs.
  destruct Hg as [->| ->]; simpl; rewrite ?String.eqb_refl; simpl;
    unfold bot__call, call_func; fold call; rewrite Hrun; reflexivity.
Qed.

End WithUserState.

End hooks_facts.

(** ** The loop of the payment processors *)

Module chain_facts.
Import Py PyStr hooks payments.

Section WithUserState.
Context {U : Type}.

Lemma chain_loop_claimed (bot : BotApi) (update : Update)
    (pre post : list (ChainHook U)) (h : ChainHook U) (v : pyval)
    (w w1 w2 : World U) :
  chain_passes bot update pre w w1 ->
  hook_call h bot update (push (EvLog (processing_msg update h)) w1)
  = (Ret v, w2) ->
  is_True v = true ->
  chain_loop bot (pre ++ h :: post) update w
  = (Ret true, push (EvLog (processed_msg update h)) w2).
Proof.
  intros Hpre Hh Hv.
  induction Hpre as [w|hook rest v' w wa wb Hcall Hnot _ IH]; simpl.
  - unfold bind, logger_debug, emit, ret. rewrite Hh, Hv. reflexivity.
  - unfold bind, logger_debug, emit. rewrite Hcall, Hnot. exact (IH Hh).
Qed.

Lemma chain_loop_unclaimed (bot : BotApi) (update : Update)
    (chain : list (ChainHook U)) (w w1 : World U) :
  chain_passes bot update chain w w1 ->
  chain_loop bot chain update w = (Ret false, w1).
Proof.
  induction 1 as [w|hook rest v' w wa wb Hcall Hnot _ IH]; simpl.
  - reflexivity.
  - unfold bind, logger_debug, emit. rewrite Hcall, Hnot. exact IH.
Qed.

Lemma process_chain_claimed (key : string) (bot : BotApi)
    (chains : gmap string (list (ChainHook U))) (update : Update)
    (pre post : list (ChainHook U)) (h : ChainHook U) (v : pyval)
    (w w1 w2 : World U) :
  chains !! key = Some (pre ++ h :: post) ->
  chain_passes bot update pre w w1 ->
  hook_call h bot update (push (EvLog (processing_msg update h)) w1)
  = (Ret v, w2) ->
  is_True v = true ->
  process_chain key bot chains update w
  = (Ret tt, push (EvLog (processed_msg update h)) w2).
Proof.
  intros Hk Hpre Hh Hv. unfold process_chain. rewrite Hk.
  unfold bind. rewrite (chain_loop_claimed _ _ _ _ _ _ _ _ _ Hpre Hh Hv).
  reflexivity.
Qed.

End WithUserState.

End chain_facts.

(** ** Dispatch: order, claims, commands *)

Module dispatch_facts.
Import Py PyStr Re Spec Page text_facts.

(** C1, amended.  Registration puts a hook at the end of the list of its
    kind.  A chain is walked in the order of its list, each hook called
    from the world the one before it left, and the first hook that returns
    [True] ends the walk.  In [Bot.process] the list is the
    before-processing hooks followed by the processors; for user functions
    the calls recorded are those of the hooks up to the one that claimed,
    in order, and no call of a later hook.  In [process_shipping_query]
    the world at the end is the one the claiming hook left, with the
    closing debug line. *)
Theorem chain_stops_at_first_claim :
  (forall (U : Type) (b : bot.Bot U) (f : Func U),
      bot._processors (snd (bot.process_messages (bot.Callable f) b))
      = bot._processors b ++ [bot.UserFn f]
      /\ bot._before_hooks (snd (bot.before_processing (bot.Callable f) b))
         = bot._before_hooks b ++ [bot.UserFn f])
  /\ (forall (U : Type) (fd : string -> string) (b : bot.Bot U)
          (update : Update) (message : Message)
          (pre post : list (bot.HookFn U)) (h : bot.HookFn U) (v : pyval)
          (w w1 w2 : World U),
      upd_message update = Some message ->
      bot._before_hooks b ++ bot._processors b = pre ++ h :: post ->
      bot.passes fd b (msg_chat message) message pre w w1 ->
      bot.call_hook fd b h (msg_chat message) message w1 = (Ret v, w2) ->
      is_True v = true ->
      bot.process fd b update w = (Ret tt, w2))
  /\ (forall (U : Type) (fd : string -> string) (b : bot.Bot U)
             (chat : Chat) (message : Message) (fs post : list (Func U))
             (f : Func U) (v : pyval) (w w1 w2 : World U),
         bot.passes fd b chat message (bot.UserFn <$> fs) w w1 ->
         bot.call_hook fd b (bot.UserFn f) chat message w1 = (Ret v, w2) ->
         is_True v = true ->
         w_trace
           (snd (bot.process_hooks fd b
                   (bot.UserFn <$> (fs ++ f :: post)) chat message w))
         = w_trace w ++ (bot.hook_event chat message <$> (fs ++ [f])))
  /\ (forall (U : Type) (api : hooks.BotApi)
             (chains : gmap string (list (hooks.ChainHook U)))
             (update : Update) (pre post : list (hooks.ChainHook U))
             (h : hooks.ChainHook U) (v : pyval) (w w1 w2 : World U),
         chains !! "shipping_query" = Some (pre ++ h :: post) ->
         payments.chain_passes api update pre w w1 ->
         hooks.hook_call h api update
           (push (EvLog (payments.processing_msg update h)) w1)
         = (Ret v, w2) ->
         is_True v = true ->
         payments.process_shipping_query api chains update w
         = (Ret tt, push (EvLog (payments.processed_msg update h)) w2)).
Proof.
  split; [|split; [|split]].
  - intros U b f. split; reflexivity.
  - intros U fd b update message pre post h v w w1 w2 Hm Hchain Hpre Hh Hv.
    unfold bot.process. rewrite Hm, Hchain.
    exact (bot_facts.process_hooks_claimed fd b _ _ pre post h v w w1 w2
             Hpre Hh Hv).
  - intros U fd b chat message fs post f v w w1 w2 Hpre Hh Hv.
    rewrite fmap_app, fmap_cons.
    rewrite (bot_facts.process_hooks_claimed fd b chat message _ _ _ v
               w w1 w2 Hpre Hh Hv).
    simpl. rewrite fmap_app, app_assoc.
    rewrite <- (bot_facts.passes_user_trace fd b chat message fs w w1 Hpre).
    simpl in Hh. unfold call_func in Hh.
    destruct (fn_run f (ArgsMessage chat message) (w_user w1)) as [r u'].
    injection Hh as _ <-. reflexivity.
  - intros U api chains update pre post h v w w1 w2 Hk Hpre Hh Hv.
    exact (chain_facts.process_chain_claimed "shipping_query" api chains
             update pre post h v w w1 w2 Hk Hpre Hh Hv).
Qed.

Lemma chain_stops_at_first_claim_witness :
  let hello := Sample.text_message Sample.private_chat "hello" in
  let call (fname : string) :=
    EvCall fname (ArgsMessage Sample.private_chat hello) in
  bot.process Sample.no_format Sample.abc_bot
    (Sample.text_update Sample.private_chat "hello") Sample.world0
  = (Ret tt,
     {| w_user := tt; w_trace := [call "A"; call "B"];
        w_store := ∅; w_heap := ∅ |})
  /\ w_trace
       (snd (bot.process_hooks Sample.no_format Sample.abc_bot
               (bot.UserFn <$>
                  [Sample.returning "A" PyNone] ++
                  Sample.returning "B" (PyBool true)
                  :: [Sample.returning "C" PyNone])
               Sample.private_chat hello Sample.world0))
     = [call "A"; call "B"]
  /\ payments.process_shipping_query Sample.mybot
       {["shipping_query" := Sample.abc_chain]}
       (Sample.text_update Sample.private_chat "hello") Sample.world0
     = (Ret tt,
        {| w_user := tt;
           w_trace :=
             [EvLog "Processing update #1 with the hook A..."; call "A";
              EvLog "Processing update #1 with the hook B..."; call "B";
              EvLog "Update #1 was just processed by the B hook."];
           w_store := ∅; w_heap := ∅ |}).
Proof.
  intros hello call.
  pose (wA := {| w_user := tt; w_trace := [call "A"];
                 w_store := (∅ : gmap Z Z);
                 w_heap := (∅ : gmap loc dict) |}).
  split; [|split].
  - apply (proj1 (proj2 chain_stops_at_first_claim) unit Sample.no_format
             Sample.abc_bot _ hello
             [bot.BoundProcessCommands;
              bot.UserFn (Sample.returning "A" PyNone)]
             [bot.UserFn (Sample.returning "C" PyNone)]
             (bot.UserFn (Sample.returning "B" (PyBool true)))
             (PyBool true) Sample.world0 wA).
    + reflexivity.
    + reflexivity.
    + apply (bot.passes_cons _ _ _ _ _ _ PyNone _ Sample.world0);
        [reflexivity|reflexivity|].
      apply (bot.passes_cons _ _ _ _ _ _ PyNone _ wA);
        [reflexivity|reflexivity|].
      apply bot.passes_nil.
    + reflexivity.
    + reflexivity.
  - apply (proj1 (proj2 (proj2 chain_stops_at_first_claim)) unit
             Sample.no_format
             Sample.abc_bot Sample.private_chat hello
             [Sample.returning "A" PyNone] [Sample.returning "C" PyNone]
             (Sample.returning "B" (PyBool true)) (PyBool true)
             Sample.world0 wA
             {| w_user := tt; w_trace := [call "A"; call "B"];
                w_store := ∅; w_heap := ∅ |}).
    + apply (bot.passes_cons _ _ _ _ _ _ PyNone _ wA);
        [reflexivity|reflexivity|].
      apply bot.passes_nil.
    + reflexivity.
    + reflexivity.
  - pose (wA' := {| w_user := tt;
                    w_trace :=
                      [EvLog "Processing update #1 with the hook A...";
                       call "A"];
                    w_store := (∅ : gmap Z Z);
                    w_heap := (∅ : gmap loc dict) |}).
    pose (wB' := {| w_user := tt;
                    w_trace :=
                      [EvLog "Processing update #1 with the hook A...";
                       call "A";
                       EvLog "Processing update #1 with the hook B...";
                       call "B"];
                    w_store := (∅ : gmap Z Z);
                    w_heap := (∅ : gmap loc dict) |}).
    refine (eq_trans
              (proj2 (proj2 (proj2 chain_stops_at_first_claim)) unit
               Sample.mybot
             {["shipping_query" := Sample.abc_chain]}
             (Sample.text_update Sample.private_chat "hello")
             [hooks.of_hook
                (hooks.Hook_init (Sample.returning "A" PyNone) Sample.root)]
             [hooks.of_hook
                (hooks.Hook_init (Sample.returning "C" PyNone) Sample.root)]
             (hooks.of_hook
                (hooks.Hook_init (Sample.returning "B" (PyBool true))
                   Sample.root))
             (PyBool true) Sample.world0 wA' wB' _ _ _ _) _).
    + reflexivity.
    + apply (payments.chain_passes_cons _ _ _ _ PyNone _ wA');
        [reflexivity|reflexivity|].
      apply payments.chain_passes_nil.
    + reflexivity.
    + reflexivity.
    + reflexivity.
Defined.

(** C1 as stated fails: the hooks were registered in the order A, B, C
    and B claims, yet C, a before-processing hook, is called, and called
    first: [Bot.process] walks the before-processing hooks before the
    processors, whenever they were registered. *)
Lemma late_before_hook_runs_first :
  let hello := Sample.text_message Sample.private_chat "hello" in
  let call (fname : string) :=
    EvCall fname (ArgsMessage Sample.private_chat hello) in
  bot._before_hooks Sample.late_bot ++ bot._processors Sample.late_bot
  = [bot.UserFn (Sample.returning "C" PyNone); bot.BoundProcessCommands;
     bot.UserFn (Sample.returning "A" PyNone);
     bot.UserFn (Sample.returning "B" (PyBool true))]
  /\ bot.process Sample.no_format Sample.late_bot
       (Sample.text_update Sample.private_chat "hello") Sample.world0
     = (Ret tt,
        {| w_user := tt; w_trace := [call "C"; call "A"; call "B"];
           w_store := ∅; w_heap := ∅ |}).
Proof. split; reflexivity. Qed.

(** C6.  A command-shaped text whose first token is [/cmd@suffix], with
    [suffix] other than the username of the running bot, is not for this
    bot: a command hook, whatever its name, returns [None] and leaves the
    world as it found it (no handler called), and so does the command
    router (no handler called, no notice sent). *)
Theorem command_for_other_bot :
  (forall (U : Type) (f : Func U) (c : hooks.Component)
          (args : hooks.CommandArgs) (self : hooks.CommandHook U)
          (api : hooks.BotApi) (update : Update) (message : Message)
          (cmd suffix rest : string) (w : World U),
      hooks.CommandHook_init f c args = Ret self ->
      upd_message update = Some message ->
      msg_text message = Some ("/" +:+ cmd +:+ "@" +:+ suffix +:+ rest) ->
      str_forall is_word_char cmd = true ->
      str_forall (fun c => negb (is_blank c)) suffix = true ->
      blank_start rest = true ->
      suffix <> hooks.bot_username api ->
      hooks.Hook_call true (hooks.CommandHook__call self) api update w
      = (Ret PyNone, w))
  /\ (forall (U : Type) (fd : string -> string) (b : bot.Bot U)
             (chat : Chat) (message : Message) (cmd suffix rest : string)
             (w : World U),
         msg_text message = Some ("/" +:+ cmd +:+ "@" +:+ suffix +:+ rest) ->
         str_forall is_word_char cmd = true ->
         str_forall (fun c => negb (is_blank c)) suffix = true ->
         blank_start rest = true ->
         str_forall is_word_char (bot.itself_username b) = true ->
         suffix <> bot.itself_username b ->
         bot._process_commands fd b chat message w = (Ret PyNone, w)).
Proof.
  split.
  - intros U f c args self api update message cmd suffix rest w
      Hinit Hm Ht Hc Hs Hr Hne.
    exact (hooks_facts.command_hook_other_bot f c args self api update
             message cmd suffix rest w Hinit Hm Ht Hc Hs Hr Hne).
  - intros U fd b chat message cmd suffix rest w Ht Hc Hs Hr Hu Hne.
    exact (bot_facts.process_commands_other_bot fd b chat message cmd suffix
             rest w Hc Hs Hr Hu Hne Ht).
Qed.

Lemma command_for_other_bot_witness :
  hooks.Hook_call true (hooks.CommandHook__call Sample.foo_hook) Sample.mybot
    (Sample.text_update Sample.private_chat "/foo@otherbot bar")
    Sample.world0
  = (Ret PyNone, Sample.world0)
  /\ bot._process_commands Sample.no_format Sample.foo_bot
       Sample.private_chat
       (Sample.text_message Sample.private_chat "/foo@otherbot bar")
       Sample.world0
     = (Ret PyNone, Sample.world0).
Proof.
  split.
  - apply (proj1 command_for_other_bot unit (Sample.returning "foo" PyNone)
             Sample.root
             {| hooks.arg_name := "foo"; hooks.arg_hidden := None;
                hooks.arg_order := None |}
             Sample.foo_hook Sample.mybot _
             (Sample.text_message Sample.private_chat "/foo@otherbot bar")
             "foo" "otherbot" " bar" Sample.world0);
      try reflexivity.
    intros H. discriminate H.
  - apply (proj2 command_for_other_bot unit Sample.no_format Sample.foo_bot
             Sample.private_chat
             (Sample.text_message Sample.private_chat "/foo@otherbot bar")
             "foo" "otherbot" " bar" Sample.world0);
      try reflexivity.
    intros H. discriminate H.
Defined.

(** C8: the code accepts a name that the pattern of the specification
    rejects.  [$] also matches before a newline that ends the text, so the
    check lets through a valid name followed by one newline. *)
Theorem command_name_trailing_newline :
  valid_name ("foo" +:+ bot.nl) = false
  /\ forall (U : Type) (f : Func U) (c : hooks.Component),
       hooks.CommandHook_init f c
         {| hooks.arg_name := "foo" +:+ bot.nl; hooks.arg_hidden := None;
            hooks.arg_order := None |}
       = Ret {| hooks.cmd_hook := hooks.Hook_init f c;
                hooks._regex := hooks.command_pattern ("foo" +:+ bot.nl);
                hooks._name := "foo" +:+ bot.nl;
                hooks._hidden := false; hooks._order := 0 |}.
Proof. split; [reflexivity|]. intros U f c. reflexivity. Qed.

(** The names the specification gives as examples are refused: one with a
    space, one with a dash, the empty one. *)
Example command_names_refused (U : Type) (f : Func U) (c : hooks.Component) :
  Forall (fun n =>
            hooks.CommandHook_init f c
              {| hooks.arg_name := n; hooks.arg_hidden := None;
                 hooks.arg_order := None |}
            = Raise (ValueError ("Invalid command name: " +:+ n)))
    ["my cmd"; "my-cmd"; ""].
Proof. repeat constructor. Qed.

(** C2: the command router of [bot.py] cuts the text at every single
    space, so two spaces in a row hand an empty argument to the handler,
    where the command hook of [hooks.py] and the rule of the specification
    give the one argument [bar]. *)
Theorem router_splits_on_single_spaces :
  let message := Sample.text_message Sample.private_chat "/foo  bar" in
  bot._process_commands Sample.no_format Sample.foo_bot Sample.private_chat
    message Sample.world0
  = (Ret (PyBool true),
     push (EvCall "foo" (ArgsCommand Sample.private_chat message [""; "bar"]))
       Sample.world0)
  /\ space_run_args "/foo  bar" = ["bar"]
  /\ hooks.Hook_call true (hooks.CommandHook__call Sample.foo_hook)
       Sample.mybot (Sample.text_update Sample.private_chat "/foo  bar")
       Sample.world0
     = (Ret (PyBool true),
        push (EvCall "foo" (ArgsCommand Sample.private_chat message ["bar"]))
          Sample.world0).
Proof. split; [reflexivity|split; reflexivity]. Qed.

(** The example of the specification, on both paths: one call, with the
    arguments [bar] and [baz]. *)
Example foo_bar_baz :
  let message := Sample.text_message Sample.private_chat "/foo bar baz" in
  let called :=
    push (EvCall "foo"
            (ArgsCommand Sample.private_chat message ["bar"; "baz"]))
      Sample.world0 in
  bot._process_commands Sample.no_format Sample.foo_bot Sample.private_chat
    message Sample.world0
  = (Ret (PyBool true), called)
  /\ hooks.Hook_call true (hooks.CommandHook__call Sample.foo_hook)
       Sample.mybot (Sample.text_update Sample.private_chat "/foo bar baz")
       Sample.world0
     = (Ret (PyBool true), called).
Proof. split; reflexivity. Qed.

End dispatch_facts.

(** ** The properties on concrete runs *)

Module runs.
Import Py PyStr Spec Page.

(** *** Registration *)

Lemma decorator_registers_duplicate_witness :
  let first := Sample.returning "first" PyNone in
  let second := Sample.returning "second" PyNone in
  let b0 := bot.Bot_init "mybot" in
  let b1 := snd (bot.apply "foo" (bot.Callable first) b0) in
  let b2 := snd (bot.apply "foo" (bot.Callable second) b1) in
  bot.command "foo" None b0 = (Ret (bot.Applier "foo"), b0)
  /\ bot.command "foo" (Some (bot.Callable second)) b1
     = (Raise (NameError "The command /foo already exists"), b1)
  /\ bot.apply "foo" (bot.Callable second) b1
     = (Ret (bot.Callable second), b2)
  /\ bot._commands b1 !! "foo" = Some first
  /\ bot._commands b2 !! "foo" = Some second.
Proof.
  intros first second b0 b1 b2.
  destruct (bot_facts.decorator_registers_duplicate b0 "foo" first second
              (Some (bot.Callable second)) eq_refl)
    as (H1 & _ & H3 & H4 & H5 & H6 & _).
  - intros H. discriminate H.
  - repeat split; assumption.
Defined.

(** *** The built-in help *)

Lemma help_unknown_command_witness :
  bot._process_commands Sample.no_format Sample.foo_bot Sample.private_chat
    (Sample.text_message Sample.private_chat "/help unknown_cmd")
    Sample.world0
  = (Ret (PyBool true),
     push (EvSend Sample.private_chat
             ("Error: Unknow command: /unknown_cmd"
              +:+ String "010" "Use /help for a list of commands."))
       Sample.world0).
Proof.
  apply (proj2 (bot_facts.help_unknown_command Sample.no_format
                  Sample.foo_bot Sample.private_chat
                  (Sample.text_message Sample.private_chat
                     "/help unknown_cmd")
                  "unknown_cmd" Sample.world0 eq_refl));
    reflexivity.
Defined.

(** *** The contains hook *)

Lemma message_contains_calls_witness :
  let update := Sample.text_update Sample.private_chat "spam and spam" in
  let call :=
    EvCall "on_spam"
      (ArgsMessage Sample.private_chat
         (Sample.text_message Sample.private_chat "spam and spam")) in
  (exists u',
      hooks.Hook_call true
        (hooks.MessageContainsHook__call (Sample.spam_hook false))
        Sample.mybot update Sample.world0
      = (Ret (PyBool true),
         {| w_user := u'; w_trace := [call]; w_store := ∅; w_heap := ∅ |}))
  /\ (exists u',
         hooks.Hook_call true
           (hooks.MessageContainsHook__call (Sample.spam_hook true))
           Sample.mybot update Sample.world0
         = (Ret (PyBool true),
            {| w_user := u'; w_trace := [call; call];
               w_store := ∅; w_heap := ∅ |})).
Proof.
  intros update call.
  assert (forall m, returns_normally
                      (hooks.func (hooks.msg_hook (Sample.spam_hook m)))
                      (ArgsMessage Sample.private_chat
                         (Sample.text_message Sample.private_chat
                            "spam and spam"))) as Hret.
  { intros m u. exists PyNone, u. reflexivity. }
  split.
  - exact (hooks_facts.message_contains_calls (Sample.spam_hook false)
             Sample.mybot update _ "spam and spam" Sample.world0
             eq_refl eq_refl (Hret false)).
  - exact (hooks_facts.message_contains_calls (Sample.spam_hook true)
             Sample.mybot update _ "spam and spam" Sample.world0
             eq_refl eq_refl (Hret true)).
Defined.

(** C5 as stated fails: a tab is whitespace, so tokenizing on whitespace
    finds the token twice, but the hook cuts at spaces only, sees one
    token [spam<tab>spam], calls nothing and returns [False]. *)
Lemma contains_ignores_tabs :
  let text := "spam" +:+ String tab "spam" in
  let run :=
    hooks.Hook_call true
      (hooks.MessageContainsHook__call (Sample.spam_hook true))
      Sample.mybot (Sample.text_update Sample.private_chat text)
      Sample.world0 in
  occurrences "spam" (whitespace_tokens text) = 2%nat
  /\ run = (Ret (PyBool false), Sample.world0)
  /\ List.length (w_trace (snd run))
     <> occurrences "spam" (whitespace_tokens text).
Proof.
  split; [reflexivity|]. split; [reflexivity|]. intros H. discriminate H.
Qed.

(** *** The inline hook *)

Lemma inline_page_ids_witness :
  (exists r w',
      hooks.InlineHook__call (Sample.pager Sample.fresh_articles)
        Sample.mybot (Sample.inline_update "") Sample.shelf
      = (Ret r, w')
      /\ result_ids (w_heap w') [1; 2; 3; 4; 5]%positive
         = [Some (JInt 0); Some (JInt 1); Some (JInt 2); Some (JInt 3);
            Some (JInt 4)]
      /\ w_store w' !! 42 = Some 5)
  /\ (exists r w',
         hooks.InlineHook__call (Sample.pager Sample.fresh_articles)
           Sample.mybot (Sample.inline_update "5") Sample.shelf_at_5
         = (Ret r, w')
         /\ result_ids (w_heap w') [6; 7; 8; 9; 10]%positive
            = [Some (JInt 5); Some (JInt 6); Some (JInt 7); Some (JInt 8);
               Some (JInt 9)]
         /\ w_store w' !! 42 = Some 10).
Proof.
  split.
  - destruct (hooks_facts.inline_page_ids (Sample.pager Sample.fresh_articles)
                Sample.mybot (Sample.inline_update "")
                (Sample.inline_query "") Sample.fresh_articles tt
                Sample.shelf)
      as (r & w' & E & _ & _ & _ & Hids & Hst & _).
    + reflexivity.
    + reflexivity.
    + reflexivity.
    + vm_compute. split; discriminate.
    + reflexivity.
    + apply (bool_decide_unpack _). vm_compute. exact I.
    + apply (bool_decide_unpack _). vm_compute. exact I.
    + exists r, w'. split; [exact E|]. split; [exact Hids|exact Hst].
  - destruct (hooks_facts.inline_page_ids (Sample.pager Sample.fresh_articles)
                Sample.mybot (Sample.inline_update "5")
                (Sample.inline_query "5") Sample.fresh_articles tt
                Sample.shelf_at_5)
      as (r & w' & E & _ & _ & _ & Hids & Hst & _).
    + reflexivity.
    + reflexivity.
    + reflexivity.
    + vm_compute. split; discriminate.
    + reflexivity.
    + apply (bool_decide_unpack _). vm_compute. exact I.
    + apply (bool_decide_unpack _). vm_compute. exact I.
    + exists r, w'. split; [exact E|]. split; [exact Hids|exact Hst].
Defined.

(** C3 as stated fails: a handler that yields the same dictionary at the
    positions 0 and 1 gets a page whose two items are that one object,
    and the identifier written last wins: both items carry 1. *)
Lemma inline_shared_object_ids :
  let w' := snd (hooks.InlineHook__call (Sample.pager Sample.same_article)
                   Sample.mybot (Sample.inline_update "") Sample.shelf) in
  page Sample.same_article 0 5 = [1; 1]%positive
  /\ result_ids (w_heap w') [1; 1]%positive
     = [Some (JInt 1); Some (JInt 1)]
  /\ result_ids (w_heap w') [1; 1]%positive <> ids_from 0 2
  /\ kw_get "results"
       (match last (w_trace w') with
        | Some (EvApi _ args) => args
        | _ => []
        end)
     = Some (PyStr (Json.dumps
                      (JList [JDict [("type", JStr "article");
                                     ("title", JStr "1"); ("id", JInt 1)];
                              JDict [("type", JStr "article");
                                     ("title", JStr "1"); ("id", JInt 1)]]))).
Proof.
  split; [reflexivity|]. split; [reflexivity|].
  split; [|reflexivity]. intros H. discriminate H.
Qed.

Lemma inline_answer_shape_witness :
  exists r w' results,
    hooks.InlineHook__call (Sample.pager Sample.fresh_articles)
      Sample.mybot (Sample.inline_update "") Sample.shelf
    = (Ret r, w')
    /\ last (w_trace w')
       = Some (EvApi "answerInlineQuery"
                 [("inline_query_id", PyStr "q1");
                  ("cache_time", PyInt 300);
                  ("is_personal", PyBool true);
                  ("results", PyStr results);
                  ("next_offset", PyInt 5)]).
Proof.
  destruct (proj2 (hooks_facts.inline_answer_shape
                     (Sample.pager Sample.fresh_articles) Sample.mybot
                     (Sample.inline_update "") (Sample.inline_query "")
                     Sample.shelf eq_refl)
              Sample.fresh_articles tt)
    as (r & w' & results & E & Hlast & _).
  - reflexivity.
  - vm_compute. split; discriminate.
  - reflexivity.
  - apply (bool_decide_unpack _). vm_compute. exact I.
  - exists r, w', results. split; [exact E|exact Hlast].
Defined.

(** C7 as stated fails: after the first page with [paginate] 5 the
    [next_offset] argument is the integer 5, not the string that holds
    its digits. *)
Lemma inline_next_offset_is_integer :
  let w' := snd (hooks.InlineHook__call (Sample.pager Sample.fresh_articles)
                   Sample.mybot (Sample.inline_update "") Sample.shelf) in
  let args := match last (w_trace w') with
              | Some (EvApi _ args) => args
              | _ => []
              end in
  kw_get "next_offset" args = Some (PyInt 5)
  /\ kw_get "next_offset" args <> Some (PyStr "5").
Proof.
  split; [reflexivity|]. intros H. discriminate H.
Qed.

End runs.

(** ** Sequences of registrations *)

Module registration_facts.
Import Py bot registrations.

Section WithUserState.
Context {U : Type}.

Lemma register_before_hooks (r : Registration U) (b : Bot U) :
  _before_hooks (register r b) = _before_hooks b ++ registered_before [r].
Proof.
  unfold register, registration, command.
  destruct r as [[f|v]|[f|v]|name [f|v]]; simpl;
    try destruct (decide (is_Some (_commands b !! name)));
    simpl; now rewrite ?app_nil_r.
Qed.

Lemma register_processors (r : Registration U) (b : Bot U) :
  _processors (register r b) = _processors b ++ registered_processors [r].
Proof.
  unfold register, registration, command.
  destruct r as [[f|v]|[f|v]|name [f|v]]; simpl;
    try destruct (decide (is_Some (_commands b !! name)));
    simpl; now rewrite ?app_nil_r.
Qed.

Lemma register_commands (r : Registration U) (b : Bot U) (name : string) :
  _commands (register r b) !! name
  = match _commands b !! name with
    | Some f => Some f
    | None => first_command name [r]
    end.
Proof.
  unfold register, registration, command.
  destruct r as [[f|v]|[f|v]|n [f|v]]; simpl;
    try (now destruct (_commands b !! name)).
  - destruct (decide (is_Some (_commands b !! n))) as [Hs|Hn]; simpl.
    + destruct (String.eqb_spec n name) as [->|Hne].
      * destruct Hs as [g Hg]. now rewrite Hg.
      * now destruct (_commands b !! name).
    + destruct (String.eqb_spec n name) as [->|Hne].
      * rewrite lookup_insert_eq.
        destruct (_commands b !! name) eqn:E; [|reflexivity].
        exfalso. apply Hn. eauto.
      * rewrite lookup_insert_ne by exact Hne.
        now destruct (_commands b !! name).
  - destruct (decide (is_Some (_commands b !! n))); simpl;
      now destruct (_commands b !! name).
Qed.

Lemma registered_before_cons (r : Registration U) rs :
  registered_before (r :: rs) = registered_before [r] ++ registered_before rs.
Proof. unfold registered_before. simpl. now destruct r as [[?|?]|?|? ?]. Qed.

Lemma registered_processors_cons (r : Registration U) rs :
  registered_processors (r :: rs)
  = registered_processors [r] ++ registered_processors rs.
Proof.
  unfold registered_processors. simpl. now destruct r as [?|[?|?]|? ?].
Qed.

Lemma first_command_cons (name : string) (r : Registration U) rs :
  first_command name (r :: rs)
  = match first_command name [r] with
    | Some f => Some f
    | None => first_command name rs
    end.
Proof.
  simpl. destruct r as [?|?|n [f|v]]; try reflexivity.
  now destruct (String.eqb n name).
Qed.

Lemma register_all_lists (rs : list (Registration U)) (b : Bot U) :
  _before_hooks (register_all rs b) = _before_hooks b ++ registered_before rs
  /\ _processors (register_all rs b)
     = _processors b ++ registered_processors rs.
Proof.
  revert b. induction rs as [|r rs IH]; intros b.
  - simpl. now rewrite !app_nil_r.
  - change (register_all (r :: rs) b) with (register_all rs (register r b)).
    destruct (IH (register r b)) as [-> ->].
    rewrite register_before_hooks, register_processors.
    rewrite (registered_before_cons r rs), (registered_processors_cons r rs).
    now rewrite !app_assoc.
Qed.

Lemma register_all_commands (rs : list (Registration U)) (b : Bot U)
    (name : string) :
  _commands (register_all rs b) !! name
  = match _commands b !! name with
    | Some f => Some f
    | None => first_command name rs
    end.
Proof.
  revert b. induction rs as [|r rs IH]; intros b.
  - simpl. now destruct (_commands b !! name).
  - change (register_all (r :: rs) b) with (register_all rs (register r b)).
    rewrite IH, register_commands, (first_command_cons name r rs).
    destruct (_commands b !! name); [reflexivity|].
    now destruct (first_command name [r]).
Qed.

Lemma register_username (r : Registration U) (b : Bot U) :
  itself_username (register r b) = itself_username b.
Proof.
  unfold register, registration, command.
  destruct r as [[f|v]|[f|v]|name [f|v]]; simpl;
    try destruct (decide (is_Some (_commands b !! name)));
    reflexivity.
Qed.

Lemma register_all_username (rs : list (Registration U)) (b : Bot U) :
  itself_username (register_all rs b) = itself_username b.
Proof.
  revert b. induction rs as [|r rs IH]; intros b; [reflexivity|].
  change (register_all (r :: rs) b) with (register_all rs (register r b)).
  now rewrite IH, register_username.
Qed.

(** X1.  Whatever calls of [before_processing], [process_messages] and
    [command] are made on a new bot, in whatever order and whether they
    return or raise, the command router stays the first processor, the
    processors that follow it are the callables handed to
    [process_messages] in the order of the calls, and the before hooks
    are the callables handed to [before_processing] in the order of
    the calls. *)
Theorem hooks_keep_registration_order (username : string)
    (rs : list (Registration U)) :
  _before_hooks (register_all rs (Bot_init username)) = registered_before rs
  /\ _processors (register_all rs (Bot_init username))
     = BoundProcessCommands :: registered_processors rs.
Proof. exact (register_all_lists rs (Bot_init username)). Qed.

(** X2.  After any sequence of registration calls on a new bot, a name
    is bound to the first callable that [command] was handed for it:
    later calls for the same name change nothing, and a name for which
    no callable was handed is not in the registry. *)
Theorem command_keeps_first_handler (username : string)
    (rs : list (Registration U)) (name : string) :
  _commands (register_all rs (Bot_init username)) !! name
  = first_command name rs.
Proof.
  rewrite register_all_commands. simpl. now rewrite lookup_empty.
Qed.

(** X3.  A registration call that raises leaves the bot as it found
    it. *)
Theorem rejected_registration_changes_nothing (r : Registration U)
    (b : Bot U) (e : exn) :
  fst (registration r b) = Raise e -> register r b = b.
Proof.
  unfold register, registration, command.
  destruct r as [[f|v]|[f|v]|name [f|v]]; simpl; try discriminate;
    try reflexivity;
    destruct (decide (is_Some (_commands b !! name))); simpl;
    try discriminate; reflexivity.
Qed.

End WithUserState.

End registration_facts.

(** ** The command router of [bot.py] on a command message *)

Module router_facts.
Import Py PyStr Re Spec bot bot_texts text_facts.
#[local] Arguments String.append !_ _ / : simpl nomatch.

Lemma str_app_inv_head (a b c : string) : a +:+ b = a +:+ c -> b = c.
Proof.
  induction a as [|x a IH]; simpl; [trivial|]. intros [= H]. exact (IH H).
Qed.

Lemma word_no_space (s : string) :
  str_forall is_word_char s = true ->
  str_forall (fun c => negb (Ascii.eqb c space)) s = true.
Proof.
  apply str_forall_impl. intros c Hc.
  destruct (Ascii.eqb_spec c space) as [->|_]; [discriminate Hc|reflexivity].
Qed.

Lemma mention_no_space (username : string) (mentioned : bool) :
  str_forall is_word_char username = true ->
  str_forall (fun c => negb (Ascii.eqb c space)) (mention username mentioned)
  = true.
Proof.
  intros Hu. destruct mentioned; [|reflexivity].
  simpl. now apply word_no_space.
Qed.

Lemma args_tail_after (rest : option string) :
  single_line rest = true -> args_tail (after_command rest) = true.
Proof.
  destruct rest as [s|]; [|reflexivity].
  intros Hs. simpl. now apply dotstar_end_no_newline.
Qed.

Lemma router_match (username cmd : string) (mentioned : bool)
    (rest : option string) :
  valid_name cmd = true ->
  single_line rest = true ->
  match_commands username (command_text cmd username mentioned rest)
  = Some cmd.
Proof.
  intros Hc Hr. apply match_commands_spec. split; [exact Hc|].
  exists (mention username mentioned +:+ after_command rest).
  split; [reflexivity|].
  destruct mentioned.
  - right. exists (after_command rest). split; [reflexivity|].
    now apply args_tail_after.
  - left. now apply args_tail_after.
Qed.

Lemma router_split (username cmd : string) (mentioned : bool)
    (rest : option string) :
  valid_name cmd = true ->
  str_forall is_word_char username = true ->
  split space (command_text cmd username mentioned rest)
  = ("/" +:+ cmd +:+ mention username mentioned) :: rest_args rest.
Proof.
  intros [_ Hc]%andb_prop Hu.
  assert (str_forall (fun c => negb (Ascii.eqb c space))
            ("/" +:+ cmd +:+ mention username mentioned) = true) as Hhead.
  { change ("/" +:+ cmd +:+ mention username mentioned)
      with (String "/" (cmd +:+ mention username mentioned)).
    cbn [str_forall]. rewrite str_forall_app.
    rewrite (word_no_space _ Hc), (mention_no_space _ mentioned Hu).
    reflexivity. }
  unfold command_text.
  replace ("/" +:+ cmd +:+ mention username mentioned +:+ after_command rest)
    with (("/" +:+ cmd +:+ mention username mentioned)
          +:+ after_command rest)
    by (simpl; now rewrite str_app_assoc).
  destruct rest as [s|]; cbn [after_command rest_args].
  - now apply split_app_sep.
  - rewrite str_app_empty_r. now apply split_no_sep.
Qed.

Lemma router_mentioned (username cmd : string) (mentioned : bool) :
  String.eqb ("/" +:+ cmd +:+ mention username mentioned)
    ("/" +:+ cmd +:+ "@" +:+ username)
  = mentioned.
Proof.
  destruct mentioned; cbn [mention].
  - apply String.eqb_refl.
  - apply String.eqb_neq. intros H.
    apply (str_app_inv_head "/") in H.
    apply str_app_inv_head in H. discriminate H.
Qed.

Section WithUserState.
Context {U : Type}.
Variable format_docstr : string -> string.

(** What the router does once the text is known to be a command
    message. *)
Lemma router_on_command (b : Bot U) (chat : Chat) (message : Message)
    (cmd : string) (mentioned : bool) (rest : option string) (w : World U) :
  valid_name cmd = true ->
  str_forall is_word_char (itself_username b) = true ->
  single_line rest = true ->
  msg_text message
  = Some (command_text cmd (itself_username b) mentioned rest) ->
  _process_commands format_docstr b chat message w
  = match _get_commands b !! cmd with
    | Some fn =>
        Py.bind (call_command format_docstr b fn chat message (rest_args rest))
          (fun _ => ret (PyBool true)) w
    | None =>
        (Ret PyNone,
         if match chat_kind chat with KUser => true | _ => false end
            || mentioned
         then push (EvSend chat (unknown_notice cmd)) w else w)
    end.
Proof.
  intros Hc Hu Hr Ht. unfold _process_commands.
  rewrite Ht, (router_match _ _ _ _ Hc Hr), (router_split _ _ _ _ Hc Hu).
  unfold default. cbn [head tail from_option id]. unfold id.
  rewrite router_mentioned.
  destruct (_get_commands b !! cmd) as [fn|]; [reflexivity|].
  destruct (match chat_kind chat with KUser => true | _ => false end
            || mentioned); reflexivity.
Qed.

(** X4.  A text made of a slash, a registered name, optionally a
    mention of this bot and optionally a space and one line of text
    makes the router call the handler registered for the name once,
    with the pieces of that line between single spaces as arguments
    (none when nothing follows).  The router then returns [True]
    whatever the handler returned, and an exception of the handler
    goes through.  This holds for the names [help] and [start] too:
    a registered handler takes the place of the built-in command. *)
Theorem router_calls_registered_handler (b : Bot U) (chat : Chat)
    (message : Message) (cmd : string) (mentioned : bool)
    (rest : option string) (f : Func U) (w : World U) :
  valid_name cmd = true ->
  str_forall is_word_char (itself_username b) = true ->
  single_line rest = true ->
  _commands b !! cmd = Some f ->
  msg_text message
  = Some (command_text cmd (itself_username b) mentioned rest) ->
  _process_commands format_docstr b chat message w
  = (match fst (fn_run f (ArgsCommand chat message (rest_args rest))
                  (w_user w)) with
     | Ret _ => Ret (PyBool true)
     | Raise e => Raise e
     end,
     after_call f (ArgsCommand chat message (rest_args rest)) w).
Proof.
  intros Hc Hu Hr Hf Ht.
  rewrite (router_on_command b chat message cmd mentioned rest w Hc Hu Hr Ht).
  rewrite bot_facts.get_commands_lookup, Hf.
  unfold call_command, Py.bind, call_func, after_call, ret.
  destruct (fn_run f (ArgsCommand chat message (rest_args rest)) (w_user w))
    as [[v|e] u']; reflexivity.
Qed.

(** The texts the pattern of the router accepts: the command, the
    optional mention, the optional rest of the line, and possibly one
    newline at the very end. *)
Lemma command_text_assoc (cmd username : string) (mentioned : bool)
    (rest : option string) (ending : string) :
  command_text cmd username mentioned rest +:+ ending
  = ("/" +:+ cmd +:+ mention username mentioned)
    +:+ (after_command rest +:+ ending).
Proof.
  unfold command_text. simpl. now rewrite !str_app_assoc.
Qed.

Lemma args_tail_ending (rest : option string) (trailing : bool) :
  single_line rest = true ->
  args_tail (after_command rest +:+ (if trailing then nl else "")) = true.
Proof.
  intros Hr. destruct rest as [line|].
  - cbn [after_command]. simpl. apply dotstar_end_spec.
    exists line, (if trailing then nl else ""). split; [|split].
    + destruct trailing; [right|left]; reflexivity.
    + exact Hr.
    + reflexivity.
  - destruct trailing; reflexivity.
Qed.

Lemma router_match_line (username cmd : string) (mentioned : bool)
    (rest : option string) (trailing : bool) :
  valid_name cmd = true ->
  single_line rest = true ->
  match_commands username
    (command_text cmd username mentioned rest
     +:+ (if trailing then nl else ""))
  = Some cmd.
Proof.
  intros Hc Hr. apply match_commands_spec. split; [exact Hc|].
  exists (mention username mentioned
          +:+ after_command rest +:+ (if trailing then nl else "")).
  split.
  - unfold command_text. simpl. now rewrite !str_app_assoc.
  - destruct mentioned.
    + right. exists (after_command rest +:+ (if trailing then nl else "")).
      split; [reflexivity|]. now apply args_tail_ending.
    + left. now apply args_tail_ending.
Qed.

Lemma router_split_line (username cmd : string) (mentioned : bool)
    (rest : option string) (trailing : bool) :
  valid_name cmd = true ->
  str_forall is_word_char username = true ->
  split space (command_text cmd username mentioned rest
               +:+ (if trailing then nl else ""))
  = match rest with
    | Some line =>
        ("/" +:+ cmd +:+ mention username mentioned)
        :: split space (line +:+ (if trailing then nl else ""))
    | None =>
        [("/" +:+ cmd +:+ mention username mentioned)
         +:+ (if trailing then nl else "")]
    end.
Proof.
  intros [_ Hc]%andb_prop Hu.
  assert (str_forall (fun c => negb (Ascii.eqb c space))
            ("/" +:+ cmd +:+ mention username mentioned) = true) as Hhead.
  { change ("/" +:+ cmd +:+ mention username mentioned)
      with (String "/" (cmd +:+ mention username mentioned)).
    cbn [str_forall]. rewrite str_forall_app.
    rewrite (word_no_space _ Hc), (mention_no_space _ mentioned Hu).
    reflexivity. }
  rewrite command_text_assoc.
  destruct rest as [line|]; cbn [after_command].
  - change (String space line +:+ (if trailing then nl else ""))
      with (String space (line +:+ (if trailing then nl else ""))).
    now apply split_app_sep.
  - change ("" +:+ (if trailing then nl else ""))
      with (if trailing then nl else "").
    apply split_no_sep. rewrite str_forall_app, Hhead.
    destruct trailing; reflexivity.
Qed.

(** The test of the router for a mention: the first piece of the text
    is the command followed by the mention and nothing else. *)
Lemma router_named (username cmd : string) (mentioned trailing : bool)
    (rest : option string) :
  String.eqb
    (default ""
       (head match rest with
             | Some line =>
                 ("/" +:+ cmd +:+ mention username mentioned)
                 :: split space (line +:+ (if trailing then nl else ""))
             | None =>
                 [("/" +:+ cmd +:+ mention username mentioned)
                  +:+ (if trailing then nl else "")]
             end))
    ("/" +:+ cmd +:+ "@" +:+ username)
  = mentioned && match rest with
                 | Some _ => true
                 | None => negb trailing
                 end.
Proof.
  destruct rest as [line|]; unfold default; cbn [head from_option id];
    unfold id.
  - rewrite router_mentioned. now rewrite andb_true_r.
  - destruct trailing; cbn [negb].
    + rewrite andb_false_r. apply String.eqb_neq. intros H.
      destruct mentioned; cbn [mention] in *.
      * assert (nl = "") as Hnl; [|discriminate Hnl].
        apply (str_app_inv_head ("/" +:+ cmd +:+ "@" +:+ username)).
        now rewrite str_app_empty_r.
      * rewrite ?str_app_empty_r, ?str_app_assoc in H.
        try apply (str_app_inv_head "/") in H.
        rewrite ?str_app_assoc in H.
        apply str_app_inv_head in H. discriminate H.
    + rewrite str_app_empty_r, andb_true_r. apply router_mentioned.
Qed.

(** Every text the pattern accepts is of this form. *)
Lemma router_texts (username text cmd : string) :
  match_commands username text = Some cmd ->
  exists (mentioned : bool) (rest : option string) (trailing : bool),
    single_line rest = true
    /\ text = command_text cmd username mentioned rest
              +:+ (if trailing then nl else "").
Proof.
  intros (_ & r & -> & Hr)%match_commands_spec.
  assert (forall r0, args_tail r0 = true ->
          exists (rest : option string) (trailing : bool),
            single_line rest = true
            /\ r0 = after_command rest +:+ (if trailing then nl else ""))
    as Htail.
  { intros r0 [->|[->|(s0 & -> & Hs)]]%args_tail_spec.
    - exists None, false. split; reflexivity.
    - exists None, true. split; reflexivity.
    - apply dotstar_end_spec in Hs as (line & e & He & Hline & ->).
      exists (Some line). destruct He as [->| ->].
      + exists false. split; [exact Hline|reflexivity].
      + exists true. split; [exact Hline|reflexivity]. }
  destruct Hr as [Hr|(r' & -> & Hr')].
  - destruct (Htail r Hr) as (rest & trailing & Hl & ->).
    exists false, rest, trailing. split; [exact Hl|].
    unfold command_text. simpl. now rewrite !str_app_assoc.
  - destruct (Htail r' Hr') as (rest & trailing & Hl & ->).
    exists true, rest, trailing. split; [exact Hl|].
    rewrite command_text_assoc. cbn [mention].
    now rewrite !str_app_assoc.
Qed.

(** X5.  For a well-formed command name that is in neither command
    dictionary the router calls nothing and returns [None], so the
    processors after it still see the message.  The texts in question
    are the command, optionally followed by a mention of this bot,
    optionally by a space and one line, and possibly by one newline at
    the very end, and there are no others that the pattern accepts.
    The router sends the two-line notice to the chat exactly when the
    chat is a private one, or the text mentions this bot and the
    mention is not directly followed by the final newline; it sends
    nothing otherwise. *)
Theorem router_unknown_command (b : Bot U) (chat : Chat)
    (message : Message) (cmd : string) (w : World U) :
  valid_name cmd = true ->
  str_forall is_word_char (itself_username b) = true ->
  _get_commands b !! cmd = None ->
  (forall (mentioned : bool) (rest : option string) (trailing : bool),
      single_line rest = true ->
      msg_text message
      = Some (command_text cmd (itself_username b) mentioned rest
              +:+ (if trailing then nl else "")) ->
      _process_commands format_docstr b chat message w
      = (Ret PyNone,
         if match chat_kind chat with KUser => true | _ => false end
            || (mentioned && match rest with
                             | Some _ => true
                             | None => negb trailing
                             end)
         then push (EvSend chat
                      ("Unknow command /" +:+ cmd +:+ "."
                       +:+ String "010" "Use /help for a list of commands."))
                w
         else w))
  /\ (forall text : string,
         match_commands (itself_username b) text = Some cmd ->
         exists (mentioned : bool) (rest : option string) (trailing : bool),
           single_line rest = true
           /\ text = command_text cmd (itself_username b) mentioned rest
                     +:+ (if trailing then nl else "")).
Proof.
  intros Hc Hu Hn. split.
  - intros mentioned rest trailing Hr Ht. unfold _process_commands.
    rewrite Ht, (router_match_line _ _ _ _ _ Hc Hr).
    rewrite (router_split_line _ _ _ _ _ Hc Hu), router_named, Hn.
    destruct (match chat_kind chat with KUser => true | _ => false end
              || (mentioned && match rest with
                               | Some _ => true
                               | None => negb trailing
                               end)); [|reflexivity].
    unfold Py.bind, chat_send, emit, ret. cbn [join].
    now rewrite !str_app_assoc.
  - intros text. apply router_texts.
Qed.

(** X6.  While no handler is registered under [start], the text
    [/start], with or without a mention of this bot and whatever
    follows on the line, makes the router send one message, the about
    text when there is one and the pointer to [/help], and return
    [True]. *)
Theorem router_builtin_start (b : Bot U) (chat : Chat) (message : Message)
    (mentioned : bool) (rest : option string) (w : World U) :
  str_forall is_word_char (itself_username b) = true ->
  single_line rest = true ->
  _commands b !! "start" = None ->
  msg_text message
  = Some (command_text "start" (itself_username b) mentioned rest) ->
  _process_commands format_docstr b chat message w
  = (Ret (PyBool true),
     push (EvSend chat
             (if is_empty (about b)
              then "Use /help to get a list of all the commands"
              else about b +:+ nl
                   +:+ "Use /help to get a list of all the commands")) w).
Proof.
  intros Hu Hr Hs Ht.
  rewrite (router_on_command b chat message "start" mentioned rest w
             eq_refl Hu Hr Ht).
  rewrite bot_facts.get_commands_lookup, Hs.
  change (_default_commands !! "start") with (Some (@DefaultStart U)).
  unfold call_command, _default_start_command, Py.bind, chat_send, emit, ret.
  unfold truthy. destruct (is_empty (about b)); reflexivity.
Qed.

End WithUserState.

End router_facts.

(** ** The built-in help of [bot.py] *)

Module help_facts.
Import Py PyStr Spec bot bot_texts text_facts.
#[local] Arguments String.append !_ _ / : simpl nomatch.

Lemma insert_sorted_perm (x : string) (l : list string) :
  insert_sorted x l ≡ₚ x :: l.
Proof.
  induction l as [|y l IH]; simpl; [reflexivity|].
  destruct (String.leb x y); [reflexivity|].
  rewrite IH. apply Permutation_swap.
Qed.

Lemma sorted_perm (l : list string) : sorted l ≡ₚ l.
Proof.
  induction l as [|x l IH]; simpl; [reflexivity|].
  unfold sorted in IH. now rewrite insert_sorted_perm, IH.
Qed.

Lemma insert_sorted_hd (x a : string) (l : list string) :
  String.leb a x = true ->
  HdRel (fun x y => String.leb x y = true) a l ->
  HdRel (fun x y => String.leb x y = true) a (insert_sorted x l).
Proof.
  intros Hax Hl. destruct l as [|y l]; simpl.
  - now constructor.
  - destruct (String.leb x y); constructor; [exact Hax|].
    now inversion Hl.
Qed.

Lemma insert_sorted_sorted (x : string) (l : list string) :
  Sorted (fun x y => String.leb x y = true) l ->
  Sorted (fun x y => String.leb x y = true) (insert_sorted x l).
Proof.
  induction 1 as [|y l Hs IH Hd]; simpl.
  - repeat constructor.
  - destruct (String.leb x y) eqn:E.
    + constructor; [now constructor|]. now constructor.
    + constructor; [exact IH|].
      apply insert_sorted_hd; [|exact Hd].
      destruct (String.leb_total x y) as [H|H]; [congruence|exact H].
Qed.

Lemma sorted_sorted (l : list string) :
  Sorted (fun x y => String.leb x y = true) (sorted l).
Proof.
  induction l as [|x l IH]; simpl; [constructor|].
  now apply insert_sorted_sorted.
Qed.

Lemma omap_total {A B : Type} (g : A -> option B) (l : list A) :
  Forall (fun a => is_Some (g a)) l ->
  Forall2 (fun a y => g a = Some y) l (omap g l).
Proof.
  induction 1 as [|a l [y Hy] _ IH]; simpl; [constructor|].
  rewrite Hy. now constructor.
Qed.

Lemma split_nonempty (sep : ascii) (s : string) : split sep s <> [].
Proof.
  rewrite split_pieces. destruct (pieces_cons (fun c => Ascii.eqb c sep) s)
    as (p & ps & ->). discriminate.
Qed.

(** A text that holds the separator is cut into two pieces or more. *)
Lemma split_two_pieces (sep : ascii) (s : string) :
  str_forall (fun c => negb (Ascii.eqb c sep)) s = false ->
  (1 <? List.length (split sep s))%nat = true.
Proof.
  induction s as [|c s IH]; [discriminate|]. simpl.
  destruct (Ascii.eqb c sep) eqn:E; simpl.
  - intros _. pose proof (split_nonempty sep s) as Hne.
    destruct (split sep s); [contradiction|reflexivity].
  - intros Hs. specialize (IH Hs).
    destruct (split sep s) as [|p ps]; [discriminate IH|exact IH].
Qed.

Section WithUserState.
Context {U : Type}.
Variable format_docstr : string -> string.

Lemma elem_of_keys (m : gmap string (CommandFn U)) (name : string) :
  name ∈ (map_to_list m).*1 <-> is_Some (m !! name).
Proof.
  rewrite list_elem_of_fmap. split.
  - intros ([k v] & -> & Hkv). apply elem_of_map_to_list in Hkv. eauto.
  - intros [v Hv]. exists (name, v). split; [reflexivity|].
    now apply elem_of_map_to_list.
Qed.

(** X7.  On a bot with at least one registered command the generic help
    message is: the about text and an empty line when there is an
    about text, the heading, one line for each available command,
    the hint, and the owner's note when there is an owner.  The commands
    listed are the registered ones and the built-in ones, each once, in
    increasing order of their names; the line of a command shows the
    first line of its stripped docstring, or that no description is
    available. *)
Theorem generic_help_lists_commands (b : Bot U) (cmd : string)
    (f : Func U) :
  _commands b !! cmd = Some f ->
  exists names lines,
    _generic_help_message b (_get_commands b)
    = about_lines b ++ ["Available commands:"] ++ lines
      ++ ["Use /help <command> if you need help about a specific command."]
      ++ owner_footer b " if you have problems with this bot."
    /\ Forall2 (fun name line =>
                  command_line (_get_commands b) name = Some line)
         names lines
    /\ Sorted (fun x y => String.leb x y = true) names
    /\ NoDup names
    /\ (forall name,
          name ∈ names <-> is_Some (_get_commands b !! name)).
Proof.
  intros Hf.
  set (cmds := _get_commands b).
  set (names := sorted ((map_to_list cmds).*1)).
  assert (forall name, name ∈ names <-> is_Some (cmds !! name)) as Hin.
  { intros name. unfold names. rewrite (sorted_perm _).
    apply elem_of_keys. }
  exists names, (omap (command_line cmds) names).
  split; [|split; [|split; [|split]]].
  - unfold _generic_help_message, about_lines.
    assert ((0 <? size (_commands b))%nat = true) as ->.
    { apply Nat.ltb_lt.
      destruct (size (_commands b)) eqn:E; [|lia].
      apply map_size_empty_iff in E. rewrite E in Hf.
      rewrite lookup_empty in Hf. discriminate Hf. }
    rewrite <- !app_assoc. reflexivity.
  - apply omap_total. apply Forall_forall. intros name Hn.
    apply Hin in Hn as [fn Hfn]. unfold command_line. rewrite Hfn.
    simpl. eauto.
  - apply sorted_sorted.
  - unfold names. rewrite (sorted_perm _). apply NoDup_fst_map_to_list.
  - exact Hin.
Qed.

(** X8.  While no command is registered, the text [/help], with or
    without a mention of this bot, makes the router answer that no
    commands are available, between the about text and the owner's note
    when there are any, although [help] and [start] are available; the
    router returns [True]. *)
Theorem help_without_registered_commands (b : Bot U) (chat : Chat)
    (message : Message) (mentioned : bool) (w : World U) :
  str_forall is_word_char (itself_username b) = true ->
  _commands b = ∅ ->
  msg_text message
  = Some (command_text "help" (itself_username b) mentioned None) ->
  _get_commands b !! "help" = Some DefaultHelp
  /\ _get_commands b !! "start" = Some DefaultStart
  /\ _process_commands format_docstr b chat message w
     = (Ret (PyBool true),
        push (EvSend chat
                (join nl
                   (about_lines b ++ ["No commands available."]
                    ++ owner_footer b
                         " if you have problems with this bot."))) w).
Proof.
  intros Hu He Ht.
  assert (forall n, _get_commands b !! n = _default_commands !! n) as Hl.
  { intros n. rewrite bot_facts.get_commands_lookup, He, lookup_empty.
    reflexivity. }
  split; [now rewrite Hl|]. split; [now rewrite Hl|].
  rewrite (router_facts.router_on_command format_docstr b chat message
             "help" mentioned None w eq_refl Hu eq_refl Ht).
  rewrite Hl.
  change (_default_commands !! "help") with (Some (@DefaultHelp U)).
  unfold call_command, _default_help_command, Py.bind, chat_send, emit, ret.
  cbn [rest_args List.length Nat.ltb Nat.leb].
  unfold _generic_help_message, about_lines.
  rewrite He, map_size_empty. reflexivity.
Qed.

(** X28.  While no handler is registered under [help], the text
    [/help] followed by a space and a line that holds a space makes
    the built-in help answer that it allows up to one argument, and
    nothing else: the line is cut at every single space, so two words,
    or one word after two spaces or before a trailing one, are two
    arguments. *)
Theorem help_rejects_two_arguments (b : Bot U) (chat : Chat)
    (message : Message) (mentioned : bool) (line : string) (w : World U) :
  str_forall is_word_char (itself_username b) = true ->
  no_newline line = true ->
  str_forall (fun c => negb (Ascii.eqb c space)) line = false ->
  _commands b !! "help" = None ->
  msg_text message
  = Some (command_text "help" (itself_username b) mentioned (Some line)) ->
  _process_commands format_docstr b chat message w
  = (Ret (PyBool true),
     push (EvSend chat "Error: the /help command allows up to one argument.")
       w).
Proof.
  intros Hu Hl Hs Hh Ht.
  rewrite (router_facts.router_on_command format_docstr b chat message
             "help" mentioned (Some line) w eq_refl Hu Hl Ht).
  rewrite bot_facts.get_commands_lookup, Hh.
  change (_default_commands !! "help") with (Some (@DefaultHelp U)).
  unfold call_command, _default_help_command, Py.bind, chat_send, emit, ret.
  cbn [rest_args]. rewrite (split_two_pieces space line Hs). reflexivity.
Qed.

(** X29.  While no handler is registered under [help], the text
    [/help] followed by a space and the name of an available command
    makes the built-in help send one message: the name and the formatted
    docstring of the command, or that there is no help message for it
    when it has no docstring, followed by the owner's note when there
    is an owner; the router returns [True]. *)
Theorem help_describes_known_command (b : Bot U) (chat : Chat)
    (message : Message) (mentioned : bool) (name : string)
    (fn : CommandFn U) (w : World U) :
  str_forall is_word_char (itself_username b) = true ->
  str_forall (fun c => negb (is_blank c)) name = true ->
  _commands b !! "help" = None ->
  _get_commands b !! name = Some fn ->
  msg_text message
  = Some (command_text "help" (itself_username b) mentioned (Some name)) ->
  _process_commands format_docstr b chat message w
  = (Ret (PyBool true),
     push (EvSend chat
             (join nl
                ((if truthy (command_doc fn)
                  then ["/" +:+ name +:+ " - " +:+
                        format_docstr (default "" (command_doc fn))]
                  else ["No help messages for the /" +:+ name
                        +:+ " command."])
                 ++ owner_footer b " if you have problems with this bot")))
       w).
Proof.
  intros Hu Hn Hh Hf Ht.
  rewrite (router_facts.router_on_command format_docstr b chat message
             "help" mentioned (Some name) w eq_refl Hu
             (bot_facts.not_blank_no_newline _ Hn) Ht).
  rewrite bot_facts.get_commands_lookup, Hh.
  change (_default_commands !! "help") with (Some (@DefaultHelp U)).
  unfold call_command, _default_help_command, Py.bind, chat_send, emit, ret.
  cbn [rest_args].
  rewrite (split_no_sep space name (bot_facts.not_blank_no_space _ Hn)).
  cbn [List.length Nat.ltb Nat.leb]. rewrite Hf.
  destruct (decide (is_Some (Some fn))) as [_|Hno];
    [|exfalso; apply Hno; eauto].
  unfold _command_help_message. rewrite Hf. reflexivity.
Qed.

End WithUserState.

End help_facts.

(** ** Walks that end otherwise than by a claim *)

Module walk_facts.
Import Py PyStr Spec hooks payments bot bot_texts registrations.

Section WithUserState.
Context {U : Type}.
Variable format_docstr : string -> string.

Lemma process_hooks_raised (b : Bot U) (chat : Chat) (message : Message)
    (pre post : list (HookFn U)) (h : HookFn U) (e : exn)
    (w w1 w2 : World U) :
  passes format_docstr b chat message pre w w1 ->
  call_hook format_docstr b h chat message w1 = (Raise e, w2) ->
  process_hooks format_docstr b (pre ++ h :: post) chat message w
  = (Raise e, w2).
Proof.
  intros Hpre Hh.
  induction Hpre as [w|hook rest v' w wa wb Hcall Hnot _ IH]; simpl.
  - unfold Py.bind. rewrite Hh. reflexivity.
  - unfold Py.bind. rewrite Hcall, Hnot. exact (IH Hh).
Qed.

(** X9.  When the hooks before [h] in the list of [Bot.process], the
    before hooks followed by the processors, all return something other
    than [True] and [h] raises, [Bot.process] raises the same exception
    from the world [h] left: the hooks after [h] are not called. *)
Theorem raising_hook_stops_processing (b : Bot U) (update : Update)
    (message : Message) (pre post : list (HookFn U)) (h : HookFn U)
    (e : exn) (w w1 w2 : World U) :
  upd_message update = Some message ->
  _before_hooks b ++ _processors b = pre ++ h :: post ->
  passes format_docstr b (msg_chat message) message pre w w1 ->
  call_hook format_docstr b h (msg_chat message) message w1 = (Raise e, w2) ->
  process format_docstr b update w = (Raise e, w2).
Proof.
  intros Hm Hl Hpre Hh. unfold process. rewrite Hm, Hl.
  exact (process_hooks_raised b _ _ pre post h e w w1 w2 Hpre Hh).
Qed.

(** X10.  On a bot set up by any sequence of registration calls, a
    message whose text is a registered command is handled by the before
    hooks, in the order of their registration, and then by the handler
    of the command, provided no before hook returns [True]; the router
    claims the update, so no processor registered with
    [process_messages] is called, whatever the order of the
    registrations. *)
Theorem registered_command_shadows_processors (username : string)
    (rs : list (Registration U)) (update : Update) (message : Message)
    (cmd : string) (mentioned : bool) (rest : option string) (f : Func U)
    (v : pyval) (u' : U) (w w1 : World U) :
  let b := register_all rs (Bot_init username) in
  let args := ArgsCommand (msg_chat message) message (rest_args rest) in
  valid_name cmd = true ->
  str_forall PyStr.is_word_char username = true ->
  single_line rest = true ->
  first_command cmd rs = Some f ->
  upd_message update = Some message ->
  msg_text message = Some (command_text cmd username mentioned rest) ->
  passes format_docstr b (msg_chat message) message (registered_before rs)
    w w1 ->
  fn_run f args (w_user w1) = (Ret v, u') ->
  process format_docstr b update w
  = (Ret tt, set_user u' (push (EvCall (fn_name f) args) w1)).
Proof.
  intros b args Hc Hu Hr Hf Hm Ht Hpre Hrun.
  assert (itself_username b = username) as Hname.
  { unfold b. now rewrite registration_facts.register_all_username. }
  destruct (registration_facts.register_all_lists rs (Bot_init username))
    as [Hb Hp].
  fold b in Hb, Hp. simpl in Hb, Hp.
  unfold process. rewrite Hm, Hb, Hp.
  apply (bot_facts.process_hooks_claimed format_docstr b _ _ _ _ _
           (PyBool true) w w1); [exact Hpre| |reflexivity].
  cbn [call_hook].
  assert (_commands b !! cmd = Some f) as Hcmd.
  { unfold b. rewrite registration_facts.register_all_commands.
    simpl. now rewrite lookup_empty. }
  rewrite (router_facts.router_on_command format_docstr b
             (msg_chat message) message cmd mentioned rest w1 Hc).
  - rewrite bot_facts.get_commands_lookup, Hcmd.
    unfold call_command, Py.bind, call_func, ret. fold args.
    rewrite Hrun. reflexivity.
  - now rewrite Hname.
  - exact Hr.
  - now rewrite Hname.
Qed.

(** *** The chains of payment updates *)

Lemma chain_loop_raised (api : BotApi) (update : Update)
    (pre post : list (ChainHook U)) (h : ChainHook U) (e : exn)
    (w w1 w2 : World U) :
  chain_passes api update pre w w1 ->
  hook_call h api update (push (EvLog (processing_msg update h)) w1)
  = (Raise e, w2) ->
  chain_loop api (pre ++ h :: post) update w = (Raise e, w2).
Proof.
  intros Hpre Hh.
  induction Hpre as [w|hook rest v' w wa wb Hcall Hnot _ IH]; simpl.
  - unfold Py.bind, logger_debug, emit. rewrite Hh. reflexivity.
  - unfold Py.bind, logger_debug, emit. rewrite Hcall, Hnot. exact (IH Hh).
Qed.

(** X11.  When every hook of the chain for shipping queries, or of the
    chain for pre-checkout queries, returns something other than
    [True], each one is called in the order of the chain after its debug
    line, and the processor ends, without raising, with the debug line
    that no hook processed the update; this is also what happens on an
    empty chain. *)
Theorem unclaimed_payment_update_is_logged (api : BotApi)
    (chains : gmap string (list (ChainHook U))) (update : Update)
    (chain : list (ChainHook U)) (w w1 : World U) :
  chain_passes api update chain w w1 ->
  (chains !! "shipping_query" = Some chain ->
   process_shipping_query api chains update w
   = (Ret tt,
      push (EvLog ("No hook actually processed the #"
                   +:+ pretty (update_id update) +:+ " update.")) w1))
  /\ (chains !! "pre_checkout_query" = Some chain ->
      process_pre_checkout_query api chains update w
      = (Ret tt,
         push (EvLog ("No hook actually processed the #"
                      +:+ pretty (update_id update) +:+ " update.")) w1)).
Proof.
  intros Hp.
  assert (forall key, chains !! key = Some chain ->
          process_chain key api chains update w
          = (Ret tt,
             push (EvLog ("No hook actually processed the #"
                          +:+ pretty (update_id update) +:+ " update."))
               w1)) as H.
  { intros key Hk. unfold process_chain. rewrite Hk. unfold Py.bind.
    rewrite (chain_facts.chain_loop_unclaimed api update chain w w1 Hp).
    reflexivity. }
  split; apply H.
Qed.

(** X12.  The chain for pre-checkout queries is walked like the others:
    the hooks before the first one that returns [True] are called in
    order, each after its debug line, the walk stops at that hook with
    the debug line that names it, and the hooks after it are not
    called. *)
Theorem pre_checkout_stops_at_first_claim (api : BotApi)
    (chains : gmap string (list (ChainHook U))) (update : Update)
    (pre post : list (ChainHook U)) (h : ChainHook U) (v : pyval)
    (w w1 w2 : World U) :
  chains !! "pre_checkout_query" = Some (pre ++ h :: post) ->
  chain_passes api update pre w w1 ->
  hook_call h api update (push (EvLog (processing_msg update h)) w1)
  = (Ret v, w2) ->
  is_True v = true ->
  process_pre_checkout_query api chains update w
  = (Ret tt,
     push (EvLog ("Update #" +:+ pretty (update_id update)
                  +:+ " was just processed by the " +:+ hook_name h
                  +:+ " hook.")) w2).
Proof.
  intros Hk Hpre Hh Hv.
  exact (chain_facts.process_chain_claimed "pre_checkout_query" api chains
           update pre post h v w w1 w2 Hk Hpre Hh Hv).
Qed.

(** X13.  When a hook of a payment chain raises, the processor raises
    the same exception from the world the hook left: the hooks after
    it are not called and no closing debug line is written. *)
Theorem raising_payment_hook_propagates (api : BotApi)
    (chains : gmap string (list (ChainHook U))) (update : Update)
    (pre post : list (ChainHook U)) (h : ChainHook U)
    (e : exn) (w w1 w2 : World U) :
  chain_passes api update pre w w1 ->
  hook_call h api update (push (EvLog (processing_msg update h)) w1)
  = (Raise e, w2) ->
  (chains !! "shipping_query" = Some (pre ++ h :: post) ->
   process_shipping_query api chains update w = (Raise e, w2))
  /\ (chains !! "pre_checkout_query" = Some (pre ++ h :: post) ->
      process_pre_checkout_query api chains update w = (Raise e, w2)).
Proof.
  intros Hpre Hh.
  assert (forall key, chains !! key = Some (pre ++ h :: post) ->
          process_chain key api chains update w = (Raise e, w2)) as H.
  { intros key Hk. unfold process_chain. rewrite Hk. unfold Py.bind.
    rewrite (chain_loop_raised api update pre post h e w w1 w2 Hpre Hh).
    reflexivity. }
  split; apply H.
Qed.

End WithUserState.

End walk_facts.

(** ** Prices, shipping options and the sending of an invoice *)

Module payment_object_facts.
Import Py PyStr Spec hooks payments payment_objects.

Lemma kw_get_set_eq (k : string) (v : pyval) (args : list (string * pyval)) :
  kw_get k (kw_set k v args) = Some v.
Proof.
  induction args as [|[k' v'] args IH]; simpl.
  - now rewrite String.eqb_refl.
  - destruct (String.eqb k k') eqn:E; simpl.
    + now rewrite String.eqb_refl.
    + now rewrite E.
Qed.

Lemma kw_get_set_ne (k k' : string) (v : pyval)
    (args : list (string * pyval)) :
  k <> k' -> kw_get k (kw_set k' v args) = kw_get k args.
Proof.
  intros Hne. induction args as [|[k2 v2] args IH]; simpl.
  - apply String.eqb_neq in Hne. now rewrite Hne.
  - destruct (String.eqb_spec k' k2) as [->|Hk]; simpl.
    + apply String.eqb_neq in Hne. now rewrite Hne.
    + now rewrite IH.
Qed.

Lemma send_args_other (self : SendInvoice) (pp k : string) :
  k ∉ send_keys ->
  kw_get k (send_args self pp)
  = kw_get k (_get_call_args self (reply_to self) (extra self)
                (attach self) (notify self)).
Proof.
  intros Hk. unfold send_args.
  repeat (rewrite kw_get_set_ne;
          [|intros ->; apply Hk; unfold send_keys;
            apply (bool_decide_unpack _); vm_compute; exact I]).
  reflexivity.
Qed.

(** *** [Prices] *)

Lemma add_all_same (p : Prices) (items : list Item)
    (st : gmap loc (list Item)) :
  prices_of (Prices_add_all p items st) (_prices p)
  = prices_of st (_prices p) ++ items.
Proof.
  revert st. induction items as [|i items IH]; intros st.
  - simpl. now rewrite app_nil_r.
  - change (Prices_add_all p (i :: items) st)
      with (Prices_add_all p items
              (snd (Prices_add p (label i) (amount i) st))).
    rewrite IH. unfold Prices_add. simpl. unfold prices_of at 1.
    rewrite lookup_insert_eq. simpl. destruct i. simpl.
    now rewrite <- app_assoc.
Qed.

Lemma add_all_other (p : Prices) (items : list Item) (st : gmap loc (list Item))
    (l : loc) :
  l <> _prices p -> Prices_add_all p items st !! l = st !! l.
Proof.
  intros Hl. revert st. induction items as [|i items IH]; intros st.
  - reflexivity.
  - change (Prices_add_all p (i :: items) st)
      with (Prices_add_all p items
              (snd (Prices_add p (label i) (amount i) st))).
    rewrite IH. unfold Prices_add. simpl.
    now rewrite lookup_insert_ne.
Qed.

(** X16.  The JSON of a new [Prices] object to which prices have been
    added is the list of these prices, each a dictionary with its
    label and its amount, in the order in which they were added; the
    lists of the [Prices] objects that existed before are as they
    were. *)
Theorem prices_json_in_order (st : gmap loc (list Item)) (items : list Item) :
  exists p st0,
    Prices_init st = (Ret p, st0)
    /\ fst (Prices__to_json p (Prices_add_all p items st0))
       = Ret (Json.dumps (JList (item_json <$> items)))
    /\ (forall l, is_Some (st !! l) ->
                  Prices_add_all p items st0 !! l = st !! l).
Proof.
  eexists _, _. split; [reflexivity|]. split.
  - unfold Prices__to_json. simpl. rewrite add_all_same.
    unfold prices_of. now rewrite lookup_insert_eq.
  - intros l Hl.
    assert (l <> fresh (dom st)) as Hne.
    { intros ->. apply (is_fresh (dom st)). now apply elem_of_dom. }
    rewrite add_all_other by exact Hne.
    now rewrite lookup_insert_ne.
Qed.

(** X17.  A shipping option holds the list of its [Prices] object, not a
    copy: a price added to the object after the option was built is
    part of the option when the options are turned to JSON, and of every
    earlier option built from the same object. *)
Theorem shipping_option_sees_later_prices (st : gmap loc (list Item))
    (opts : ShippingOptions) (p : Prices) (n t l : string) (a : Z) :
  let opts' := ShippingOptions_add n t p opts in
  let st' := snd (Prices_add p l a st) in
  let now := prices_of st (_prices p) ++ [{| label := l; amount := a |}] in
  fst (ShippingOptions__to_json opts' st')
  = Ret (Json.dumps
           (JList
              ((option_json st' <$> _options opts)
               ++ [JDict [("id", JStr n); ("title", JStr t);
                          ("prices", JList (item_json <$> now))]])))
  /\ (forall o, o ∈ _options opts -> option_prices o = _prices p ->
                option_json st' o
                = JDict [("id", JStr (option_id o));
                         ("title", JStr (option_title o));
                         ("prices", JList (item_json <$> now))]).
Proof.
  intros opts' st' now.
  assert (prices_of st' (_prices p) = now) as Hnow.
  { unfold st', Prices_add, prices_of. simpl. now rewrite lookup_insert_eq. }
  split.
  - unfold ShippingOptions__to_json, opts', ShippingOptions_add. simpl.
    rewrite fmap_app. simpl. unfold option_json at 2. simpl.
    now rewrite Hnow.
  - intros o _ Ho. unfold option_json. now rewrite Ho, Hnow.
Qed.

(** *** [SendInvoice] *)

Section WithUserState.
Context {U : Type}.

(** X14.  With a payment provider configured, [send] makes one call of
    [sendInvoice] and hands back its answer.  Whatever sequence of
    [Invoice] methods built the invoice, the call carries the provider
    of the API object under [provider_token], so the token given to
    [provider] is not what is sent; its [total_price] is the sum of
    the prices handed to [add_product]; its [prices] is the JSON of
    the items; and the common arguments of the chat are there under
    every key [send] does not write. *)
Theorem send_issues_one_call (self : SendInvoice) (pp : string)
    (cs : list Call) (w : World U) :
  _payment_provider (_api self) = Some pp ->
  pp <> "" ->
  invoice self = do_calls cs Invoice_init ->
  exists args,
    send self w
    = (Ret (api_response (pay_api (_api self)) "sendInvoice" args),
       push (EvApi "sendInvoice" args) w)
    /\ kw_get "provider_token" args = Some (PyStr pp)
    /\ kw_get "total_price" args
       = Some (PyInt (sum_amounts (added_prices cs)))
    /\ kw_get "prices" args
       = Some (PyStr (Json.dumps (JList (item_json <$> _items (invoice self)))))
    /\ (forall k, k ∉ send_keys ->
          kw_get k args
          = kw_get k (_get_call_args self (reply_to self) (extra self)
                        (attach self) (notify self))).
Proof.
  intros Hp Hne Hinv. exists (send_args self pp).
  split; [|split; [|split; [|split]]].
  - unfold send. rewrite Hp.
    destruct pp as [|c pp]; [congruence|]. reflexivity.
  - unfold send_args.
    repeat (rewrite kw_get_set_ne by discriminate).
    apply kw_get_set_eq.
  - unfold send_args.
    repeat (rewrite kw_get_set_ne by discriminate).
    rewrite kw_get_set_eq, Hinv.
    rewrite payments_facts.total_amount_do_calls. reflexivity.
  - unfold send_args.
    repeat (rewrite kw_get_set_ne by discriminate).
    apply kw_get_set_eq.
  - intros k Hk. now apply send_args_other.
Qed.

(** X15.  What a [with] block on a [SendInvoice] does at its end.  When
    the block raises, nothing is sent and the exception goes on.  When
    the block ends normally, the invoice as the block left it is
    sent, by one call of [sendInvoice]; without a payment provider,
    none or an empty one, nothing is sent and the [with] statement
    raises the [ValueError] that asks for one. *)
Theorem with_block_sends_at_exit (self : SendInvoice)
    (block : Invoice -> outcome unit * Invoice) (inv : Invoice)
    (w : World U) :
  let self' := on_invoice (fun _ => inv) (__enter__ self) in
  (forall e, block (invoice self) = (Raise e, inv) ->
             with_invoice self block w = (Raise e, w))
  /\ (block (invoice self) = (Ret tt, inv) ->
      (_payment_provider (_api self) = None
       \/ _payment_provider (_api self) = Some "") ->
      with_invoice self block w
      = (Raise (ValueError
                  ("You must specify a payment provider. "
                   +:+ "Please read the documentation.")), w))
  /\ (forall pp, block (invoice self) = (Ret tt, inv) ->
                 _payment_provider (_api self) = Some pp ->
                 pp <> "" ->
                 with_invoice self block w
                 = (Ret tt, push (EvApi "sendInvoice" (send_args self' pp)) w)
                 /\ _used self' = true).
Proof.
  intros self'. split; [|split].
  - intros e Hb. unfold with_invoice. simpl. rewrite Hb. reflexivity.
  - intros Hb Hp. unfold with_invoice. simpl. rewrite Hb.
    unfold __exit__, send, Py.bind. simpl.
    destruct Hp as [-> | ->]; reflexivity.
  - intros pp Hb Hp Hne. split; [|reflexivity].
    unfold with_invoice. simpl. rewrite Hb.
    unfold __exit__, send, Py.bind. simpl. rewrite Hp.
    destruct pp as [|c pp]; [congruence|]. reflexivity.
Qed.

End WithUserState.

End payment_object_facts.

(** ** The text hooks of [hooks.py] *)

Module text_hook_facts.
Import Py PyStr Re Spec hooks bot_texts text_facts.
#[local] Arguments String.append !_ _ / : simpl nomatch.

Lemma lower_char_space (c : ascii) :
  Ascii.eqb (lower_char c) space = Ascii.eqb c space.
Proof.
  destruct c as [[] [] [] [] [] [] [] []]; vm_compute; reflexivity.
Qed.

Lemma lower_keeps_spaces (s : string) :
  str_forall (fun c => negb (Ascii.eqb c space)) (lower s)
  = str_forall (fun c => negb (Ascii.eqb c space)) s.
Proof.
  induction s as [|c s IH]; [reflexivity|].
  cbn [lower str_forall]. now rewrite lower_char_space, IH.
Qed.

(** No piece of a split holds the separator. *)
Lemma split_pieces_no_sep (sep : ascii) (s : string) :
  Forall (fun p => str_forall (fun c => negb (Ascii.eqb c sep)) p = true)
    (split sep s).
Proof.
  induction s as [|c s IH]; simpl.
  - repeat constructor.
  - destruct (Ascii.eqb c sep) eqn:E.
    + constructor; [reflexivity|exact IH].
    + destruct (split sep s) as [|p ps].
      * repeat constructor. simpl. now rewrite E.
      * inversion IH as [|? ? Hp Hps]; subst.
        constructor; [|exact Hps]. simpl. now rewrite E, Hp.
Qed.

Lemma word_stops_normalize (s : string) :
  word_stops s = true -> word_stops (hooks.normalize s) = true.
Proof.
  destruct s as [|c s]; [reflexivity|].
  unfold hooks.normalize. cbn [replace_char word_stops].
  destruct (Ascii.eqb c newline); [reflexivity|].
  destruct (Ascii.eqb c tab); [reflexivity|trivial].
Qed.

Lemma args_tail_normalize (s : string) :
  blank_start s = true -> args_tail (hooks.normalize s) = true.
Proof.
  destruct s as [|c s]; [reflexivity|].
  intros Hb. pose proof (hooks_facts.normalize_no_newline (String c s)) as Hn.
  revert Hn. unfold hooks.normalize. cbn [replace_char str_forall].
  cbn [blank_start] in Hb. unfold is_blank in Hb.
  intros [_ Hn]%andb_prop.
  assert ((if Ascii.eqb (if Ascii.eqb c newline then space else c) tab
           then space else if Ascii.eqb c newline then space else c)
          = space) as ->.
  { destruct (Ascii.eqb_spec c newline) as [->|_]; [reflexivity|].
    destruct (Ascii.eqb_spec c tab) as [->|_]; [reflexivity|].
    destruct (Ascii.eqb_spec c space) as [->|_]; [reflexivity|].
    discriminate Hb. }
  cbn [args_tail]. change (Ascii.eqb space space) with true. cbv iota.
  now apply dotstar_end_no_newline.
Qed.

Lemma word_prefix_unique (a a' b b' : string) :
  str_forall is_word_char a = true ->
  str_forall is_word_char a' = true ->
  word_stops b = true -> word_stops b' = true ->
  a +:+ b = a' +:+ b' -> a = a'.
Proof.
  intros Ha Ha' Hb Hb' E.
  pose proof (span_word_app a b Ha Hb) as H1.
  pose proof (span_word_app a' b' Ha' Hb') as H2.
  rewrite E in H1. congruence.
Qed.

Lemma mention_not_blank (username : string) (mentioned : bool) :
  valid_name username = true ->
  str_forall (fun c => negb (is_blank c)) (mention username mentioned) = true.
Proof.
  intros [_ Hu]%andb_prop. destruct mentioned; [|reflexivity].
  unfold mention.
  change ("@" +:+ username) with (String "@" username).
  cbn [str_forall]. now rewrite (hooks_facts.word_no_blank _ Hu).
Qed.

Section WithUserState.
Context {U : Type}.

Lemma contains_loop_no_match (self : MessageHook U) (message : Message)
    (splitted : list string) (res : list pyval) (w : World U) :
  Forall (fun one => String.eqb one (_string self) = false) splitted ->
  contains_loop self message splitted res w = (Ret res, w).
Proof.
  induction 1 as [|one rest Hone _ IH]; simpl; [reflexivity|].
  now rewrite Hone.
Qed.

(** X18.  On a message without text, the hooks that work on texts, the
    equals hook, the contains hook and the command hook, return [None]
    and call nothing, while a plain hook calls its handler with the
    chat and the message and hands back what the handler returns. *)
Theorem text_hooks_skip_other_messages (api : BotApi) (update : Update)
    (message : Message) (w : World U) :
  upd_message update = Some message ->
  msg_text message = None ->
  (forall h : MessageHook U,
      hook_call (of_message_equals h) api update w = (Ret PyNone, w)
      /\ hook_call (of_message_contains h) api update w = (Ret PyNone, w))
  /\ (forall h : CommandHook U,
         hook_call (of_command h) api update w = (Ret PyNone, w))
  /\ (forall h : Hook U,
         hook_call (of_hook h) api update w
         = call_func (func h) (ArgsMessage (msg_chat message) message) w).
Proof.
  intros Hm Ht. split; [|split].
  - intros h. split; simpl; unfold Hook_call, get_message, Py.bind, ret;
      now rewrite Hm, Ht.
  - intros h. simpl. unfold Hook_call, get_message, Py.bind, ret.
    now rewrite Hm, Ht.
  - intros h. simpl.
    unfold Hook_call, Hook__call, get_message, Py.bind, ret, bot__call.
    now rewrite Hm.
Qed.

(** X19.  An equals hook calls its handler when the text of the message
    is the configured string, both put to lower case first when the
    hook ignores case, and hands back what the handler returns, so the
    handler decides whether the update is claimed; on any other text
    it returns [None] and calls nothing. *)
Theorem message_equals_calls (f : Func U) (c : Component)
    (args : MessageArgs) (api : BotApi) (update : Update)
    (message : Message) (text : string) (w : World U) :
  let same :=
    if arg_ignore_case args
    then String.eqb (lower text) (lower (arg_string args))
    else String.eqb text (arg_string args) in
  upd_message update = Some message ->
  msg_text message = Some text ->
  hook_call (of_message_equals (MessageHook_init f c args)) api update w
  = if same
    then call_func f (ArgsMessage (msg_chat message) message) w
    else (Ret PyNone, w).
Proof.
  intros same Hm Ht. simpl.
  unfold Hook_call, MessageEqualsHook__call, _prepare, get_message,
    Py.bind, ret, bot__call.
  rewrite Hm, Ht. simpl. rewrite ?Ht. unfold same.
  destruct (arg_ignore_case args); simpl;
    match goal with
    | |- context [String.eqb ?a ?b] => destruct (String.eqb a b)
    end; reflexivity.
Qed.

(** X20.  A contains hook whose configured string holds a space never
    fires: the text is cut at every space, so no piece of it holds
    one, and the hook returns [False] without calling its handler,
    whatever the text. *)
Theorem contains_needs_one_token (f : Func U) (c : Component)
    (args : MessageArgs) (api : BotApi) (update : Update)
    (message : Message) (text : string) (w : World U) :
  str_forall (fun ch => negb (Ascii.eqb ch space)) (arg_string args)
  = false ->
  upd_message update = Some message ->
  msg_text message = Some text ->
  hook_call (of_message_contains (MessageHook_init f c args)) api update w
  = (Ret (PyBool false), w).
Proof.
  intros Hs Hm Ht. simpl.
  unfold Hook_call, MessageContainsHook__call, _prepare, get_message,
    Py.bind, ret.
  rewrite Hm, Ht. simpl. rewrite ?Ht.
  set (self := MessageHook_init f c args).
  assert (str_forall (fun ch => negb (Ascii.eqb ch space)) (_string self)
          = false) as Hstr.
  { unfold self. simpl. destruct (arg_ignore_case args); [|exact Hs].
    now rewrite lower_keeps_spaces. }
  rewrite contains_loop_no_match; [reflexivity|].
  eapply Forall_impl; [apply split_pieces_no_sep|].
  intros one Hone. simpl in Hone. apply String.eqb_neq. intros ->.
  congruence.
Qed.

(** X21.  A command hook built for a well-formed name, on a text made of
    a slash, that name, optionally a mention of this bot, and then
    nothing or a space, tab or newline followed by anything, calls its
    handler once; the arguments are what stands between the runs of
    spaces after the first token, tabs and newlines counting as
    spaces.  The hook then returns [True] whatever the handler
    returned, and an exception of the handler goes through. *)
Theorem command_hook_runs_handler (f : Func U) (c : Component)
    (args : CommandArgs) (self : CommandHook U) (api : BotApi)
    (update : Update) (message : Message) (mentioned : bool)
    (rest : string) (w : World U) :
  let text :=
    "/" +:+ arg_name args +:+ mention (bot_username api) mentioned
    +:+ rest in
  let call :=
    ArgsCommand (msg_chat message) message
      (space_run_args (hooks.normalize text)) in
  CommandHook_init f c args = Ret self ->
  valid_name (arg_name args) = true ->
  valid_name (bot_username api) = true ->
  blank_start rest = true ->
  upd_message update = Some message ->
  msg_text message = Some text ->
  hook_call (of_command self) api update w
  = (match fst (fn_run f call (w_user w)) with
     | Ret _ => Ret (PyBool true)
     | Raise e => Raise e
     end,
     after_call f call w).
Proof.
  intros text call Hinit Hv Hu Hr Hm Ht.
  rewrite (hooks_facts.command_init_valid f c args Hv) in Hinit.
  injection Hinit as <-.
  assert (hooks.normalize text
          = "/" +:+ arg_name args +:+ mention (bot_username api) mentioned
            +:+ hooks.normalize rest) as Hnorm.
  { unfold text.
    change ("/" +:+ arg_name args +:+ mention (bot_username api) mentioned
            +:+ rest)
      with (String "/" (arg_name args
                        +:+ mention (bot_username api) mentioned +:+ rest)).
    change (hooks.normalize (String "/" ?s))
      with (String "/" (hooks.normalize s)).
    rewrite !hooks_facts.normalize_app.
    apply andb_prop in Hv as [_ Hw].
    rewrite (hooks_facts.normalize_not_blank _
               (hooks_facts.word_no_blank _ Hw)).
    now rewrite (hooks_facts.normalize_not_blank _
                   (mention_not_blank _ mentioned Hu)). }
  pose proof (args_tail_normalize rest Hr) as Htail.
  assert (match_command (arg_name args) (hooks.normalize text)
          = Some (if mentioned then Some ("@" +:+ bot_username api)
                  else None)) as Hmatch.
  { apply match_command_spec.
    exists (mention (bot_username api) mentioned +:+ hooks.normalize rest).
    split; [exact Hnorm|]. destruct mentioned.
    - right. exists (bot_username api), (hooks.normalize rest).
      repeat split; [exact Hu|exact Htail].
    - left. split; [reflexivity|exact Htail]. }
  assert (tail (_command_args_split_re (hooks.normalize text))
          = space_run_args (hooks.normalize text)) as Hargs.
  { unfold _command_args_split_re. rewrite Hnorm.
    now apply command_args_runs. }
  simpl.
  unfold Hook_call, CommandHook__call, get_message, Py.bind, ret.
  rewrite Hm, Ht. cbn [msg_text _name]. rewrite ?Ht.
  fold text. rewrite Hmatch, Hargs. fold call.
  assert ((if mentioned
           then negb (is_empty ("@" +:+ bot_username api))
                && negb (String.eqb ("@" +:+ bot_username api)
                           ("@" +:+ bot_username api))
           else false) = false) as Hme.
  { destruct mentioned; [|reflexivity].
    now rewrite String.eqb_refl, andb_false_r. }
  destruct mentioned; cbv beta iota in Hme |- *; rewrite ?Hme;
    unfold bot__call, call_func, after_call; cbn [func cmd_hook Hook_init];
    destruct (fn_run f call (w_user w)) as [[v|e] u']; reflexivity.
Qed.

(** X22.  A command hook built for a well-formed name ignores every
    command with another name, also one that starts with its own name:
    it returns [None] and calls nothing. *)
Theorem command_hook_ignores_other_names (f : Func U) (c : Component)
    (args : CommandArgs) (self : CommandHook U) (api : BotApi)
    (update : Update) (message : Message) (other rest : string)
    (w : World U) :
  CommandHook_init f c args = Ret self ->
  valid_name (arg_name args) = true ->
  str_forall is_word_char other = true ->
  other <> arg_name args ->
  word_stops rest = true ->
  upd_message update = Some message ->
  msg_text message = Some ("/" +:+ other +:+ rest) ->
  hook_call (of_command self) api update w = (Ret PyNone, w).
Proof.
  intros Hinit Hv Ho Hne Hr Hm Ht.
  rewrite (hooks_facts.command_init_valid f c args Hv) in Hinit.
  injection Hinit as <-.
  assert (hooks.normalize ("/" +:+ other +:+ rest)
          = "/" +:+ other +:+ hooks.normalize rest) as Hnorm.
  { change ("/" +:+ other +:+ rest) with (String "/" (other +:+ rest)).
    change (hooks.normalize (String "/" ?s))
      with (String "/" (hooks.normalize s)).
    rewrite hooks_facts.normalize_app.
    now rewrite (hooks_facts.normalize_not_blank _
                   (hooks_facts.word_no_blank _ Ho)). }
  assert (match_command (arg_name args)
            (hooks.normalize ("/" +:+ other +:+ rest)) = None) as Hmatch.
  { destruct (match_command (arg_name args)
                (hooks.normalize ("/" +:+ other +:+ rest)))
      as [g|] eqn:E; [|reflexivity].
    exfalso. apply match_command_spec in E as (r & Hr' & Hcase).
    rewrite Hnorm in Hr'. apply router_facts.str_app_inv_head in Hr'.
    apply andb_prop in Hv as [_ Hw]. apply Hne.
    refine (word_prefix_unique other (arg_name args) (hooks.normalize rest)
              r Ho Hw (word_stops_normalize _ Hr) _ Hr').
    destruct Hcase as [[_ Htl]|(w0 & r2 & _ & _ & -> & _)];
      [now apply args_tail_word_stops|reflexivity]. }
  simpl.
  unfold Hook_call, CommandHook__call, get_message, Py.bind, ret.
  rewrite Hm, Ht. cbn [msg_text _name]. rewrite ?Ht, Hmatch. reflexivity.
Qed.

(** X23.  The construction of a command hook succeeds exactly for a
    name made of one or more letters, digits and underscores, and for
    such a name followed by one newline; the hook then keeps the name
    as given, is not hidden and has the order 0 unless the arguments
    say otherwise.  Every other name raises the [ValueError] that
    quotes it.  A hook built for a name that ends with a newline never
    fires: on every text it returns [None] and calls nothing. *)
Theorem command_name_accepted_iff (f : Func U) (c : Component)
    (args : CommandArgs) :
  let ok :=
    valid_name (arg_name args) = true
    \/ exists w, valid_name w = true /\ arg_name args = w +:+ bot.nl in
  (ok ->
   exists self,
     CommandHook_init f c args = Ret self
     /\ _name self = arg_name args
     /\ _hidden self = default false (arg_hidden args)
     /\ _order self = default 0 (arg_order args))
  /\ (~ ok ->
      CommandHook_init f c args
      = Raise (ValueError ("Invalid command name: " +:+ arg_name args)))
  /\ (forall self api update message text (w : World U),
         CommandHook_init f c args = Ret self ->
         valid_name (arg_name args) = false ->
         upd_message update = Some message ->
         msg_text message = Some text ->
         hook_call (of_command self) api update w = (Ret PyNone, w)).
Proof.
  intros ok. split; [|split].
  - intros Hok. apply hooks_facts.match_name_spec in Hok.
    unfold CommandHook_init. rewrite Hok. simpl. eauto.
  - intros Hno. unfold CommandHook_init.
    destruct (match_name (arg_name args)) eqn:E; [|reflexivity].
    exfalso. apply Hno. now apply hooks_facts.match_name_spec.
  - intros self api update message text w Hinit Hv Hm Ht.
    unfold CommandHook_init in Hinit.
    destruct (match_name (arg_name args)) eqn:E; [|discriminate].
    injection Hinit as <-.
    apply hooks_facts.match_name_spec in E as [E|(w0 & _ & Hn)];
      [congruence|].
    assert (match_command (arg_name args) (hooks.normalize text) = None)
      as Hmatch.
    { destruct (match_command (arg_name args) (hooks.normalize text))
        as [g|] eqn:E; [|reflexivity].
      exfalso. apply match_command_spec in E as (r & Hr & _).
      pose proof (hooks_facts.normalize_no_newline text) as Hnl.
      rewrite Hr, Hn in Hnl.
      change ("/" +:+ (w0 +:+ bot.nl) +:+ r)
        with (String "/" ((w0 +:+ bot.nl) +:+ r)) in Hnl.
      cbn [str_forall] in Hnl. rewrite !str_forall_app in Hnl.
      unfold bot.nl in Hnl. cbn [str_forall] in Hnl.
      rewrite Ascii.eqb_refl in Hnl. simpl in Hnl.
      rewrite !andb_false_r in Hnl. discriminate Hnl. }
    simpl.
    unfold Hook_call, CommandHook__call, get_message, Py.bind, ret.
    rewrite Hm, Ht. cbn [msg_text _name]. rewrite ?Ht, Hmatch. reflexivity.
Qed.

End WithUserState.

End text_hook_facts.

(** ** The inline hook of [hooks.py] beyond one page *)

Module inline_facts.
Import Py PyStr Spec hooks Page page_facts.

Lemma gen_nth_exhausted (g : Generator) (i j : nat) :
  gen_nth g i = None -> (i <= j)%nat -> gen_nth g j = None.
Proof.
  destruct g as [l|f|l e]; simpl; [|discriminate|];
    intros Hi Hij; apply lookup_ge_None; apply lookup_ge_None in Hi; lia.
Qed.

Lemma page_exhausted (g : Generator) (i n : nat) :
  gen_nth g i = None -> page g i n = [].
Proof. intros H. destruct n; simpl; [reflexivity|now rewrite H]. Qed.

(** Two pages in a row are one page of twice the size. *)
Lemma page_app (g : Generator) (i n m : nat) :
  page g i (n + m) = page g i n ++ page g (i + n) m.
Proof.
  revert i. induction n as [|n IH]; intros i.
  - simpl. now rewrite Nat.add_0_r.
  - simpl. destruct (gen_nth g i) eqn:E.
    + rewrite IH. simpl. do 3 f_equal. lia.
    + symmetry. apply page_exhausted.
      apply (gen_nth_exhausted g i); [exact E|lia].
Qed.

Lemma dict_get_set_ne (k k' : string) (v : jval) (d : dict) :
  k <> k' -> dict_get k (dict_set k' v d) = dict_get k d.
Proof.
  intros Hne. induction d as [|[k2 v2] d IH]; simpl.
  - apply String.eqb_neq in Hne. now rewrite Hne.
  - destruct (String.eqb_spec k' k2) as [->|Hk]; simpl.
    + apply String.eqb_neq in Hne. now rewrite Hne.
    + now rewrite IH.
Qed.

Lemma assign_ids_other_keys (ls : list loc) (i : Z) (h : gmap loc dict)
    (l : loc) (d : dict) :
  h !! l = Some d ->
  exists d',
    assign_ids ls i h !! l = Some d'
    /\ forall k, k <> "id" -> dict_get k d' = dict_get k d.
Proof.
  revert i h d. induction ls as [|x ls IH]; intros i h d Hl; simpl.
  - eauto.
  - destruct (h !! x) as [dx|] eqn:Hx; [|now apply IH].
    destruct (decide (x = l)) as [->|Hne].
    + assert (dx = d) as -> by congruence.
      destruct (IH (i + 1) (<[l := dict_set "id" (JInt i) d]> h)
                  (dict_set "id" (JInt i) d)) as (d' & Hd' & Hk).
      { apply lookup_insert_eq. }
      exists d'. split; [exact Hd'|].
      intros k Hkid. rewrite (Hk k Hkid). now apply dict_get_set_ne.
    + apply IH. now rewrite lookup_insert_ne.
Qed.

Section WithUserState.
Context {U : Type}.

(** X24.  When the sequence the handler returns has ended before the
    stored offset, or the handler returns a text that has no character
    at the stored offset, the inline hook still answers the query, with
    the empty list of results and the next offset one page further,
    and still moves the stored offset of the sender one page further;
    no object is touched.  The stored offset is one that [islice]
    accepts, between 0 and [sys.maxsize]. *)
Theorem inline_exhausted_generator (self : InlineHook U) (api : BotApi)
    (update : Update) (inline : InlineQuery) (v : pyval) (u' : U)
    (w : World U) :
  let s := user_id (iq_sender inline) in
  let o := read_offset inline (w_store w) in
  upd_inline_query update = Some inline ->
  fn_run (func (inline_hook self))
    (ArgsInline inline (iq_sender inline) (iq_query inline)) (w_user w)
  = (Ret v, u') ->
  0 <= o <= maxsize ->
  (exists g, v = PyGen g /\ gen_nth g (Z.to_nat o) = None
             /\ gen_fails g (Z.to_nat o) = None)
  \/ (exists t, v = PyStr t /\ (String.length t <= Z.to_nat o)%nat) ->
  exists (r : pyval) (w' : World U),
    InlineHook__call self api update w = (Ret r, w')
    /\ last (w_trace w')
       = Some (EvApi "answerInlineQuery"
                 [("inline_query_id", PyStr (iq_id inline));
                  ("cache_time", cache self);
                  ("is_personal", private self);
                  ("results", PyStr "[]");
                  ("next_offset", PyInt (o + paginate self))])
    /\ w_store w' !! s = Some (o + paginate self)
    /\ w_heap w' = w_heap w.
Proof.
  intros s o Hu Hrun Ho [(g & -> & Hend & Hok)|(t & -> & Hlen)].
  - pose proof (hooks_facts.inline_call_spec self api update inline g u' w
                  Hu Hrun Ho) as H.
    cbv zeta in H. fold o in H.
    rewrite (page_exhausted g (Z.to_nat o) _ Hend) in H.
    rewrite H.
    + eexists _, _. split; [reflexivity|]. simpl. split; [|split].
      * rewrite app_assoc. apply hooks_facts.last_four.
      * apply lookup_insert_eq.
      * reflexivity.
    + unfold page_error. rewrite (page_exhausted g (Z.to_nat o) _ Hend).
      simpl. destruct (Z.to_nat (paginate self)); [reflexivity|].
      simpl. now rewrite Nat.add_0_r.
    + intros l Hl. inversion Hl.
  - rewrite (hooks_facts.inline_call_str self api update inline t u' w
               Hu Hrun Ho (or_intror Hlen)).
    eexists _, _. split; [reflexivity|]. simpl. split; [|split].
    + rewrite app_assoc. apply hooks_facts.last_four.
    + apply lookup_insert_eq.
    + reflexivity.
Qed.

(** X25.  Two queries in a row from one sender, the second with an
    offset that is not empty, are served two pages in a row: when the
    handler returns the same sequence both times and the production of
    neither page raises, the first answer holds the objects at the
    stored offset, the second those one page further, the two
    together are one page of twice the size counted from the stored
    offset, and the store ends two pages further.  Both stored offsets
    are ones that [islice] accepts, between 0 and [sys.maxsize]. *)
Theorem inline_pages_follow_on (self : InlineHook U) (api : BotApi)
    (update1 update2 : Update) (inline1 inline2 : InlineQuery)
    (g : Generator) (w : World U) :
  let s := user_id (iq_sender inline1) in
  let o := read_offset inline1 (w_store w) in
  let n := Z.to_nat (paginate self) in
  let first := page g (Z.to_nat o) n in
  let second := page g (Z.to_nat o + n) n in
  upd_inline_query update1 = Some inline1 ->
  upd_inline_query update2 = Some inline2 ->
  iq_sender inline2 = iq_sender inline1 ->
  is_empty (iq_offset inline2) = false ->
  (forall inline u,
      exists u',
        fn_run (func (inline_hook self))
          (ArgsInline inline (iq_sender inline) (iq_query inline)) u
        = (Ret (PyGen g), u')) ->
  0 <= o ->
  0 <= paginate self ->
  o + paginate self <= maxsize ->
  page_error g (Z.to_nat o) n = None ->
  page_error g (Z.to_nat o + n) n = None ->
  (forall l, l ∈ first ++ second -> is_Some (w_heap w !! l)) ->
  exists (r1 r2 : pyval) (w1 w2 : World U),
    InlineHook__call self api update1 w = (Ret r1, w1)
    /\ InlineHook__call self api update2 w1 = (Ret r2, w2)
    /\ last (w_trace w1)
       = Some (EvApi "answerInlineQuery"
                 (answer_args self inline1 (dumped (w_heap w1) first) o))
    /\ last (w_trace w2)
       = Some (EvApi "answerInlineQuery"
                 (answer_args self inline2 (dumped (w_heap w2) second)
                    (o + paginate self)))
    /\ first ++ second = page g (Z.to_nat o) (n + n)
    /\ w_store w2 !! s = Some (o + paginate self + paginate self).
Proof.
  intros s o n first second Hu1 Hu2 Hs Hoff Hrun Ho Hp Hmax He1 He2 Hheap.
  destruct (Hrun inline1 (w_user w)) as (u1 & Hrun1).
  pose proof (hooks_facts.inline_call_spec self api update1 inline1 g u1 w
                Hu1 Hrun1) as H1.
  cbv zeta in H1. fold o n first in H1.
  assert (forall l, l ∈ first -> is_Some (w_heap w !! l)) as Hh1.
  { intros l Hl. apply Hheap, elem_of_app. now left. }
  specialize (H1 ltac:(lia) He1 Hh1).
  set (w1 := snd (InlineHook__call self api update1 w)).
  assert (w_store w1
          = <[s := o + paginate self]> (purged inline1 (w_store w)))
    as Hst1 by (unfold w1; now rewrite H1).
  assert (w_heap w1 = assign_ids first o (w_heap w))
    as Hhp1 by (unfold w1; now rewrite H1).
  assert (read_offset inline2 (w_store w1) = o + paginate self) as Hread.
  { unfold read_offset. rewrite Hoff, Hs, Hst1.
    fold s. now rewrite lookup_insert_eq. }
  assert (Z.to_nat (o + paginate self) = (Z.to_nat o + n)%nat) as Hnat.
  { unfold n. lia. }
  destruct (Hrun inline2 (w_user w1)) as (u2 & Hrun2).
  pose proof (hooks_facts.inline_call_spec self api update2 inline2 g u2 w1
                Hu2 Hrun2) as H2.
  cbv zeta in H2. rewrite Hread, Hnat in H2. fold n second in H2.
  assert (forall l, l ∈ second -> is_Some (w_heap w1 !! l)) as Hh2.
  { intros l Hl. rewrite Hhp1. apply assign_ids_is_Some.
    apply Hheap, elem_of_app. now right. }
  specialize (H2 ltac:(lia) He2 Hh2).
  eexists _, _, w1, _. split; [|split; [exact H2|]].
  - unfold w1. rewrite H1. reflexivity.
  - split; [|split; [|split]].
    + unfold w1 at 1. rewrite H1. cbn [w_trace snd].
      rewrite app_assoc, hooks_facts.last_four. now rewrite Hhp1.
    + cbn [w_trace]. rewrite app_assoc. apply hooks_facts.last_four.
    + unfold first, second. now rewrite page_app.
    + cbn [w_store]. rewrite Hs. fold s. apply lookup_insert_eq.
Qed.

(** X26.  The inline hook writes nothing but identifiers: every object
    of the heap is still there after the call, with the value it had
    under every key other than [id], and an object that is not on the
    page is as it was. *)
Theorem inline_writes_only_ids (self : InlineHook U) (api : BotApi)
    (update : Update) (inline : InlineQuery) (g : Generator) (u' : U)
    (w : World U) (l : loc) (d : dict) :
  let o := read_offset inline (w_store w) in
  let ls := page g (Z.to_nat o) (Z.to_nat (paginate self)) in
  upd_inline_query update = Some inline ->
  fn_run (func (inline_hook self))
    (ArgsInline inline (iq_sender inline) (iq_query inline)) (w_user w)
  = (Ret (PyGen g), u') ->
  0 <= o ->
  (forall x, x ∈ ls -> is_Some (w_heap w !! x)) ->
  w_heap w !! l = Some d ->
  exists d',
    w_heap (snd (InlineHook__call self api update w)) !! l = Some d'
    /\ (forall k, k <> "id" -> dict_get k d' = dict_get k d)
    /\ (l ∉ ls -> d' = d).
Proof.
  intros o ls Hu Hrun Ho Hheap Hl.
  destruct (Z_le_gt_dec o maxsize) as [Hmax|Hbig].
  - rewrite (hooks_facts.inline_call_gen self api update inline g u' w
               Hu Hrun (conj Ho Hmax) Hheap).
    fold o ls.
    assert (w_heap
              (snd match page_error g (Z.to_nat o)
                           (Z.to_nat (paginate self)) with
                   | Some e =>
                       (Raise e,
                        {| w_user := u';
                           w_trace :=
                             w_trace w ++ purge_events inline
                             ++ [EvCall (fn_name (func (inline_hook self)))
                                   (ArgsInline inline (iq_sender inline)
                                      (iq_query inline));
                                 EvIpc (InlineGet (user_id (iq_sender inline)));
                                 EvIpc (InlineUpdate
                                          (user_id (iq_sender inline))
                                          (o + paginate self))];
                           w_store :=
                             <[user_id (iq_sender inline)
                               := o + paginate self]>
                               (purged inline (w_store w));
                           w_heap := assign_ids ls o (w_heap w) |})
                   | None =>
                       (Ret (api_response api "answerInlineQuery"
                               (answer_args self inline
                                  (dumped (assign_ids ls o (w_heap w)) ls)
                                  o)),
                        {| w_user := u';
                           w_trace :=
                             (w_trace w ++ purge_events inline
                              ++ [EvCall (fn_name (func (inline_hook self)))
                                    (ArgsInline inline (iq_sender inline)
                                       (iq_query inline));
                                  EvIpc (InlineGet
                                           (user_id (iq_sender inline)));
                                  EvIpc (InlineUpdate
                                           (user_id (iq_sender inline))
                                           (o + paginate self))])
                             ++ [EvApi "answerInlineQuery"
                                   (answer_args self inline
                                      (dumped (assign_ids ls o (w_heap w))
                                         ls) o)];
                           w_store :=
                             <[user_id (iq_sender inline)
                               := o + paginate self]>
                               (purged inline (w_store w));
                           w_heap := assign_ids ls o (w_heap w) |})
                   end)
            = assign_ids ls o (w_heap w)) as ->.
    { destruct (page_error g (Z.to_nat o) (Z.to_nat (paginate self)));
        reflexivity. }
    destruct (assign_ids_other_keys ls o (w_heap w) l d Hl)
      as (d' & Hd' & Hk).
    exists d'. split; [exact Hd'|]. split; [exact Hk|].
    intros Hnot. rewrite (assign_ids_fresh ls o (w_heap w) l Hnot) in Hd'.
    congruence.
  - rewrite (hooks_facts.inline_call_prefix self api update inline (PyGen g)
               u' w Hu Hrun).
    fold o.
    assert ((o <? 0) || (maxsize <? o) = true) as ->.
    { apply orb_true_iff. right. apply Z.ltb_lt. lia. }
    exists d. split; [exact Hl|]. split; [reflexivity|reflexivity].
Qed.

(** X27.  When the inline hook raises, nothing is sent.  If the call of
    the handler raises, the exception goes through and the stored
    offset is not moved, though the purge that an empty query offset
    triggers has been made.  Every other failure comes after the hook
    has moved the stored offset of the sender one page further: a
    stored offset outside the range from 0 to [sys.maxsize] gives a
    [ValueError] whatever the handler returned; within that range,
    [None], a truth value or an integer gives a [TypeError], and so
    does a text that has a character at the offset when the page is
    not empty; and an exception raised by the body of a generator
    while the page is produced goes through, after the objects yielded
    before it have been given their identifiers. *)
Theorem inline_failures_send_nothing (self : InlineHook U) (api : BotApi)
    (update : Update) (inline : InlineQuery) (w : World U) :
  let s := user_id (iq_sender inline) in
  let o := read_offset inline (w_store w) in
  let n := Z.to_nat (paginate self) in
  let call :=
    EvCall (fn_name (func (inline_hook self)))
      (ArgsInline inline (iq_sender inline) (iq_query inline)) in
  let moved (u' : U) (heap : gmap loc dict) : World U :=
    {| w_user := u';
       w_trace :=
         w_trace w ++ purge_events inline
         ++ [call; EvIpc (InlineGet s);
             EvIpc (InlineUpdate s (o + paginate self))];
       w_store := <[s := o + paginate self]> (purged inline (w_store w));
       w_heap := heap |} in
  upd_inline_query update = Some inline ->
  (forall e,
      fst (InlineHook__call self api update w) = Raise e ->
      exists before,
        w_trace (snd (InlineHook__call self api update w))
        = w_trace w ++ before
        /\ Forall (fun ev => forall m a, ev <> EvApi m a) before)
  /\ (forall e u',
         fn_run (func (inline_hook self))
           (ArgsInline inline (iq_sender inline) (iq_query inline))
           (w_user w)
         = (Raise e, u') ->
         InlineHook__call self api update w
         = (Raise e,
            {| w_user := u';
               w_trace := w_trace w ++ purge_events inline ++ [call];
               w_store := purged inline (w_store w);
               w_heap := w_heap w |}))
  /\ (forall v u',
         fn_run (func (inline_hook self))
           (ArgsInline inline (iq_sender inline) (iq_query inline))
           (w_user w)
         = (Ret v, u') ->
         (o < 0 \/ maxsize < o ->
          exists msg,
            InlineHook__call self api update w
            = (Raise (ValueError msg), moved u' (w_heap w)))
         /\ (0 <= o <= maxsize ->
             v = PyNone \/ (exists b, v = PyBool b) \/ (exists z, v = PyInt z)
             \/ (exists t, v = PyStr t
                           /\ (Z.to_nat o < String.length t)%nat
                           /\ (0 < n)%nat) ->
             exists msg,
               InlineHook__call self api update w
               = (Raise (TypeError msg), moved u' (w_heap w)))
         /\ (forall g e,
               0 <= o <= maxsize ->
               v = PyGen g ->
               (forall l, l ∈ page g (Z.to_nat o) n ->
                          is_Some (w_heap w !! l)) ->
               page_error g (Z.to_nat o) n = Some e ->
               exists w',
                 InlineHook__call self api update w = (Raise e, w')
                 /\ w_trace w' = w_trace (moved u' (w_heap w))
                 /\ w_store w' !! s = Some (o + paginate self)
                 /\ w_heap w'
                    = assign_ids (page g (Z.to_nat o) n) o (w_heap w))).
Proof.
  intros s o n call moved Hu. split; [|split].
  - intros e He.
    destruct (hooks_facts.inline_call_sends self api update inline w Hu)
      as (before & sent & Ht & Hb & Hs).
    rewrite He in Hs. subst sent. rewrite app_nil_r in Ht. eauto.
  - intros e u' Hrun. unfold InlineHook__call. rewrite Hu.
    unfold purged, purge_events.
    destruct (is_empty (iq_offset inline)) eqn:Hoff;
      unfold bind, _ipc_purge, _ipc_get, _ipc_update, ipc_command,
        bot__call, call_func, bind, ret; simpl; rewrite Hrun; simpl;
      unfold push, set_store, set_user; simpl;
      rewrite <- ?app_assoc; reflexivity.
  - intros v u' Hrun.
    pose proof (hooks_facts.inline_call_prefix self api update inline v u' w
                  Hu Hrun) as E.
    cbv zeta in E. fold o s call in E. fold (moved u' (w_heap w)) in E.
    split; [|split].
    + intros Hout. rewrite E.
      assert ((o <? 0) || (maxsize <? o) = true) as ->.
      { apply orb_true_iff.
        destruct Hout; [left|right]; apply Z.ltb_lt; lia. }
      eexists. reflexivity.
    + intros [Ho Hmax] Hv. rewrite E.
      assert ((o <? 0) || (maxsize <? o) = false) as ->.
      { apply orb_false_iff. split; apply Z.ltb_ge; lia. }
      destruct Hv as [->|[[b ->]|[[z ->]|(t & -> & Hlen & Hn)]]];
        try (eexists; reflexivity).
      unfold Py.bind, fill_results_str. fold n.
      destruct n as [|n']; [lia|].
      assert ((Z.to_nat o <? String.length t)%nat = true) as ->
        by (apply Nat.ltb_lt; lia).
      eexists. reflexivity.
    + intros g e Ho -> Hheap Herr.
      rewrite (hooks_facts.inline_call_gen self api update inline g u' w
                 Hu Hrun Ho Hheap).
      fold o n. rewrite Herr. eexists. split; [reflexivity|].
      cbn [w_trace w_store w_heap]. split; [reflexivity|].
      split; [apply lookup_insert_eq|reflexivity].
Qed.

End WithUserState.

End inline_facts.

(** ** The properties above on the examples *)

Module examples.
Import Py PyStr Spec Page.

(** *** The bot *)

Lemma rejected_registration_changes_nothing_witness :
  registrations.register
    (registrations.RegCommand "foo"
       (bot.Callable (Sample.returning "second" PyNone)))
    Sample.foo_bot
  = Sample.foo_bot.
Proof.
  apply (registration_facts.rejected_registration_changes_nothing
           (registrations.RegCommand "foo"
              (bot.Callable (Sample.returning "second" PyNone)))
           Sample.foo_bot
           (NameError "The command /foo already exists")).
  vm_compute. reflexivity.
Defined.

Lemma router_calls_registered_handler_witness :
  let message :=
    Sample.text_message Sample.private_chat "/foo@mybot bar  baz" in
  bot._process_commands Sample.no_format Sample.foo_bot Sample.private_chat
    message Sample.world0
  = (Ret (PyBool true),
     push (EvCall "foo"
             (ArgsCommand Sample.private_chat message ["bar"; ""; "baz"]))
       Sample.world0).
Proof.
  intros message.
  exact (router_facts.router_calls_registered_handler Sample.no_format
           Sample.foo_bot Sample.private_chat message "foo" true
           (Some "bar  baz") (Sample.returning "foo" PyNone) Sample.world0
           eq_refl eq_refl eq_refl eq_refl eq_refl).
Defined.

Lemma router_unknown_command_witness :
  let notice :=
    "Unknow command /nope."
    +:+ String "010" "Use /help for a list of commands." in
  let run (chat : Chat) (text : string) :=
    bot._process_commands Sample.no_format Sample.foo_bot chat
      (Sample.text_message chat text) Sample.world0 in
  run Cases.group_chat "/nope@mybot"
  = (Ret PyNone, push (EvSend Cases.group_chat notice) Sample.world0)
  /\ run Cases.group_chat "/nope" = (Ret PyNone, Sample.world0)
  /\ run Cases.group_chat ("/nope@mybot" +:+ bot.nl)
     = (Ret PyNone, Sample.world0)
  /\ run Sample.private_chat ("/nope" +:+ bot.nl)
     = (Ret PyNone, push (EvSend Sample.private_chat notice) Sample.world0).
Proof.
  intros notice run.
  pose proof (fun chat text =>
                proj1 (router_facts.router_unknown_command Sample.no_format
                         Sample.foo_bot chat (Sample.text_message chat text)
                         "nope" Sample.world0 eq_refl eq_refl eq_refl))
    as H.
  split; [|split; [|split]].
  - exact (H Cases.group_chat "/nope@mybot" true None false eq_refl
             eq_refl).
  - exact (H Cases.group_chat "/nope" false None false eq_refl eq_refl).
  - exact (H Cases.group_chat ("/nope@mybot" +:+ bot.nl) true None true
             eq_refl eq_refl).
  - exact (H Sample.private_chat ("/nope" +:+ bot.nl) false None true
             eq_refl eq_refl).
Defined.

Lemma router_builtin_start_witness :
  bot._process_commands Sample.no_format Sample.foo_bot Sample.private_chat
    (Sample.text_message Sample.private_chat "/start now") Sample.world0
  = (Ret (PyBool true),
     push (EvSend Sample.private_chat
             "Use /help to get a list of all the commands")
       Sample.world0).
Proof.
  exact (router_facts.router_builtin_start Sample.no_format Sample.foo_bot
           Sample.private_chat
           (Sample.text_message Sample.private_chat "/start now") false
           (Some "now") Sample.world0 eq_refl eq_refl eq_refl eq_refl).
Defined.

Lemma generic_help_lists_commands_witness :
  exists names lines,
    bot._generic_help_message Sample.foo_bot
      (bot._get_commands Sample.foo_bot)
    = ["Available commands:"] ++ lines
      ++ ["Use /help <command> if you need help about a specific command."]
    /\ Forall2 (fun name line =>
                  bot_texts.command_line (bot._get_commands Sample.foo_bot)
                    name = Some line) names lines
    /\ Sorted (fun x y => String.leb x y = true) names
    /\ NoDup names
    /\ (forall name,
          name ∈ names
          <-> is_Some (bot._get_commands Sample.foo_bot !! name)).
Proof.
  destruct (help_facts.generic_help_lists_commands Sample.foo_bot "foo"
              (Sample.returning "foo" PyNone) eq_refl)
    as (names & lines & H1 & H2).
  exists names, lines. split; [|exact H2].
  rewrite H1. reflexivity.
Defined.

Lemma help_without_registered_commands_witness :
  bot._process_commands Sample.no_format (bot.Bot_init "mybot")
    Sample.private_chat
    (Sample.text_message Sample.private_chat "/help") Sample.world0
  = (Ret (PyBool true),
     push (EvSend Sample.private_chat "No commands available.")
       Sample.world0).
Proof.
  exact (proj2 (proj2
           (help_facts.help_without_registered_commands Sample.no_format
              (bot.Bot_init "mybot") Sample.private_chat
              (Sample.text_message Sample.private_chat "/help") false
              Sample.world0 eq_refl eq_refl eq_refl))).
Defined.

Lemma help_rejects_two_arguments_witness :
  bot._process_commands Sample.no_format Sample.foo_bot Sample.private_chat
    (Sample.text_message Sample.private_chat "/help  foo") Sample.world0
  = (Ret (PyBool true),
     push (EvSend Sample.private_chat
             "Error: the /help command allows up to one argument.")
       Sample.world0).
Proof.
  exact (help_facts.help_rejects_two_arguments Sample.no_format
           Sample.foo_bot Sample.private_chat
           (Sample.text_message Sample.private_chat "/help  foo") false
           " foo" Sample.world0 eq_refl eq_refl eq_refl eq_refl eq_refl).
Defined.

Lemma help_describes_known_command_witness :
  bot._process_commands Sample.no_format Sample.foo_bot Sample.private_chat
    (Sample.text_message Sample.private_chat "/help@mybot foo")
    Sample.world0
  = (Ret (PyBool true),
     push (EvSend Sample.private_chat "No help messages for the /foo command.")
       Sample.world0)
  /\ bot._process_commands Sample.no_format Sample.foo_bot
       Sample.private_chat
       (Sample.text_message Sample.private_chat "/help start") Sample.world0
     = (Ret (PyBool true),
        push (EvSend Sample.private_chat ("/start - " +:+ bot.start_doc))
          Sample.world0).
Proof.
  split.
  - exact (help_facts.help_describes_known_command Sample.no_format
             Sample.foo_bot Sample.private_chat
             (Sample.text_message Sample.private_chat "/help@mybot foo")
             true "foo" (bot.UserCommand (Sample.returning "foo" PyNone))
             Sample.world0 eq_refl eq_refl eq_refl eq_refl eq_refl).
  - exact (help_facts.help_describes_known_command Sample.no_format
             Sample.foo_bot Sample.private_chat
             (Sample.text_message Sample.private_chat "/help start")
             false "start" bot.DefaultStart Sample.world0
             eq_refl eq_refl eq_refl eq_refl eq_refl).
Defined.

Lemma raising_hook_stops_processing_witness :
  let hello := Sample.text_message Sample.private_chat "hello" in
  let call (fname : string) :=
    EvCall fname (ArgsMessage Sample.private_chat hello) in
  bot.process Sample.no_format Cases.boom_bot
    (Sample.text_update Sample.private_chat "hello") Sample.world0
  = (Raise (UserError "boom"),
     {| w_user := tt; w_trace := [call "A"; call "boom"];
        w_store := ∅; w_heap := ∅ |}).
Proof.
  intros hello call.
  pose (wA := {| w_user := tt; w_trace := [call "A"];
                 w_store := (∅ : gmap Z Z);
                 w_heap := (∅ : gmap loc dict) |}).
  apply (walk_facts.raising_hook_stops_processing Sample.no_format
           Cases.boom_bot _ hello
           [bot.BoundProcessCommands;
            bot.UserFn (Sample.returning "A" PyNone)]
           [bot.UserFn (Sample.returning "C" PyNone)]
           (bot.UserFn (Cases.failing "boom" (UserError "boom")))
           (UserError "boom") Sample.world0 wA).
  - reflexivity.
  - reflexivity.
  - apply (bot.passes_cons _ _ _ _ _ _ PyNone _ Sample.world0);
      [reflexivity|reflexivity|].
    apply (bot.passes_cons _ _ _ _ _ _ PyNone _ wA);
      [reflexivity|reflexivity|].
    apply bot.passes_nil.
  - reflexivity.
Defined.

Lemma registered_command_shadows_processors_witness :
  let message := Sample.text_message Sample.private_chat "/foo bar" in
  let before :=
    EvCall "B" (ArgsMessage Sample.private_chat message) in
  bot.process Sample.no_format
    (registrations.register_all Cases.setup (bot.Bot_init "mybot"))
    (Sample.text_update Sample.private_chat "/foo bar") Sample.world0
  = (Ret tt,
     {| w_user := tt;
        w_trace :=
          [before; EvCall "foo" (ArgsCommand Sample.private_chat message
                                   ["bar"])];
        w_store := ∅; w_heap := ∅ |}).
Proof.
  intros message before.
  pose (wB := {| w_user := tt; w_trace := [before];
                 w_store := (∅ : gmap Z Z);
                 w_heap := (∅ : gmap loc dict) |}).
  apply (walk_facts.registered_command_shadows_processors Sample.no_format
           "mybot" Cases.setup (Sample.text_update Sample.private_chat
                                  "/foo bar")
           message "foo" false (Some "bar") (Sample.returning "foo" PyNone)
           PyNone tt Sample.world0 wB);
    try reflexivity.
  apply (bot.passes_cons _ _ _ _ _ _ PyNone _ wB);
    [reflexivity|reflexivity|].
  apply bot.passes_nil.
Defined.

(** *** The payment chains *)

Lemma unclaimed_payment_update_is_logged_witness :
  let call (fname : string) :=
    EvCall fname
      (ArgsMessage Sample.private_chat
         (Sample.text_message Sample.private_chat "hello")) in
  payments.process_pre_checkout_query Sample.mybot
    {["pre_checkout_query" := Cases.ac_chain]}
    (Sample.text_update Sample.private_chat "hello") Sample.world0
  = (Ret tt,
     {| w_user := tt;
        w_trace :=
          [EvLog "Processing update #1 with the hook A..."; call "A";
           EvLog "Processing update #1 with the hook C..."; call "C";
           EvLog "No hook actually processed the #1 update."];
        w_store := ∅; w_heap := ∅ |}).
Proof.
  intros call.
  pose (wA := {| w_user := tt;
                 w_trace :=
                   [EvLog "Processing update #1 with the hook A...";
                    call "A"];
                 w_store := (∅ : gmap Z Z);
                 w_heap := (∅ : gmap loc dict) |}).
  pose (wC := {| w_user := tt;
                 w_trace :=
                   [EvLog "Processing update #1 with the hook A...";
                    call "A";
                    EvLog "Processing update #1 with the hook C...";
                    call "C"];
                 w_store := (∅ : gmap Z Z);
                 w_heap := (∅ : gmap loc dict) |}).
  refine (eq_trans
            (proj2 (walk_facts.unclaimed_payment_update_is_logged
                      Sample.mybot
                      {["pre_checkout_query" := Cases.ac_chain]}
                      (Sample.text_update Sample.private_chat "hello")
                      Cases.ac_chain Sample.world0 wC _) _) _).
  - apply (payments.chain_passes_cons _ _ _ _ PyNone _ wA);
      [reflexivity|reflexivity|].
    apply (payments.chain_passes_cons _ _ _ _ PyNone _ wC);
      [reflexivity|reflexivity|].
    apply payments.chain_passes_nil.
  - reflexivity.
  - reflexivity.
Defined.

Lemma pre_checkout_stops_at_first_claim_witness :
  let call (fname : string) :=
    EvCall fname
      (ArgsMessage Sample.private_chat
         (Sample.text_message Sample.private_chat "hello")) in
  payments.process_pre_checkout_query Sample.mybot
    {["pre_checkout_query" := Sample.abc_chain]}
    (Sample.text_update Sample.private_chat "hello") Sample.world0
  = (Ret tt,
     {| w_user := tt;
        w_trace :=
          [EvLog "Processing update #1 with the hook A..."; call "A";
           EvLog "Processing update #1 with the hook B..."; call "B";
           EvLog "Update #1 was just processed by the B hook."];
        w_store := ∅; w_heap := ∅ |}).
Proof.
  intros call.
  pose (wA := {| w_user := tt;
                 w_trace :=
                   [EvLog "Processing update #1 with the hook A...";
                    call "A"];
                 w_store := (∅ : gmap Z Z);
                 w_heap := (∅ : gmap loc dict) |}).
  pose (wB := {| w_user := tt;
                 w_trace :=
                   [EvLog "Processing update #1 with the hook A...";
                    call "A";
                    EvLog "Processing update #1 with the hook B...";
                    call "B"];
                 w_store := (∅ : gmap Z Z);
                 w_heap := (∅ : gmap loc dict) |}).
  refine (eq_trans
            (walk_facts.pre_checkout_stops_at_first_claim Sample.mybot
               {["pre_checkout_query" := Sample.abc_chain]}
               (Sample.text_update Sample.private_chat "hello")
               [Cases.plain (Sample.returning "A" PyNone)]
               [Cases.plain (Sample.returning "C" PyNone)]
               (Cases.plain (Sample.returning "B" (PyBool true)))
               (PyBool true) Sample.world0 wA wB _ _ _ _) _).
  - reflexivity.
  - apply (payments.chain_passes_cons _ _ _ _ PyNone _ wA);
      [reflexivity|reflexivity|].
    apply payments.chain_passes_nil.
  - reflexivity.
  - reflexivity.
  - reflexivity.
Defined.

Lemma raising_payment_hook_propagates_witness :
  let call (fname : string) :=
    EvCall fname
      (ArgsMessage Sample.private_chat
         (Sample.text_message Sample.private_chat "hello")) in
  payments.process_shipping_query Sample.mybot
    {["shipping_query" := Cases.boom_chain]}
    (Sample.text_update Sample.private_chat "hello") Sample.world0
  = (Raise (UserError "boom"),
     {| w_user := tt;
        w_trace :=
          [EvLog "Processing update #1 with the hook A..."; call "A";
           EvLog "Processing update #1 with the hook boom..."; call "boom"];
        w_store := ∅; w_heap := ∅ |}).
Proof.
  intros call.
  pose (wA := {| w_user := tt;
                 w_trace :=
                   [EvLog "Processing update #1 with the hook A...";
                    call "A"];
                 w_store := (∅ : gmap Z Z);
                 w_heap := (∅ : gmap loc dict) |}).
  refine (proj1 (walk_facts.raising_payment_hook_propagates Sample.mybot
                   {["shipping_query" := Cases.boom_chain]}
                   (Sample.text_update Sample.private_chat "hello")
                   [Cases.plain (Sample.returning "A" PyNone)]
                   [Cases.plain (Sample.returning "C" PyNone)]
                   (Cases.plain (Cases.failing "boom" (UserError "boom")))
                   (UserError "boom") Sample.world0 wA _ _ _) _).
  - apply (payments.chain_passes_cons _ _ _ _ PyNone _ wA);
      [reflexivity|reflexivity|].
    apply payments.chain_passes_nil.
  - reflexivity.
  - reflexivity.
Defined.

(** *** Invoices, prices and shipping options *)

Lemma send_issues_one_call_witness :
  exists args,
    payment_objects.send
      (Cases.to_chat (Some "tok")
         (payments.do_calls Cases.tea_calls payments.Invoice_init))
      Sample.world0
    = (Ret (PyBool true), push (EvApi "sendInvoice" args) Sample.world0)
    /\ kw_get "provider_token" args = Some (PyStr "tok")
    /\ kw_get "total_price" args = Some (PyInt 950)
    /\ kw_get "prices" args
       = Some (PyStr ("[{" +:+ String Json.dquote "label"
                      +:+ String Json.dquote ": "
                      +:+ String Json.dquote "tea"
                      +:+ String Json.dquote ", "
                      +:+ String Json.dquote "amount"
                      +:+ String Json.dquote ": 250}, {"
                      +:+ String Json.dquote "label"
                      +:+ String Json.dquote ": "
                      +:+ String Json.dquote "cup"
                      +:+ String Json.dquote ", "
                      +:+ String Json.dquote "amount"
                      +:+ String Json.dquote ": 700}]"))
    /\ kw_get "chat_id" args = Some (PyInt 7).
Proof.
  destruct (payment_object_facts.send_issues_one_call
              (Cases.to_chat (Some "tok")
                 (payments.do_calls Cases.tea_calls payments.Invoice_init))
              "tok" Cases.tea_calls Sample.world0 eq_refl)
    as (args & H1 & H2 & H3 & H4 & H5).
  - intros H. discriminate H.
  - reflexivity.
  - exists args. split; [exact H1|]. split; [exact H2|].
    split; [exact H3|]. split; [exact H4|].
    rewrite H5; [reflexivity|].
    apply (bool_decide_unpack _). vm_compute. exact I.
Defined.

Lemma with_block_sends_at_exit_witness :
  (payment_objects.with_invoice
     (Cases.to_chat (Some "tok") payments.Invoice_init)
     Cases.add_tea_and_fail Sample.world0
   = (Raise (UserError "boom"), Sample.world0))
  /\ (payment_objects.with_invoice
        (Cases.to_chat None payments.Invoice_init) Cases.add_tea
        Sample.world0
      = (Raise (ValueError
                  ("You must specify a payment provider. "
                   +:+ "Please read the documentation.")), Sample.world0))
  /\ (exists args,
         payment_objects.with_invoice
           (Cases.to_chat (Some "tok") payments.Invoice_init) Cases.add_tea
           Sample.world0
         = (Ret tt, push (EvApi "sendInvoice" args) Sample.world0)
         /\ kw_get "total_price" args = Some (PyInt 250)).
Proof.
  split; [|split].
  - exact (proj1 (payment_object_facts.with_block_sends_at_exit
                    (Cases.to_chat (Some "tok") payments.Invoice_init)
                    Cases.add_tea_and_fail
                    (payments.add_product "tea" 250 payments.Invoice_init)
                    Sample.world0)
             (UserError "boom") eq_refl).
  - exact (proj1 (proj2 (payment_object_facts.with_block_sends_at_exit
                           (Cases.to_chat None payments.Invoice_init)
                           Cases.add_tea
                           (payments.add_product "tea" 250
                              payments.Invoice_init)
                           Sample.world0))
             eq_refl (or_introl eq_refl)).
  - eexists. split.
    + apply (proj2 (proj2 (payment_object_facts.with_block_sends_at_exit
                             (Cases.to_chat (Some "tok")
                                payments.Invoice_init)
                             Cases.add_tea
                             (payments.add_product "tea" 250
                                payments.Invoice_init)
                             Sample.world0))
               "tok" eq_refl eq_refl).
      intros H. discriminate H.
    + reflexivity.
Defined.

Lemma shipping_option_sees_later_prices_witness :
  let later :=
    snd (payment_objects.Prices_add Cases.tea_prices "cup" 700
           Cases.price_store) in
  let both :=
    JList [payment_objects.item_json
             {| payments.label := "tea"; payments.amount := 250 |};
           payment_objects.item_json
             {| payments.label := "cup"; payments.amount := 700 |}] in
  fst (payment_objects.ShippingOptions__to_json
         (payment_objects.ShippingOptions_add "exp" "Express"
            Cases.tea_prices Cases.one_option) later)
  = Ret (Json.dumps
           (JList [JDict [("id", JStr "std"); ("title", JStr "Standard");
                          ("prices", both)];
                   JDict [("id", JStr "exp"); ("title", JStr "Express");
                          ("prices", both)]]))
  /\ payment_objects.option_json later
       {| payment_objects.option_id := "std";
          payment_objects.option_title := "Standard";
          payment_objects.option_prices := 1%positive |}
     = JDict [("id", JStr "std"); ("title", JStr "Standard");
              ("prices", both)].
Proof.
  intros later both.
  pose proof (payment_object_facts.shipping_option_sees_later_prices
                Cases.price_store Cases.one_option Cases.tea_prices
                "exp" "Express" "cup" 700) as [H1 H2].
  split.
  - refine (eq_trans H1 _). reflexivity.
  - refine (eq_trans (H2 _ _ _) _).
    + constructor.
    + reflexivity.
    + reflexivity.
Defined.

(** *** The text hooks *)

Lemma text_hooks_skip_other_messages_witness :
  hooks.hook_call (hooks.of_message_contains (Sample.spam_hook true))
    Sample.mybot Cases.update_without_text Sample.world0
  = (Ret PyNone, Sample.world0)
  /\ hooks.hook_call (hooks.of_command Sample.foo_hook) Sample.mybot
       Cases.update_without_text Sample.world0
     = (Ret PyNone, Sample.world0)
  /\ hooks.hook_call (Cases.plain (Sample.returning "A" PyNone))
       Sample.mybot Cases.update_without_text Sample.world0
     = (Ret PyNone,
        push (EvCall "A" (ArgsMessage Sample.private_chat
                            Cases.message_without_text)) Sample.world0).
Proof.
  pose proof (text_hook_facts.text_hooks_skip_other_messages Sample.mybot
                Cases.update_without_text Cases.message_without_text
                Sample.world0 eq_refl eq_refl) as (H1 & H2 & H3).
  split; [exact (proj2 (H1 (Sample.spam_hook true)))|].
  split; [exact (H2 Sample.foo_hook)|].
  exact (H3 (hooks.Hook_init (Sample.returning "A" PyNone) Sample.root)).
Defined.

Lemma message_equals_calls_witness :
  let message := Sample.text_message Sample.private_chat "hello WORLD" in
  hooks.hook_call
    (hooks.of_message_equals
       (hooks.MessageHook_init (Sample.returning "hi" (PyBool true))
          Sample.root (Cases.hello_args true)))
    Sample.mybot (Sample.text_update Sample.private_chat "hello WORLD")
    Sample.world0
  = (Ret (PyBool true),
     push (EvCall "hi" (ArgsMessage Sample.private_chat message))
       Sample.world0)
  /\ hooks.hook_call
       (hooks.of_message_equals
          (hooks.MessageHook_init (Sample.returning "hi" (PyBool true))
             Sample.root (Cases.hello_args false)))
       Sample.mybot (Sample.text_update Sample.private_chat "hello WORLD")
       Sample.world0
     = (Ret PyNone, Sample.world0).
Proof.
  intros message. split.
  - exact (text_hook_facts.message_equals_calls
             (Sample.returning "hi" (PyBool true)) Sample.root
             (Cases.hello_args true) Sample.mybot
             (Sample.text_update Sample.private_chat "hello WORLD")
             message "hello WORLD" Sample.world0 eq_refl eq_refl).
  - exact (text_hook_facts.message_equals_calls
             (Sample.returning "hi" (PyBool true)) Sample.root
             (Cases.hello_args false) Sample.mybot
             (Sample.text_update Sample.private_chat "hello WORLD")
             message "hello WORLD" Sample.world0 eq_refl eq_refl).
Defined.

Lemma contains_needs_one_token_witness :
  hooks.hook_call
    (hooks.of_message_contains
       (hooks.MessageHook_init (Sample.returning "hi" (PyBool true))
          Sample.root (Cases.hello_args false)))
    Sample.mybot
    (Sample.text_update Sample.private_chat "say Hello World now")
    Sample.world0
  = (Ret (PyBool false), Sample.world0).
Proof.
  exact (text_hook_facts.contains_needs_one_token
           (Sample.returning "hi" (PyBool true)) Sample.root
           (Cases.hello_args false) Sample.mybot
           (Sample.text_update Sample.private_chat "say Hello World now")
           (Sample.text_message Sample.private_chat "say Hello World now")
           "say Hello World now" Sample.world0 eq_refl eq_refl eq_refl).
Defined.

Lemma command_hook_runs_handler_witness :
  let text :=
    "/foo@mybot" +:+ String tab ("bar" +:+ String newline " baz ") in
  let message := Sample.text_message Sample.private_chat text in
  hooks.hook_call (hooks.of_command Sample.foo_hook) Sample.mybot
    (Sample.text_update Sample.private_chat text) Sample.world0
  = (Ret (PyBool true),
     push (EvCall "foo"
             (ArgsCommand Sample.private_chat message ["bar"; "baz"; ""]))
       Sample.world0).
Proof.
  intros text message.
  exact (text_hook_facts.command_hook_runs_handler
           (Sample.returning "foo" PyNone) Sample.root Cases.foo_args
           Sample.foo_hook Sample.mybot
           (Sample.text_update Sample.private_chat text) message true
           (String tab ("bar" +:+ String newline " baz ")) Sample.world0
           eq_refl eq_refl eq_refl eq_refl eq_refl eq_refl).
Defined.

Lemma command_hook_ignores_other_names_witness :
  hooks.hook_call (hooks.of_command Sample.foo_hook) Sample.mybot
    (Sample.text_update Sample.private_chat "/foobar baz") Sample.world0
  = (Ret PyNone, Sample.world0).
Proof.
  apply (text_hook_facts.command_hook_ignores_other_names
           (Sample.returning "foo" PyNone) Sample.root Cases.foo_args
           Sample.foo_hook Sample.mybot
           (Sample.text_update Sample.private_chat "/foobar baz")
           (Sample.text_message Sample.private_chat "/foobar baz")
           "foobar" " baz" Sample.world0); try reflexivity.
  intros H. discriminate H.
Defined.

Lemma command_name_accepted_iff_witness :
  (exists self,
      hooks.CommandHook_init (Sample.returning "foo" PyNone) Sample.root
        Cases.foo_args = Ret self
      /\ hooks._name self = "foo" /\ hooks._hidden self = false
      /\ hooks._order self = 0)
  /\ hooks.CommandHook_init (Sample.returning "foo" PyNone) Sample.root
       Cases.dash_args
     = Raise (ValueError "Invalid command name: my-cmd")
  /\ (exists self,
         hooks.CommandHook_init (Sample.returning "foo" PyNone) Sample.root
           Cases.newline_args = Ret self
         /\ hooks.hook_call (hooks.of_command self) Sample.mybot
              (Sample.text_update Sample.private_chat "/foo") Sample.world0
            = (Ret PyNone, Sample.world0)).
Proof.
  split; [|split].
  - apply (proj1 (text_hook_facts.command_name_accepted_iff
                    (Sample.returning "foo" PyNone) Sample.root
                    Cases.foo_args)).
    left. reflexivity.
  - apply (proj1 (proj2 (text_hook_facts.command_name_accepted_iff
                           (Sample.returning "foo" PyNone) Sample.root
                           Cases.dash_args))).
    intros [H|(w & Hw & H)]; [discriminate H|].
    assert (String.length "my-cmd"
            = String.length (w +:+ bot.nl)) as Hlen by now rewrite <- H.
    destruct w as [|a [|b [|c [|d [|e [|g w]]]]]]; try discriminate Hlen;
      try discriminate H.
    simpl in Hlen. injection Hlen as Hlen.
    destruct w; discriminate Hlen.
  - eexists. split; [reflexivity|].
    apply (proj2 (proj2 (text_hook_facts.command_name_accepted_iff
                           (Sample.returning "foo" PyNone) Sample.root
                           Cases.newline_args))
             _ Sample.mybot _
             (Sample.text_message Sample.private_chat "/foo") "/foo");
      reflexivity.
Defined.

(** *** The inline hook *)

Lemma inline_exhausted_generator_witness :
  let empty_answer :=
    EvApi "answerInlineQuery"
      [("inline_query_id", PyStr "q1"); ("cache_time", PyInt 300);
       ("is_personal", PyBool true); ("results", PyStr "[]");
       ("next_offset", PyInt 10)] in
  (exists (r : pyval) (w' : World unit),
      hooks.InlineHook__call (Sample.pager Cases.two_articles) Sample.mybot
        (Sample.inline_update "5") Sample.shelf_at_5
      = (Ret r, w')
      /\ last (w_trace w') = Some empty_answer
      /\ w_store w' !! 42 = Some 10
      /\ w_heap w' = w_heap Sample.shelf_at_5)
  /\ (exists (r : pyval) (w' : World unit),
         hooks.InlineHook__call Cases.text_pager Sample.mybot
           (Sample.inline_update "5") Sample.shelf_at_5
         = (Ret r, w')
         /\ last (w_trace w') = Some empty_answer
         /\ w_store w' !! 42 = Some 10
         /\ w_heap w' = w_heap Sample.shelf_at_5).
Proof.
  intros empty_answer. split.
  - apply (inline_facts.inline_exhausted_generator
             (Sample.pager Cases.two_articles) Sample.mybot
             (Sample.inline_update "5") (Sample.inline_query "5")
             (PyGen Cases.two_articles) tt Sample.shelf_at_5).
    + reflexivity.
    + reflexivity.
    + vm_compute. split; discriminate.
    + left. exists Cases.two_articles. repeat split.
  - apply (inline_facts.inline_exhausted_generator
             Cases.text_pager Sample.mybot
             (Sample.inline_update "5") (Sample.inline_query "5")
             (PyStr "abc") tt Sample.shelf_at_5).
    + reflexivity.
    + reflexivity.
    + vm_compute. split; discriminate.
    + right. exists "abc". split; [reflexivity|]. vm_compute. lia.
Defined.

Lemma inline_pages_follow_on_witness :
  exists (r1 r2 : pyval) (w1 w2 : World unit),
    hooks.InlineHook__call (Sample.pager Sample.fresh_articles) Sample.mybot
      (Sample.inline_update "") Sample.shelf
    = (Ret r1, w1)
    /\ hooks.InlineHook__call (Sample.pager Sample.fresh_articles)
         Sample.mybot (Sample.inline_update "5") w1
       = (Ret r2, w2)
    /\ result_ids (w_heap w2)
         [1; 2; 3; 4; 5; 6; 7; 8; 9; 10]%positive
       = ids_from 0 10
    /\ w_store w2 !! 42 = Some 10.
Proof.
  destruct (inline_facts.inline_pages_follow_on
              (Sample.pager Sample.fresh_articles) Sample.mybot
              (Sample.inline_update "") (Sample.inline_update "5")
              (Sample.inline_query "") (Sample.inline_query "5")
              Sample.fresh_articles Sample.shelf)
    as (r1 & r2 & w1 & w2 & H1 & H2 & _ & _ & _ & H6).
  - reflexivity.
  - reflexivity.
  - reflexivity.
  - reflexivity.
  - intros inline u. exists u. reflexivity.
  - vm_compute. discriminate.
  - vm_compute. discriminate.
  - vm_compute. discriminate.
  - reflexivity.
  - reflexivity.
  - apply Forall_forall. apply (bool_decide_unpack _). vm_compute. exact I.
  - exists r1, r2, w1, w2. split; [exact H1|]. split; [exact H2|].
    split; [|exact H6].
    vm_compute in H1. injection H1 as _ <-.
    vm_compute in H2. injection H2 as _ <-.
    vm_compute. reflexivity.
Defined.

Lemma inline_writes_only_ids_witness :
  exists d',
    w_heap (snd (hooks.InlineHook__call (Sample.pager Sample.fresh_articles)
                   Sample.mybot (Sample.inline_update "") Sample.shelf))
    !! 3%positive = Some d'
    /\ dict_get "title" d' = Some (JStr "3")
    /\ dict_get "type" d' = Some (JStr "article").
Proof.
  destruct (inline_facts.inline_writes_only_ids
              (Sample.pager Sample.fresh_articles) Sample.mybot
              (Sample.inline_update "") (Sample.inline_query "")
              Sample.fresh_articles tt Sample.shelf 3%positive
              (Sample.article "3"))
    as (d' & Hd' & Hk & _).
  - reflexivity.
  - reflexivity.
  - vm_compute. discriminate.
  - apply Forall_forall. apply (bool_decide_unpack _). vm_compute. exact I.
  - reflexivity.
  - exists d'. split; [exact Hd'|]. split.
    + rewrite Hk; [reflexivity|]. intros H. discriminate H.
    + rewrite Hk; [reflexivity|]. intros H. discriminate H.
Defined.

Lemma inline_failures_send_nothing_witness :
  let call (offset : string) :=
    EvCall "search"
      (ArgsInline (Sample.inline_query offset) {| user_id := 42 |} "cats") in
  let moved (offset : string) (o : Z) (heap : gmap loc dict) : World unit :=
    {| w_user := tt;
       w_trace :=
         [call offset; EvIpc (InlineGet 42); EvIpc (InlineUpdate 42 (o + 5))];
       w_store := {[42 := o + 5]}; w_heap := heap |} in
  hooks.InlineHook__call Cases.failing_pager Sample.mybot
    (Sample.inline_update "") Sample.shelf_at_5
  = (Raise (UserError "boom"),
     {| w_user := tt;
        w_trace := [EvIpc (InlinePurge 42); call ""];
        w_store := ∅; w_heap := w_heap Sample.shelf |})
  /\ (exists msg,
         hooks.InlineHook__call Cases.none_pager Sample.mybot
           (Sample.inline_update "5") Sample.shelf_at_5
         = (Raise (TypeError msg), moved "5" 5 (w_heap Sample.shelf)))
  /\ (exists msg,
         hooks.InlineHook__call Cases.text_pager Sample.mybot
           (Sample.inline_update "1")
           (set_store {[42 := 1]} Sample.shelf)
         = (Raise (TypeError msg), moved "1" 1 (w_heap Sample.shelf)))
  /\ (exists msg,
         hooks.InlineHook__call (Sample.pager Sample.fresh_articles)
           Sample.mybot (Sample.inline_update "5") Cases.shelf_far
         = (Raise (ValueError msg),
            moved "5" (maxsize + 1) (w_heap Sample.shelf)))
  /\ (exists w',
         hooks.InlineHook__call (Sample.pager Cases.broken_articles)
           Sample.mybot (Sample.inline_update "1")
           (set_store {[42 := 1]} Sample.shelf)
         = (Raise (UserError "boom"), w')
         /\ w_store w' !! 42 = Some 6
         /\ result_ids (w_heap w') [1; 2]%positive
            = [None; Some (JInt 1)]
         /\ w_trace w'
            = [call "1"; EvIpc (InlineGet 42); EvIpc (InlineUpdate 42 6)]).
Proof.
  intros call moved.
  split; [|split; [|split; [|split]]].
  - refine (eq_trans
              (proj1 (proj2 (inline_facts.inline_failures_send_nothing
                               Cases.failing_pager Sample.mybot
                               (Sample.inline_update "")
                               (Sample.inline_query "")
                               Sample.shelf_at_5 eq_refl))
                 (UserError "boom") tt eq_refl) _).
    vm_compute. reflexivity.
  - destruct (proj1 (proj2
                (proj2 (proj2 (inline_facts.inline_failures_send_nothing
                                 Cases.none_pager Sample.mybot
                                 (Sample.inline_update "5")
                                 (Sample.inline_query "5")
                                 Sample.shelf_at_5 eq_refl))
                   PyNone tt eq_refl)))
      as (msg & H).
    + vm_compute. split; discriminate.
    + left. reflexivity.
    + exists msg. refine (eq_trans H _). vm_compute. reflexivity.
  - destruct (proj1 (proj2
                (proj2 (proj2 (inline_facts.inline_failures_send_nothing
                                 Cases.text_pager Sample.mybot
                                 (Sample.inline_update "1")
                                 (Sample.inline_query "1")
                                 (set_store {[42 := 1]} Sample.shelf)
                                 eq_refl))
                   (PyStr "abc") tt eq_refl)))
      as (msg & H).
    + vm_compute. split; discriminate.
    + right. right. right. exists "abc".
      split; [reflexivity|]. vm_compute. split; lia.
    + exists msg. refine (eq_trans H _). vm_compute. reflexivity.
  - destruct (proj1
                (proj2 (proj2 (inline_facts.inline_failures_send_nothing
                                 (Sample.pager Sample.fresh_articles)
                                 Sample.mybot (Sample.inline_update "5")
                                 (Sample.inline_query "5")
                                 Cases.shelf_far eq_refl))
                   (PyGen Sample.fresh_articles) tt eq_refl))
      as (msg & H).
    + right. vm_compute. reflexivity.
    + exists msg. refine (eq_trans H _). vm_compute. reflexivity.
  - destruct (proj2 (proj2
                (proj2 (proj2 (inline_facts.inline_failures_send_nothing
                                 (Sample.pager Cases.broken_articles)
                                 Sample.mybot (Sample.inline_update "1")
                                 (Sample.inline_query "1")
                                 (set_store {[42 := 1]} Sample.shelf)
                                 eq_refl))
                   (PyGen Cases.broken_articles) tt eq_refl))
                Cases.broken_articles (UserError "boom"))
      as (w' & E & Ht & Hs & Hh).
    + vm_compute. split; discriminate.
    + reflexivity.
    + apply Forall_forall. apply (bool_decide_unpack _).
      vm_compute. exact I.
    + reflexivity.
    + exists w'. split; [exact E|]. split; [exact Hs|].
      split; [now rewrite Hh|exact Ht].
Defined.

End examples.
